(** * The domains tray widget of qubes-desktop-linux-manager

    A shallow embedding of [qui/tray/domains.py]: the state dictionary,
    the per-domain menu item, and the handlers of [DomainTray] that keep
    the tray menu in step with the stream of domain events.

    Conventions of the embedding.

    - A Python object that the code mutates lives in one place.  A
      [DomainMenuItem] is held by the tray menu and by the [menu_items]
      dictionary at once; the dictionary owns the record and the tray menu
      holds a reference to it, which is the item's [vm] handle ([None] for
      the header).
    - [menu_items] is a Python dict, so it keeps insertion order; it is an
      association list, with new keys appended.
    - The admin API ([self.qapp]) and the file system are outside the
      program.  One handler call sees one snapshot [World] of them, which
      says for every call what it answers or which exception it raises.
    - Handlers run in the monad [M]: they read and write the [DomainTray]
      and may raise; what was written before an exception stays written.
    - The property [shift_pressed] creates its attribute on first read, with
      the value [False].  The state holds the attribute as an option and the
      getter reads [None] as [false]; the store the getter makes changes no
      later read and is left out. *)

From Stdlib Require Import List String Ascii Bool Arith Lia Permutation.
From Stdlib Require OrderedTypeEx.
Import ListNotations.
Open Scope string_scope.
Open Scope list_scope.

(** ** Exceptions *)

(** The exception classes the source names, and [Exception] for any other.
    [AttributeError] is what Python raises for an attribute of [None]. *)
Inductive exn : Type :=
| KeyError
| AttributeError
| QubesException
| QubesPropertyAccessError
| QubesVMNotFoundError
| Exception.

Definition exn_eqb (a b : exn) : bool :=
  match a, b with
  | KeyError, KeyError | AttributeError, AttributeError
  | QubesException, QubesException
  | QubesPropertyAccessError, QubesPropertyAccessError
  | QubesVMNotFoundError, QubesVMNotFoundError
  | Exception, Exception => true
  | _, _ => false
  end.

(** [issubclass e c]: an [except c] clause catches a raised [e].  The two
    qubesadmin classes derive from [QubesException]; in qubesadmin
    [QubesPropertyAccessError] is also an [AttributeError] and
    [QubesVMNotFoundError] a [KeyError]. *)
Definition issubclass (e c : exn) : bool :=
  match c with
  | Exception => true
  | QubesException =>
      match e with
      | QubesException | QubesPropertyAccessError | QubesVMNotFoundError => true
      | _ => false
      end
  | AttributeError =>
      match e with
      | AttributeError | QubesPropertyAccessError => true
      | _ => false
      end
  | KeyError =>
      match e with
      | KeyError | QubesVMNotFoundError => true
      | _ => false
      end
  | _ => exn_eqb e c
  end.

Inductive result (A : Type) : Type :=
| Ok (a : A)
| Raise (e : exn).
Arguments Ok {A} a.
Arguments Raise {A} e.

(** ** The outside world *)

(** A domain handle, as [qapp.domains] hands it out: its name and its class
    tag, both fixed for the life of the handle.  Two handles are equal when
    their names are ([QubesVM.__eq__]). *)
Record VM : Type := { name : string; klass : string }.

Definition VM_eqb (a b : VM) : bool :=
  (name a =? name b) && (klass a =? klass b).

(** What the admin API answers for one domain.  Method calls and the
    attributes read under a [try] are results; [template] stands for
    [getattr(vm, "template", None)], holding the template's name. *)
Record VMApi : Type := {
  is_preload : bool;
  get_power_state : result string;
  is_running : result bool;
  is_paused : result bool;
  template : result (option string);
  template_for_dispvms : result bool;
  volumes : list (result bool);
  unpause : result unit;
  auto_cleanup : bool;
  features_internal : bool;
  features_expert_mode : bool;
  features_gui : bool;
  debug : bool;
  guivm : bool
}.

Record World : Type := {
  domains : list VM;
  api : string -> VMApi;
  isfile : string -> bool
}.

(** [self.qapp.domains[name]]; [None] stands for [KeyError]. *)
Fixpoint domains_getitem (l : list VM) (n : string) : option VM :=
  match l with
  | [] => None
  | v :: rest => if name v =? n then Some v else domains_getitem rest n
  end.

(** [name in self.qapp.domains]. *)
Definition domains_contains (l : list VM) (n : string) : bool :=
  existsb (fun v => name v =? n) l.

(** ** Widgets *)

Inductive ActionItem : Type :=
| OpenFileManagerItem
| RunTerminalItem (as_root : bool) (label : string)
| RunDebugConsoleItem (visible : bool)
| PreferencesItem
| PauseItem
| UnpauseItem
| ShutdownItem (force : bool) (label : string)
| RestartItem (force : bool) (label : string)
| KillItem
| LogItem (title path : string)
| InternalInfoItem.

Inductive MenuClass : Type := StartedMenu | PausedMenu | DebugMenu | InternalMenu.

Record Menu : Type := { menu_class : MenuClass; children : list ActionItem }.

(** The text of the name label: what the decorator put there, or what
    [update_state] set with [set_label] or [set_markup]. *)
Inductive NameLabel : Type :=
| label_initial
| set_label (text : string)
| set_markup (markup : string).

Record DomainMenuItem : Type := {
  vm : option VM;
  visible : bool;
  spinner : bool;
  name_label : NameLabel;
  submenu : option Menu;
  outdated : bool
}.

(** A child of [tray_menu].  Only a [DomainMenuItem] has a [vm] attribute. *)
Inductive Widget : Type :=
| WDomainMenuItem (v : option VM)
| SeparatorMenuItem
| QubesManagerItem.

Record Notification : Type := {
  title : string;
  body : string;
  high_priority : bool;
  icon : option string;
  buttons : list (string * string)
}.

(** Calls that leave the program: desktop notifications and the unpause
    request to the admin API. *)
Inductive Effect : Type :=
| send_notification (id : option string) (n : Notification)
| withdraw_notification (id : string)
| unpause_call (vm_name : string).

Record DomainTray : Type := {
  tray_menu : list Widget;
  menu_items : list (string * DomainMenuItem);
  pause_notification_out : bool;
  _shift_pressed : option bool;
  expert_mode : bool;
  log : list Effect
}.

Definition with_tray_menu (f : list Widget -> list Widget) (s : DomainTray) :=
  {| tray_menu := f (tray_menu s); menu_items := menu_items s;
     pause_notification_out := pause_notification_out s;
     _shift_pressed := _shift_pressed s; expert_mode := expert_mode s;
     log := log s |}.

Definition with_menu_items
  (f : list (string * DomainMenuItem) -> list (string * DomainMenuItem))
  (s : DomainTray) :=
  {| tray_menu := tray_menu s; menu_items := f (menu_items s);
     pause_notification_out := pause_notification_out s;
     _shift_pressed := _shift_pressed s; expert_mode := expert_mode s;
     log := log s |}.

Definition with_pause_notification_out (b : bool) (s : DomainTray) :=
  {| tray_menu := tray_menu s; menu_items := menu_items s;
     pause_notification_out := b;
     _shift_pressed := _shift_pressed s; expert_mode := expert_mode s;
     log := log s |}.

Definition with_shift_pressed (b : bool) (s : DomainTray) :=
  {| tray_menu := tray_menu s; menu_items := menu_items s;
     pause_notification_out := pause_notification_out s;
     _shift_pressed := Some b; expert_mode := expert_mode s;
     log := log s |}.

Definition with_log (f : list Effect -> list Effect) (s : DomainTray) :=
  {| tray_menu := tray_menu s; menu_items := menu_items s;
     pause_notification_out := pause_notification_out s;
     _shift_pressed := _shift_pressed s; expert_mode := expert_mode s;
     log := f (log s) |}.

(** ** The monad of handlers *)

Definition M (A : Type) : Type := DomainTray -> result A * DomainTray.

Definition ret {A} (a : A) : M A := fun s => (Ok a, s).

Definition bind {A B} (m : M A) (k : A -> M B) : M B :=
  fun s =>
    match m s with
    | (Ok a, s') => k a s'
    | (Raise e, s') => (Raise e, s')
    end.

Definition raise {A} (e : exn) : M A := fun s => (Raise e, s).

Definition get : M DomainTray := fun s => (Ok s, s).

Definition modify (f : DomainTray -> DomainTray) : M unit :=
  fun s => (Ok tt, f s).

(** An outcome dictated by the world. *)
Definition call {A} (r : result A) : M A := fun s => (r, s).

(** The first [except] clause whose class matches the exception. *)
Fixpoint find_clause {A} (e : exn) (clauses : list (exn * M A)) : option (M A) :=
  match clauses with
  | [] => None
  | (c, h) :: rest => if issubclass e c then Some h else find_clause e rest
  end.

(** [try: m  except c1: h1  except c2: h2 ...]; an exception that no clause
    matches goes on, and so does one raised inside a clause. *)
Definition try_excepts {A} (m : M A) (clauses : list (exn * M A)) : M A :=
  fun s =>
    match m s with
    | (Raise e, s') =>
        match find_clause e clauses with
        | Some h => h s'
        | None => (Raise e, s')
        end
    | r => r
    end.

Definition try_except {A} (m : M A) (c : exn) (h : M A) : M A :=
  try_excepts m [(c, h)].

Declare Scope tray_scope.
Delimit Scope tray_scope with tray.
Notation "x <- m ;; k" := (bind m (fun x => k))
  (at level 61, m at next level, right associativity) : tray_scope.
Notation "m ;; k" := (bind m (fun _ => k))
  (at level 61, right associativity) : tray_scope.
Open Scope tray_scope.

(** [for x in l: body x]. *)
Fixpoint for_each {A} (l : list A) (body : A -> M unit) : M unit :=
  match l with
  | [] => ret tt
  | x :: rest => body x ;; for_each rest body
  end.

Definition emit (e : Effect) : M unit :=
  modify (with_log (fun l => l ++ [e])).

(** ** Python values *)

(** Truth value of a string: the empty string is false. *)
Definition truthy (s : string) : bool := negb (s =? EmptyString).

(** Truth value of an optional string: [None] and the empty string are false. *)
Definition truthy_opt (o : option string) : bool :=
  match o with
  | Some s => truthy s
  | None => false
  end.

(** A dict with string keys, in insertion order. *)
Fixpoint dict_get {A} (d : list (string * A)) (k : string) : option A :=
  match d with
  | [] => None
  | (k', v) :: rest => if k' =? k then Some v else dict_get rest k
  end.

Definition dict_contains {A} (d : list (string * A)) (k : string) : bool :=
  match dict_get d k with
  | Some _ => true
  | None => false
  end.

(** [d[k] = v]: a present key keeps its place, a new one goes last. *)
Fixpoint dict_set {A} (d : list (string * A)) (k : string) (v : A) : list (string * A) :=
  match d with
  | [] => [(k, v)]
  | (k', v') :: rest =>
      if k' =? k then (k', v) :: rest else (k', v') :: dict_set rest k v
  end.

(** [del d[k]]. *)
Definition dict_del {A} (d : list (string * A)) (k : string) : list (string * A) :=
  filter (fun kv => negb (fst kv =? k)) d.

Definition STATE_DICTIONARY : list (string * string) :=
  [ ("domain-pre-start", "Transient");
    ("domain-start", "Running");
    ("domain-start-failed", "Halted");
    ("domain-paused", "Paused");
    ("domain-unpaused", "Running");
    ("domain-shutdown", "Halted");
    ("domain-pre-shutdown", "Transient");
    ("domain-shutdown-failed", "Running") ].

(** [STATE_DICTIONARY.get(event)], where [event] may be [None]. *)
Definition STATE_DICTIONARY_get (event : option string) : option string :=
  match event with
  | Some e => dict_get STATE_DICTIONARY e
  | None => None
  end.

(** ** The shift modifier: the getter *)

(** The property [shift_pressed]. *)
Definition shift_pressed (app : DomainTray) : bool :=
  match _shift_pressed app with
  | Some b => b
  | None => false
  end.

(** ** Action items and submenus *)

Definition dynamic_label (as_root : bool) : string :=
  if as_root then "Run Root Terminal" else "Run Terminal".

Definition new_RunTerminalItem (as_root : bool) : ActionItem :=
  RunTerminalItem as_root (dynamic_label as_root).

Definition shutdown_label (force : bool) : string :=
  if force then "Force shutdown" else "Shutdown".

Definition restart_label (force : bool) : string :=
  if force then "Force restart" else "Restart".

Definition new_ShutdownItem (force : bool) : ActionItem :=
  ShutdownItem force (shutdown_label force).

Definition new_RestartItem (force : bool) : ActionItem :=
  RestartItem force (restart_label force).

(** [RunTerminalItem.set_as_root]; other items have no such method and the
    caller tests the class first. *)
Definition set_as_root (as_root : bool) (c : ActionItem) : ActionItem :=
  match c with
  | RunTerminalItem _ _ => RunTerminalItem as_root (dynamic_label as_root)
  | _ => c
  end.

(** [ShutdownItem.set_force] and [RestartItem.set_force]. *)
Definition set_force (force : bool) (c : ActionItem) : ActionItem :=
  match c with
  | ShutdownItem _ _ => ShutdownItem force (shutdown_label force)
  | RestartItem _ _ => RestartItem force (restart_label force)
  | _ => c
  end.

Definition console_logs (v : VM) : list (string * string) :=
  [ ("Console Log", ("/var/log/xen/console/guest-" ++ name v ++ ".log")%string);
    ("QEMU Console Log",
     ("/var/log/xen/console/guest-" ++ name v ++ "-dm.log")%string) ].

Definition log_items (w : World) (v : VM) : list ActionItem :=
  map (fun np => LogItem (fst np) (snd np))
      (filter (fun np => isfile w (snd np)) (console_logs v)).

(** The condition of [StartedMenu.debug_console_update]. *)
Definition debug_console_visible (w : World) (app : DomainTray) (v : VM) : bool :=
  let a := api w (name v) in
  expert_mode app || debug a || negb (guivm a) || negb (features_gui a)
  || features_expert_mode a.

Definition new_StartedMenu (w : World) (app : DomainTray) (v : VM) : Menu :=
  {| menu_class := StartedMenu;
     children :=
       [ OpenFileManagerItem;
         new_RunTerminalItem (shift_pressed app);
         RunDebugConsoleItem (debug_console_visible w app v);
         PreferencesItem;
         PauseItem;
         new_ShutdownItem (shift_pressed app) ]
       ++ (if negb (klass v =? "DispVM") || negb (auto_cleanup (api w (name v)))
           then [new_RestartItem (shift_pressed app)] else []) |}.

Definition new_PausedMenu : Menu :=
  {| menu_class := PausedMenu;
     children := [PreferencesItem; UnpauseItem; KillItem] |}.

Definition new_DebugMenu (w : World) (v : VM) : Menu :=
  {| menu_class := DebugMenu;
     children := [PreferencesItem] ++ log_items w v ++ [KillItem] |}.

Definition new_InternalMenu (w : World) (v : VM) (working_correctly : bool) : Menu :=
  {| menu_class := InternalMenu;
     children :=
       [InternalInfoItem] ++ log_items w v
       ++ [if working_correctly then new_ShutdownItem false else KillItem] |}.

(** ** DomainMenuItem *)

Definition with_visible (b : bool) (i : DomainMenuItem) : DomainMenuItem :=
  {| vm := vm i; visible := b; spinner := spinner i;
     name_label := name_label i; submenu := submenu i; outdated := outdated i |}.

Definition with_spinner (b : bool) (i : DomainMenuItem) : DomainMenuItem :=
  {| vm := vm i; visible := visible i; spinner := b;
     name_label := name_label i; submenu := submenu i; outdated := outdated i |}.

Definition with_name_label (l : NameLabel) (i : DomainMenuItem) : DomainMenuItem :=
  {| vm := vm i; visible := visible i; spinner := spinner i;
     name_label := l; submenu := submenu i; outdated := outdated i |}.

Definition with_submenu (m : option Menu) (i : DomainMenuItem) : DomainMenuItem :=
  {| vm := vm i; visible := visible i; spinner := spinner i;
     name_label := name_label i; submenu := m; outdated := outdated i |}.

(** [self.name.update_outdated(b)]: the outdated indicator of the name
    decorator. *)
Definition update_outdated (b : bool) (i : DomainMenuItem) : DomainMenuItem :=
  {| vm := vm i; visible := visible i; spinner := spinner i;
     name_label := name_label i; submenu := submenu i; outdated := b |}.

Definition show_all : DomainMenuItem -> DomainMenuItem := with_visible true.
Definition hide : DomainMenuItem -> DomainMenuItem := with_visible false.

Definition show_spinner (i : DomainMenuItem) : DomainMenuItem :=
  show_all (with_spinner true i).

Definition hide_spinner : DomainMenuItem -> DomainMenuItem := with_spinner false.

(** The methods of an item read the application through [self.app]. *)
Definition _set_submenu (w : World) (app : DomainTray) (state : string)
  (self : DomainMenuItem) : result DomainMenuItem :=
  match vm self with
  | None => Raise AttributeError
  | Some v =>
      let sub :=
        if features_internal (api w (name v))
        then new_InternalMenu w v (state =? "Running")
        else if state =? "Running" then new_StartedMenu w app v
        else if state =? "Paused" then new_PausedMenu
        else new_DebugMenu w v in
      Ok (with_submenu (Some sub) self)
  end.

Definition colormap : list (string * string) :=
  [("Paused", "grey"); ("Crashed", "red"); ("Transient", "red")].

Definition update_state (w : World) (app : DomainTray) (state : string)
  (self : DomainMenuItem) : result DomainMenuItem :=
  match vm self with
  | None => Ok self
  | Some v =>
      if klass v =? "AdminVM" then Ok self
      else if negb (truthy (klass v)) then _set_submenu w app state self
      else if state =? "Halted" then Ok (hide self)
      else
        let self := show_all self in
        let self :=
          if (state =? "Running") || (state =? "Paused")
          then hide_spinner self else show_spinner self in
        let self :=
          match dict_get colormap state with
          | Some colour =>
              with_name_label
                (set_markup
                   ("<span color='" ++ colour ++ "'>" ++ name v ++ "</span>")%string)
                self
          | None => with_name_label (set_label (name v)) self
          end in
        _set_submenu w app state self
  end.

(** [DomainMenuItem(vm, app, icon_cache, state=state)]. *)
Definition new_DomainMenuItem (w : World) (app : DomainTray) (v : option VM)
  (state : option string) : result DomainMenuItem :=
  let self :=
    {| vm := v; visible := false; spinner := false;
       name_label := label_initial; submenu := None; outdated := false |} in
  match v with
  | None => Ok (show_all self)
  | Some h =>
      if klass h =? "AdminVM" then Ok self
      else if truthy_opt state
      then update_state w app (match state with Some st => st | None => EmptyString end) self
      else
        match get_power_state (api w (name h)) with
        | Ok st => update_state w app st self
        | Raise e => Raise e
        end
  end.

(** ** DomainTray *)

(** Apply a method to the item stored under [k]; the item is one object, so
    the menu sees the change too.  The method reads the application. *)
Definition on_item (k : string)
  (f : DomainTray -> DomainMenuItem -> result DomainMenuItem) : M unit :=
  s <- get ;;
  match dict_get (menu_items s) k with
  | Some item =>
      item' <- call (f s item) ;;
      modify (with_menu_items (fun d => dict_set d k item'))
  | None => ret tt
  end.

(** A method that reads nothing and cannot fail. *)
Definition method (f : DomainMenuItem -> DomainMenuItem)
  : DomainTray -> DomainMenuItem -> result DomainMenuItem :=
  fun _ i => Ok (f i).

Definition paused_notification : Notification :=
  {| title := "Your qubes have been paused!";
     body :=
       "All your qubes are currently paused. If this was an accident, simply click 'Unpause All' to unpause them (except preloaded disposables). Otherwise, you can unpause individual qubes via the Qubes Domains tray widget.";
     high_priority := true;
     icon := Some "dialog-warning";
     buttons := [("Unpause All", "app.do-unpause-all")] |}.

Definition emit_paused_notification : M unit :=
  s <- get ;;
  if negb (pause_notification_out s) then
    emit (send_notification (Some "vms-paused") paused_notification) ;;
    modify (with_pause_notification_out true)
  else ret tt.

Definition withdraw_paused_notification : M unit :=
  s <- get ;;
  if pause_notification_out s then
    emit (withdraw_notification "vms-paused") ;;
    modify (with_pause_notification_out false)
  else ret tt.

(** One turn of the loop of [do_unpause_all]. *)
Definition do_unpause_one (w : World) (vm_name : string) : M unit :=
  skip <-
    (if vm_name =? "dom0" then ret true
     else match domains_getitem (domains w) vm_name with
          | Some _ => ret (is_preload (api w vm_name))
          | None => raise KeyError
          end) ;;
  if skip then ret tt
  else
    try_except
      (match domains_getitem (domains w) vm_name with
       | Some _ => emit (unpause_call vm_name) ;; call (unpause (api w vm_name))
       | None => raise KeyError
       end)
      QubesException (ret tt).

Definition do_unpause_all (w : World) : M unit :=
  s <- get ;;
  for_each (map fst (menu_items s)) (do_unpause_one w).

(** The loop of [have_running_and_all_are_paused]; [found_paused] is the
    local variable, and a returned [Ok] ends the function. *)
Fixpoint have_running_loop (w : World) (vms : list VM) (found_paused : bool)
  : result bool :=
  match vms with
  | [] => Ok found_paused
  | v :: rest =>
      if (klass v =? "AdminVM") || is_preload (api w (name v))
      then have_running_loop w rest found_paused
      else
        match is_running (api w (name v)) with
        | Raise e => Raise e
        | Ok false => Ok false
        | Ok true =>
            match is_paused (api w (name v)) with
            | Raise e => Raise e
            | Ok false => Ok false
            | Ok true => have_running_loop w rest true
            end
        end
  end.

Definition have_running_and_all_are_paused (w : World) : result bool :=
  have_running_loop w (domains w) false.

Definition check_pause_notify (w : World) : M unit :=
  all_paused <- call (have_running_and_all_are_paused w) ;;
  if all_paused then emit_paused_notification
  else withdraw_paused_notification.

(** The scan of [add_domain_item] over the children of the tray menu. *)
Fixpoint scan_position (menu : list Widget) (vm_name : string) (position : nat)
  : nat :=
  match menu with
  | [] => position
  | i :: rest =>
      match i with
      | WDomainMenuItem None => scan_position rest vm_name (position + 1)
      | WDomainMenuItem (Some v) =>
          if klass v =? "AdminVM" then scan_position rest vm_name (position + 1)
          else if String.ltb vm_name (name v) then position
          else scan_position rest vm_name (position + 1)
      | _ => position
      end
  end.

(** [Gtk.Menu.insert(child, position)]. *)
Definition menu_insert (child : Widget) (position : nat) (l : list Widget)
  : list Widget :=
  firstn position l ++ child :: skipn position l.

(** [Gtk.Menu.add(child)]. *)
Definition menu_add (child : Widget) (l : list Widget) : list Widget :=
  l ++ [child].

Definition Widget_eqb (a b : Widget) : bool :=
  match a, b with
  | WDomainMenuItem None, WDomainMenuItem None => true
  | WDomainMenuItem (Some x), WDomainMenuItem (Some y) => VM_eqb x y
  | SeparatorMenuItem, SeparatorMenuItem => true
  | QubesManagerItem, QubesManagerItem => true
  | _, _ => false
  end.

(** [Gtk.Menu.remove(child)]. *)
Fixpoint menu_remove (child : Widget) (l : list Widget) : list Widget :=
  match l with
  | [] => []
  | x :: rest => if Widget_eqb x child then rest else x :: menu_remove child rest
  end.

(** The state an added item starts in; [None] is the [return] taken when
    the domain is gone. *)
Definition add_domain_item_state (w : World) (event : option string) (v : VM)
  : M (option string) :=
  if truthy_opt (STATE_DICTIONARY_get event) then ret (STATE_DICTIONARY_get event)
  else
    try_except
      (st <- call (get_power_state (api w (name v))) ;; ret (Some st))
      QubesException
      (if negb (domains_contains (domains w) (name v)) then ret None
       else ret (Some "Halted")).

Definition add_domain_item (w : World) (event : option string) (vm_name : string)
  : M unit :=
  match domains_getitem (domains w) vm_name with
  | None => ret tt
  | Some v =>
      s <- get ;;
      if dict_contains (menu_items s) (name v) then ret tt
      else
        state <- add_domain_item_state w event v ;;
        match state with
        | None => ret tt
        | Some st =>
            domain_item <- call (new_DomainMenuItem w s (Some v) (Some st)) ;;
            (if negb (truthy_opt event)
             then modify (with_tray_menu (menu_add (WDomainMenuItem (vm domain_item))))
             else
               modify (with_tray_menu
                         (menu_insert (WDomainMenuItem (vm domain_item))
                            (scan_position (tray_menu s) (name v) 0)))) ;;
            modify (with_menu_items (fun d => dict_set d (name v) domain_item))
        end
  end.

Definition remove_domain_item (vm_name : string) : M unit :=
  s <- get ;;
  match dict_get (menu_items s) vm_name with
  | None => ret tt
  | Some vm_widget =>
      modify (with_tray_menu (menu_remove (WDomainMenuItem (vm vm_widget)))) ;;
      modify (with_menu_items (fun d => dict_del d vm_name))
  end.

(** [any(vol.is_outdated() for vol in vm.volumes.values())]: stops at the
    first true answer. *)
Fixpoint any_outdated (vols : list (result bool)) : result bool :=
  match vols with
  | [] => Ok false
  | Ok true :: _ => Ok true
  | Ok false :: rest => any_outdated rest
  | Raise e :: _ => Raise e
  end.

(** [vm in (template1, template2)]. *)
Definition in_templates (v : VM) (template1 template2 : option string) : bool :=
  match template1 with Some t1 => name v =? t1 | None => false end
  || match template2 with Some t2 => name v =? t2 | None => false end.

(** One turn of the loop of [handle_domain_shutdown]. *)
Definition shutdown_scan_item (w : World) (v : VM) (entry : string * DomainMenuItem)
  : M unit :=
  match vm (snd entry) with
  | None => raise AttributeError
  | Some item_vm =>
      running <-
        try_except
          (r <- call (is_running (api w (name item_vm))) ;; ret (Some r))
          QubesPropertyAccessError (ret None) ;;
      match running with
      | None => ret tt
      | Some false => ret tt
      | Some true =>
          template1 <- call (template (api w (name item_vm))) ;;
          template2 <-
            match template1 with
            | None => ret None
            | Some t1 => call (template (api w t1))
            end ;;
          if in_templates v template1 template2
          then
            out <- call (any_outdated (volumes (api w (name item_vm)))) ;;
            if out then on_item (fst entry) (method (update_outdated true))
            else ret tt
          else ret tt
      end
  end.

Definition handle_domain_shutdown (w : World) (v : VM) : M unit :=
  try_except
    (is_template <-
       (if klass v =? "TemplateVM" then ret true
        else call (template_for_dispvms (api w (name v)))) ;;
     if is_template then
       s <- get ;;
       for_each (menu_items s) (shutdown_scan_item w v)
     else ret tt)
    QubesVMNotFoundError (ret tt).

(** The state [update_domain_item] resolves for an event. *)
Definition update_domain_item_state (w : World) (v : VM) (event : string)
  : M string :=
  match dict_get STATE_DICTIONARY event with
  | Some st => ret st
  | None =>
      try_except (call (get_power_state (api w (name v))))
        Exception (ret "Transient")
  end.

(** [update_domain_item] from the point where [item] is bound. *)
Definition update_domain_item_found (w : World) (v : VM) (event : string)
  : M unit :=
  state <- update_domain_item_state w v event ;;
  on_item (name v) (fun app => update_state w app state) ;;
  (if event =? "domain-shutdown" then
     handle_domain_shutdown w v ;;
     on_item (name v) (method (update_outdated false))
   else ret tt) ;;
  (if (event =? "domain-start") || (event =? "domain-pre-start") then
     on_item (name v) (method (update_outdated false)) ;;
     on_item (name v) (method show_all)
   else ret tt) ;;
  (if event =? "domain-shutdown" then on_item (name v) (method hide)
   else ret tt).

Definition update_domain_item (w : World) (v : VM) (event : string) : M unit :=
  s <- get ;;
  found <-
    try_excepts
      (match dict_get (menu_items s) (name v) with
       | Some _ => ret true
       | None => raise KeyError
       end)
      [ (QubesPropertyAccessError,
         (* remove_domain_item(vm, event, **kwargs) leaves the vm parameter
            unfilled: a TypeError *)
         raise Exception);
        (KeyError,
         add_domain_item w (Some event) (name v) ;;
         s' <- get ;;
         ret (dict_contains (menu_items s') (name v))) ] ;;
  if negb found then ret tt
  else update_domain_item_found w v event.

(** [sorted(vms)]: handles compare by name; equal names keep their order. *)
Fixpoint sorted_insert (v : VM) (l : list VM) : list VM :=
  match l with
  | [] => [v]
  | x :: rest =>
      if String.ltb (name x) (name v) then x :: sorted_insert v rest
      else v :: x :: rest
  end.

Definition sorted (l : list VM) : list VM := fold_right sorted_insert [] l.

(** One turn of the show/hide loop of [initialize_menu]; the tooltip update
    of the name decorator keeps no state here. *)
Definition initialize_show_item (w : World) (entry : string * DomainMenuItem)
  : M unit :=
  try_except
    (match vm (snd entry) with
     | None => on_item (fst entry) (method hide)
     | Some item_vm =>
         r <- call (is_running (api w (name item_vm))) ;;
         if r then on_item (fst entry) (method show_all)
         else on_item (fst entry) (method hide)
     end)
    QubesPropertyAccessError
    (on_item (fst entry) (method hide)).

Definition initialize_menu (w : World) : M unit :=
  s0 <- get ;;
  header <- call (new_DomainMenuItem w s0 None None) ;;
  modify (with_tray_menu (menu_add (WDomainMenuItem (vm header)))) ;;
  for_each (sorted (filter (fun v => klass v =? "AdminVM") (domains w)))
    (fun v => add_domain_item w None (name v)) ;;
  for_each (sorted (filter (fun v => negb (klass v =? "AdminVM")) (domains w)))
    (fun v => add_domain_item w None (name v)) ;;
  s <- get ;;
  for_each (menu_items s) (initialize_show_item w) ;;
  modify (with_tray_menu (menu_add SeparatorMenuItem)) ;;
  modify (with_tray_menu (menu_add QubesManagerItem)).

Definition refresh_all (w : World) : M unit :=
  s <- get ;;
  let items_to_delete :=
    filter (fun k => negb (domains_contains (domains w) k))
      (map fst (menu_items s)) in
  for_each items_to_delete remove_domain_item ;;
  for_each (domains w) (fun v => update_domain_item w v EmptyString).

(** [do_emit] of the [shift_pressed] setter. *)
Definition do_emit (shift : bool) (child : ActionItem) : ActionItem :=
  set_force shift (set_as_root shift child).

(** [submenu.foreach(do_emit)] on an item that has a [vm]. *)
Definition reconfigure_item (shift : bool) (i : DomainMenuItem) : DomainMenuItem :=
  match vm i, submenu i with
  | Some _, Some sub =>
      with_submenu
        (Some {| menu_class := menu_class sub;
                 children := map (do_emit shift) (children sub) |}) i
  | _, _ => i
  end.

(** The loop of the setter over [menu_items.values()]. *)
Definition reconfigure (shift : bool) : M unit :=
  s <- get ;;
  for_each (menu_items s)
    (fun entry => on_item (fst entry) (method (reconfigure_item shift))).

(** The setter of the property [shift_pressed]. *)
Definition set_shift_pressed (shift : bool) : M unit :=
  s <- get ;;
  if Bool.eqb shift (shift_pressed s) then ret tt
  else
    modify (with_shift_pressed shift) ;;
    reconfigure shift.

(** [DomainTray.__init__]; the expert-mode feature is read from the local
    domain. *)
Definition new_DomainTray (expert : bool) : DomainTray :=
  {| tray_menu := []; menu_items := []; pause_notification_out := false;
     _shift_pressed := None; expert_mode := expert; log := [] |}.

(** ** The event loop *)

(** A handler call made by the dispatcher or the toolkit. *)
Inductive Call : Type :=
| call_add_domain_item (event : option string) (vm_name : string)
| call_remove_domain_item (vm_name : string)
| call_update_domain_item (v : VM) (event : string)
| call_check_pause_notify
| call_do_unpause_all
| call_refresh_all
| call_set_shift_pressed (shift : bool).

Definition run_call (w : World) (c : Call) : M unit :=
  match c with
  | call_add_domain_item event vm_name => add_domain_item w event vm_name
  | call_remove_domain_item vm_name => remove_domain_item vm_name
  | call_update_domain_item v event => update_domain_item w v event
  | call_check_pause_notify => check_pause_notify w
  | call_do_unpause_all => do_unpause_all w
  | call_refresh_all => refresh_all w
  | call_set_shift_pressed shift => set_shift_pressed shift
  end.

(** Handler calls one after the other, each in the world of its time; an
    exception ends its handler and the loop goes on. *)
Fixpoint run (calls : list (World * Call)) (s : DomainTray) : DomainTray :=
  match calls with
  | [] => s
  | (w, c) :: rest => run rest (snd (run_call w c s))
  end.

(** ** Notions used by the properties *)

(** A computation leaves the observation [f] of the state as it was. *)
Definition keeps {A X} (f : DomainTray -> X) (m : M A) : Prop :=
  forall s, f (snd (m s)) = f s.

Definition is_paused_send (e : Effect) : bool :=
  match e with
  | send_notification (Some id) _ => id =? "vms-paused"
  | _ => false
  end.

Definition is_paused_withdraw (e : Effect) : bool :=
  match e with
  | withdraw_notification id => id =? "vms-paused"
  | _ => false
  end.

(** The all-paused notifications sent and not withdrawn since, counting
    every send: [n] are out before [l] happens. *)
Fixpoint outstanding_from (n : nat) (l : list Effect) : nat :=
  match l with
  | [] => n
  | e :: rest =>
      if is_paused_send e then outstanding_from (S n) rest
      else if is_paused_withdraw e then outstanding_from 0 rest
      else outstanding_from n rest
  end.

Definition outstanding (l : list Effect) : nat := outstanding_from 0 l.

Definition count_sends (l : list Effect) : nat :=
  List.length (filter is_paused_send l).

Definition count_withdraws (l : list Effect) : nat :=
  List.length (filter is_paused_withdraw l).

(** The latch agrees with the log. *)
Definition latch_inv (s : DomainTray) : Prop :=
  outstanding (log s) = if pause_notification_out s then 1 else 0.

(** ** Sample data *)

Definition halted_api : VMApi :=
  {| is_preload := false; get_power_state := Ok "Halted"; is_running := Ok false;
     is_paused := Ok false; template := Ok None; template_for_dispvms := Ok false;
     volumes := []; unpause := Ok tt; auto_cleanup := false;
     features_internal := false; features_expert_mode := false;
     features_gui := true; debug := false; guivm := true |}.

Definition running_api : VMApi :=
  {| is_preload := false; get_power_state := Ok "Running"; is_running := Ok true;
     is_paused := Ok false; template := Ok None; template_for_dispvms := Ok false;
     volumes := []; unpause := Ok tt; auto_cleanup := false;
     features_internal := false; features_expert_mode := false;
     features_gui := true; debug := false; guivm := true |}.

Definition paused_api : VMApi :=
  {| is_preload := false; get_power_state := Ok "Paused"; is_running := Ok true;
     is_paused := Ok true; template := Ok None; template_for_dispvms := Ok false;
     volumes := []; unpause := Ok tt; auto_cleanup := false;
     features_internal := false; features_expert_mode := false;
     features_gui := true; debug := false; guivm := true |}.

Definition dom0 : VM := {| name := "dom0"; klass := "AdminVM" |}.
Definition work : VM := {| name := "work"; klass := "AppVM" |}.
Definition alpha : VM := {| name := "alpha"; klass := "AppVM" |}.

(** dom0 and a running qube [work]. *)
Definition world_running : World :=
  {| domains := [dom0; work];
     api := fun n => if n =? "work" then running_api else halted_api;
     isfile := fun _ => false |}.

(** dom0 and a paused qube [work]. *)
Definition world_paused : World :=
  {| domains := [dom0; work];
     api := fun n => if n =? "work" then paused_api else halted_api;
     isfile := fun _ => false |}.

(** The tray after start-up in [world_running]. *)
Definition tray_running : DomainTray :=
  snd (initialize_menu world_running (new_DomainTray false)).

(** A qube whose power state cannot be read because it is gone. *)
Definition gone_api : VMApi :=
  {| is_preload := false; get_power_state := Raise QubesVMNotFoundError;
     is_running := Raise QubesVMNotFoundError;
     is_paused := Raise QubesVMNotFoundError;
     template := Raise QubesVMNotFoundError;
     template_for_dispvms := Raise QubesVMNotFoundError;
     volumes := []; unpause := Raise QubesVMNotFoundError; auto_cleanup := false;
     features_internal := false; features_expert_mode := false;
     features_gui := true; debug := false; guivm := true |}.

(** Only dom0 is left; [work] has been removed. *)
Definition world_gone : World :=
  {| domains := [dom0];
     api := fun n => if n =? "work" then gone_api else halted_api;
     isfile := fun _ => false |}.

(** A paused qube [alpha] next to a halted qube [work]. *)
Definition world_paused_and_halted : World :=
  {| domains := [dom0; alpha; work];
     api := fun n => if n =? "alpha" then paused_api else halted_api;
     isfile := fun _ => false |}.

(** ** The pause aggregate in the words of the specification *)

Definition answers_true (r : result bool) : bool :=
  match r with
  | Ok true => true
  | _ => false
  end.

(** A domain the aggregate counts: neither admin-class nor a preload. *)
Definition counted (w : World) (v : VM) : bool :=
  negb ((klass v =? "AdminVM") || is_preload (api w (name v))).

(** At least one domain is running, and every running domain that is
    counted is paused. *)
Definition all_paused_spec (w : World) : bool :=
  existsb (fun v => answers_true (is_running (api w (name v)))) (domains w)
  && forallb
       (fun v =>
          implb (answers_true (is_running (api w (name v))) && counted w v)
                (answers_true (is_paused (api w (name v)))))
       (domains w).

(** ** Bulk unpause *)





(** ** The outdated scan *)


(** What one turn of the scan decides for an entry, which it reads through
    the handle of the entry only: mark it, leave it, or raise.  A
    property-access error of the running query leaves it. *)
Definition scan_verdict (w : World) (v : VM) (handle : option VM) : result bool :=
  match handle with
  | None => Raise AttributeError
  | Some item_vm =>
      match is_running (api w (name item_vm)) with
      | Raise e => if issubclass e QubesPropertyAccessError then Ok false else Raise e
      | Ok false => Ok false
      | Ok true =>
          match template (api w (name item_vm)) with
          | Raise e => Raise e
          | Ok template1 =>
              match match template1 with
                    | None => Ok None
                    | Some t1 => template (api w t1)
                    end with
              | Raise e => Raise e
              | Ok template2 =>
                  if in_templates v template1 template2
                  then any_outdated (volumes (api w (name item_vm)))
                  else Ok false
              end
          end
      end
  end.

Definition mark (b : bool) (entry : string * DomainMenuItem)
  : string * DomainMenuItem :=
  (fst entry, if b then update_outdated true (snd entry) else snd entry).

(** The scan over the entries in order: it stops at the first that raises. *)
Fixpoint scan_marks (w : World) (v : VM) (l : list (string * DomainMenuItem))
  : list (string * DomainMenuItem) * result unit :=
  match l with
  | [] => ([], Ok tt)
  | entry :: rest =>
      match scan_verdict w v (vm (snd entry)) with
      | Raise e => (entry :: rest, Raise e)
      | Ok b =>
          (mark b entry :: fst (scan_marks w v rest), snd (scan_marks w v rest))
      end
  end.


(** The handle of the item stored under a key. *)
Definition handle_at (d : list (string * DomainMenuItem)) (k : string)
  : option VM :=
  match dict_get d k with
  | Some item => vm item
  | None => None
  end.









(** ** What the add handler does, as a function *)

(** The state [add_domain_item_state] comes to. *)
Definition add_state_result (w : World) (event : option string) (v : VM)
  : result (option string) :=
  if truthy_opt (STATE_DICTIONARY_get event) then Ok (STATE_DICTIONARY_get event)
  else
    match get_power_state (api w (name v)) with
    | Ok st => Ok (Some st)
    | Raise e =>
        if issubclass e QubesException
        then if negb (domains_contains (domains w) (name v)) then Ok None
             else Ok (Some "Halted")
        else Raise e
    end.

(** The tray with a new item in the menu and in the dictionary. *)
Definition insert_entry (event : option string) (v : VM) (item : DomainMenuItem)
  (s : DomainTray) : DomainTray :=
  with_menu_items (fun d => dict_set d (name v) item)
    (with_tray_menu
       (if negb (truthy_opt event) then menu_add (WDomainMenuItem (vm item))
        else menu_insert (WDomainMenuItem (vm item))
               (scan_position (tray_menu s) (name v) 0))
       s).

(** The item as the constructor has it before [update_state]. *)
Definition fresh_item (v : VM) : DomainMenuItem :=
  {| vm := Some v; visible := false; spinner := false;
     name_label := label_initial; submenu := None; outdated := false |}.

(** The submenu [_set_submenu] builds for a state. *)
Definition submenu_for (w : World) (app : DomainTray) (state : string) (v : VM)
  : Menu :=
  if features_internal (api w (name v))
  then new_InternalMenu w v (state =? "Running")
  else if state =? "Running" then new_StartedMenu w app v
  else if state =? "Paused" then new_PausedMenu
  else new_DebugMenu w v.

(** What [update_state] makes of an item of an ordinary class in a state
    other than Halted. *)
Definition presented (w : World) (app : DomainTray) (state : string) (v : VM)
  (i : DomainMenuItem) : DomainMenuItem :=
  {| vm := vm i;
     visible := true;
     spinner := negb ((state =? "Running") || (state =? "Paused"));
     name_label :=
       match dict_get colormap state with
       | Some colour =>
           set_markup ("<span color='" ++ colour ++ "'>" ++ name v ++ "</span>")%string
       | None => set_label (name v)
       end;
     submenu := Some (submenu_for w app state v);
     outdated := outdated i |}.


(** ** The order of the menu *)

Definition entry (v : VM) : Widget := WDomainMenuItem (Some v).

Definition is_admin (v : VM) : bool := klass v =? "AdminVM".

Definition has_vm (x : Widget) : bool :=
  match x with
  | WDomainMenuItem _ => true
  | _ => false
  end.











(** dom0, the running qube [work], and a qube [alpha] made meanwhile. *)
Definition world_with_alpha : World :=
  {| domains := [dom0; alpha; work];
     api := fun n => if n =? "dom0" then halted_api else running_api;
     isfile := fun _ => false |}.

(** What the handlers other than [check_pause_notify] leave alone. *)
Definition notify_view (s : DomainTray) : bool * nat * nat * nat :=
  (pause_notification_out s, outstanding (log s), count_sends (log s),
   count_withdraws (log s)).

(** The menu, and the keys of [menu_items] with the handle of each item. *)
Definition skeleton (s : DomainTray) : list Widget * list (string * option VM) :=
  (tray_menu s, map (fun kv => (fst kv, vm (snd kv))) (menu_items s)).

(** The state resolved for an event outside the table: the answer of the
    direct query, or Transient when the query fails in any way. *)
Definition queried_state (w : World) (v : VM) : string :=
  match get_power_state (api w (name v)) with
  | Ok st => st
  | Raise _ => "Transient"
  end.

(** The insertion of the add handler for an event: the scan, then the
    insert at the position it stops at. *)
Definition scan_insert (child : Widget) (vm_name : string) (l : list Widget)
  : list Widget :=
  menu_insert child (scan_position l vm_name 0) l.

(** * More of the tray *)

(** ** The debug console *)

Definition with_expert_mode (b : bool) (s : DomainTray) :=
  {| tray_menu := tray_menu s; menu_items := menu_items s;
     pause_notification_out := pause_notification_out s;
     _shift_pressed := _shift_pressed s; expert_mode := b;
     log := log s |}.

(** [isinstance(submenu, StartedMenu)]. *)
Definition is_StartedMenu (sub : Menu) : bool :=
  match menu_class sub with
  | StartedMenu => true
  | _ => false
  end.

(** The [visible] attribute of the debug console item of a submenu. *)
Definition set_debug_console (b : bool) (c : ActionItem) : ActionItem :=
  match c with
  | RunDebugConsoleItem _ => RunDebugConsoleItem b
  | _ => c
  end.

(** [StartedMenu.debug_console_update], for the submenu of an item; the
    submenu was built for the vm of its item.  With expert mode on, the
    condition is true before the vm is read. *)
Definition debug_console_update (w : World) (app : DomainTray)
  (self : DomainMenuItem) (sub : Menu) : result DomainMenuItem :=
  match vm self with
  | Some v =>
      Ok (with_submenu
            (Some {| menu_class := menu_class sub;
                     children :=
                       map (set_debug_console (debug_console_visible w app v))
                         (children sub) |})
            self)
  | None =>
      if expert_mode app
      then Ok (with_submenu
                 (Some {| menu_class := menu_class sub;
                          children := map (set_debug_console true) (children sub) |})
                 self)
      else Raise AttributeError
  end.

(** The body of the loop of [debug_change], on the item found. *)
Definition debug_change_item (w : World) (app : DomainTray) (i : DomainMenuItem)
  : result DomainMenuItem :=
  match submenu i with
  | Some sub => if is_StartedMenu sub then debug_console_update w app i sub else Ok i
  | None => Ok i
  end.

(** [debug_change]; [local_name] is [self.qapp.local_name]. *)
Definition debug_change (w : World) (local_name : string) (v : VM) : M unit :=
  vms <-
    (if name v =? local_name then
       match domains_getitem (domains w) local_name with
       | None => raise KeyError
       | Some _ =>
           modify (with_expert_mode (features_expert_mode (api w local_name))) ;;
           s <- get ;;
           ret (map fst (menu_items s))
       end
     else ret [name v]) ;;
  for_each vms
    (fun menu =>
       s <- get ;;
       match dict_get (menu_items s) menu with
       | None => raise KeyError
       | Some _ => on_item menu (debug_change_item w)
       end).

(** ** Keys *)

Inductive Key : Type := KEY_Shift_L | KEY_Shift_R | KEY_other.

Inductive EventType : Type := KEY_PRESS | KEY_RELEASE | EVENT_other.

Definition key_event (keyval : Key) (type : EventType) : M unit :=
  match keyval with
  | KEY_other => ret tt
  | _ =>
      match type with
      | KEY_PRESS => set_shift_pressed true
      | KEY_RELEASE => set_shift_pressed false
      | EVENT_other => ret tt
      end
  end.

(** [show_menu]; the pop-up itself is the toolkit's. *)
Definition show_menu : M unit := set_shift_pressed false.

(** ** Status notifications *)

(** [kwargs[k]]. *)
Definition kwargs_getitem (kwargs : list (string * string)) (k : string)
  : M string :=
  match dict_get kwargs k with
  | Some x => ret x
  | None => raise KeyError
  end.

Definition status_notification (vm_name body : string) (high : bool)
  : Notification :=
  {| title := ("Qube Status: " ++ vm_name)%string;
     body := body;
     high_priority := high;
     icon := if high then Some "dialog-warning" else None;
     buttons := [] |}.

Definition emit_notification (v : VM) (event : string)
  (kwargs : list (string * string)) : M unit :=
  vm_name <-
    (if event =? "domain-preload-dispvm-used" then kwargs_getitem kwargs "dispvm"
     else ret (name v)) ;;
  if event =? "domain-start-failed" then
    reason <- kwargs_getitem kwargs "reason" ;;
    emit (send_notification None
            (status_notification vm_name
               ("Qube " ++ name v ++ " has failed to start: " ++ reason)%string
               true))
  else if event =? "domain-pre-start" then
    emit (send_notification None
            (status_notification vm_name
               ("Qube " ++ name v ++ " is starting.")%string false))
  else if event =? "domain-start" then
    emit (send_notification None
            (status_notification vm_name
               ("Qube " ++ name v ++ " has started.")%string false))
  else if event =? "domain-preload-dispvm-used" then
    dispvm <- kwargs_getitem kwargs "dispvm" ;;
    emit (send_notification None
            (status_notification vm_name
               ("Qube " ++ dispvm ++ " was preloaded and is now being used.")%string
               false))
  else if event =? "domain-pre-shutdown" then
    emit (send_notification None
            (status_notification vm_name
               ("Qube " ++ name v ++ " is attempting to shut down.")%string false))
  else if event =? "domain-shutdown" then
    emit (send_notification None
            (status_notification vm_name
               ("Qube " ++ name v ++ " has shut down.")%string false))
  else if event =? "domain-shutdown-failed" then
    reason <- kwargs_getitem kwargs "reason" ;;
    emit (send_notification None
            (status_notification vm_name
               ("Qube " ++ name v ++ " failed to shut down: " ++ reason)%string
               true))
  else ret tt.

(** ** The registration of the handlers *)

Inductive Handler : Type :=
| h_refresh_all
| h_update_domain_item
| h_add_domain_item
| h_remove_domain_item
| h_emit_notification
| h_check_pause_notify
| h_feature_change
| h_property_change
| h_debug_change
| h_update_stats.

Inductive Dispatcher : Type := dispatcher | stats_dispatcher.

(** The [add_handler] calls of [register_events], in order. *)
Definition register_events : list (Dispatcher * string * Handler) :=
  [ (dispatcher, "connection-established", h_refresh_all);
    (dispatcher, "domain-pre-start", h_update_domain_item);
    (dispatcher, "domain-start", h_update_domain_item);
    (dispatcher, "domain-start-failed", h_update_domain_item);
    (dispatcher, "domain-paused", h_update_domain_item);
    (dispatcher, "domain-unpaused", h_update_domain_item);
    (dispatcher, "domain-shutdown", h_update_domain_item);
    (dispatcher, "domain-pre-shutdown", h_update_domain_item);
    (dispatcher, "domain-shutdown-failed", h_update_domain_item);
    (dispatcher, "domain-add", h_add_domain_item);
    (dispatcher, "domain-delete", h_remove_domain_item);
    (dispatcher, "domain-pre-start", h_emit_notification);
    (dispatcher, "domain-start", h_emit_notification);
    (dispatcher, "domain-start-failed", h_emit_notification);
    (dispatcher, "domain-pre-shutdown", h_emit_notification);
    (dispatcher, "domain-shutdown", h_emit_notification);
    (dispatcher, "domain-shutdown-failed", h_emit_notification);
    (dispatcher, "domain-preload-dispvm-used", h_emit_notification);
    (dispatcher, "domain-start", h_check_pause_notify);
    (dispatcher, "domain-paused", h_check_pause_notify);
    (dispatcher, "domain-unpaused", h_check_pause_notify);
    (dispatcher, "domain-shutdown", h_check_pause_notify);
    (dispatcher, "domain-feature-set:updates-available", h_feature_change);
    (dispatcher, "domain-feature-delete:updates-available", h_feature_change);
    (dispatcher, "property-set:netvm", h_property_change);
    (dispatcher, "property-set:label", h_property_change);
    (dispatcher, "property-set:debug", h_debug_change);
    (dispatcher, "property-set:guivm", h_debug_change);
    (dispatcher, "domain-feature-set:gui", h_debug_change);
    (dispatcher, "domain-feature-delete:gui", h_debug_change);
    (dispatcher, "domain-feature-set:expert-mode", h_debug_change);
    (dispatcher, "domain-feature-delete:expert-mode", h_debug_change);
    (dispatcher, "domain-feature-set:internal", h_update_domain_item);
    (dispatcher, "domain-feature-delete:internal", h_update_domain_item);
    (stats_dispatcher, "vm-stats", h_update_stats) ].

(** The [remove_handler] calls of [_disconnect_signals], in order. *)
Definition _disconnect_signals : list (Dispatcher * string * Handler) :=
  [ (dispatcher, "connection-established", h_refresh_all);
    (dispatcher, "domain-pre-start", h_update_domain_item);
    (dispatcher, "domain-start", h_update_domain_item);
    (dispatcher, "domain-start-failed", h_update_domain_item);
    (dispatcher, "domain-paused", h_update_domain_item);
    (dispatcher, "domain-unpaused", h_update_domain_item);
    (dispatcher, "domain-shutdown", h_update_domain_item);
    (dispatcher, "domain-pre-shutdown", h_update_domain_item);
    (dispatcher, "domain-shutdown-failed", h_update_domain_item);
    (dispatcher, "domain-add", h_add_domain_item);
    (dispatcher, "domain-delete", h_remove_domain_item);
    (dispatcher, "domain-pre-start", h_emit_notification);
    (dispatcher, "domain-start", h_emit_notification);
    (dispatcher, "domain-start-failed", h_emit_notification);
    (dispatcher, "domain-pre-shutdown", h_emit_notification);
    (dispatcher, "domain-shutdown", h_emit_notification);
    (dispatcher, "domain-shutdown-failed", h_emit_notification);
    (dispatcher, "domain-preload-dispvm-used", h_emit_notification);
    (dispatcher, "domain-start", h_check_pause_notify);
    (dispatcher, "domain-paused", h_check_pause_notify);
    (dispatcher, "domain-unpaused", h_check_pause_notify);
    (dispatcher, "domain-shutdown", h_check_pause_notify);
    (dispatcher, "domain-feature-set:updates-available", h_feature_change);
    (dispatcher, "domain-feature-delete:updates-available", h_feature_change);
    (dispatcher, "property-set:netvm", h_property_change);
    (dispatcher, "property-set:label", h_property_change);
    (dispatcher, "property-set:debug", h_debug_change);
    (dispatcher, "property-set:guivm", h_debug_change);
    (dispatcher, "domain-feature-set:gui", h_debug_change);
    (dispatcher, "domain-feature-delete:gui", h_debug_change);
    (dispatcher, "domain-feature-set:expert-mode", h_debug_change);
    (dispatcher, "domain-feature-delete:expert-mode", h_debug_change);
    (dispatcher, "domain-feature-set:internal", h_update_domain_item);
    (dispatcher, "domain-feature-delete:internal", h_update_domain_item);
    (stats_dispatcher, "vm-stats", h_update_stats) ].

(** ** Every handler call *)

(** A call of any handler of the tray, by the dispatcher or the toolkit;
    [signal_run] is [DomainTray.run]. *)
Inductive Signal : Type :=
| signal_call (c : Call)
| signal_run
| signal_debug_change (local_name : string) (v : VM)
| signal_key_event (keyval : Key) (type : EventType)
| signal_show_menu
| signal_emit_notification (v : VM) (event : string)
    (kwargs : list (string * string)).

Definition run_signal (w : World) (sg : Signal) : M unit :=
  match sg with
  | signal_call c => run_call w c
  | signal_run => initialize_menu w
  | signal_debug_change local_name v => debug_change w local_name v
  | signal_key_event keyval type => key_event keyval type
  | signal_show_menu => show_menu
  | signal_emit_notification v event kwargs => emit_notification v event kwargs
  end.

(** Handler calls one after the other; an exception ends its handler and
    the loop goes on. *)
Fixpoint run_signals (signals : list (World * Signal)) (s : DomainTray)
  : DomainTray :=
  match signals with
  | [] => s
  | (w, sg) :: rest => run_signals rest (snd (run_signal w sg s))
  end.

(** ** Notions used by the properties of every handler call *)

(** A computation keeps the property [P] of the state, also when it
    raises. *)
Definition preserves {A} (P : DomainTray -> Prop) (m : M A) : Prop :=
  forall s, P s -> P (snd (m s)).

(** The domains that have an entry in a menu, in the order of the menu. *)
Definition menu_handles (menu : list Widget) : list VM :=
  flat_map (fun x => match x with
                     | WDomainMenuItem (Some v) => [v]
                     | _ => []
                     end) menu.

(** The domains of the items of a dictionary, read off the view that
    [skeleton] gives of it. *)
Definition keyed_handles (keyed : list (string * option VM)) : list VM :=
  flat_map (fun kh => match snd kh with
                      | Some v => [v]
                      | None => []
                      end) keyed.

(** The menu and the dictionary agree: no key twice, every item stored
    under the name of its domain, and the entries of the menu are the items
    of the dictionary. *)
Definition consistent_view (sk : list Widget * list (string * option VM))
  : Prop :=
  NoDup (map fst (snd sk))
  /\ Forall (fun kh => exists h, snd kh = Some h /\ name h = fst kh) (snd sk)
  /\ Permutation (menu_handles (fst sk)) (keyed_handles (snd sk)).

Definition consistent (s : DomainTray) : Prop := consistent_view (skeleton s).

(** A child of a submenu shows the flag it holds, and holds the flag
    [shift] where [shift] is given. *)
Definition configured (shift : option bool) (c : ActionItem) : bool :=
  match c with
  | RunTerminalItem as_root label =>
      (label =? dynamic_label as_root)
      && match shift with Some b => Bool.eqb as_root b | None => true end
  | ShutdownItem force label =>
      (label =? shutdown_label force)
      && match shift with Some b => Bool.eqb force b | None => true end
  | RestartItem force label =>
      (label =? restart_label force)
      && match shift with Some b => Bool.eqb force b | None => true end
  | _ => true
  end.

(** What holds of an item while the shift flag is [shift]: a submenu
    belongs to an item with a domain, every child shows its own flag, the
    children of a started submenu hold [shift], and without shift no child
    holds a flag. *)
Definition item_configured (shift : bool) (i : DomainMenuItem) : Prop :=
  match submenu i with
  | None => True
  | Some sub =>
      vm i <> None
      /\ forallb (configured
                    (if is_StartedMenu sub || negb shift then Some shift
                     else None))
           (children sub) = true
  end.

Definition shift_coherent (s : DomainTray) : Prop :=
  NoDup (map fst (menu_items s))
  /\ Forall (fun kv => item_configured (shift_pressed s) (snd kv)) (menu_items s).

(** ** The dispatcher *)

(** [EventsDispatcher] of qubesadmin keeps, for every event name, the set
    of its handlers: [add_handler] adds to the set of the event, making it
    when there is none, and [remove_handler] removes from it, raising
    [KeyError] when the event has no set or the set lacks the handler. *)
Definition Handler_eqb (a b : Handler) : bool :=
  match a, b with
  | h_refresh_all, h_refresh_all
  | h_update_domain_item, h_update_domain_item
  | h_add_domain_item, h_add_domain_item
  | h_remove_domain_item, h_remove_domain_item
  | h_emit_notification, h_emit_notification
  | h_check_pause_notify, h_check_pause_notify
  | h_feature_change, h_feature_change
  | h_property_change, h_property_change
  | h_debug_change, h_debug_change
  | h_update_stats, h_update_stats => true
  | _, _ => false
  end.

Definition add_handler (event : string) (h : Handler)
  (handlers : list (string * list Handler)) : list (string * list Handler) :=
  match dict_get handlers event with
  | Some hs =>
      if existsb (Handler_eqb h) hs then handlers
      else dict_set handlers event (hs ++ [h])
  | None => dict_set handlers event [h]
  end.

Definition remove_handler (event : string) (h : Handler)
  (handlers : list (string * list Handler))
  : result (list (string * list Handler)) :=
  match dict_get handlers event with
  | Some hs =>
      if existsb (Handler_eqb h) hs
      then Ok (dict_set handlers event
                 (filter (fun x => negb (Handler_eqb h x)) hs))
      else Raise KeyError
  | None => Raise KeyError
  end.

(** The two dispatchers of the tray. *)
Record Dispatchers : Type := {
  handlers_of_dispatcher : list (string * list Handler);
  handlers_of_stats_dispatcher : list (string * list Handler)
}.

Definition handlers_of (which : Dispatcher) (d : Dispatchers)
  : list (string * list Handler) :=
  match which with
  | dispatcher => handlers_of_dispatcher d
  | stats_dispatcher => handlers_of_stats_dispatcher d
  end.

Definition with_handlers (which : Dispatcher)
  (handlers : list (string * list Handler)) (d : Dispatchers) : Dispatchers :=
  match which with
  | dispatcher =>
      {| handlers_of_dispatcher := handlers;
         handlers_of_stats_dispatcher := handlers_of_stats_dispatcher d |}
  | stats_dispatcher =>
      {| handlers_of_dispatcher := handlers_of_dispatcher d;
         handlers_of_stats_dispatcher := handlers |}
  end.

(** The handler is registered for the event. *)
Definition registered (d : Dispatchers) (x : Dispatcher * string * Handler)
  : bool :=
  match dict_get (handlers_of (fst (fst x)) d) (snd (fst x)) with
  | Some hs => existsb (Handler_eqb (snd x)) hs
  | None => false
  end.

(** The calls of [register_events], run. *)
Fixpoint run_add_handlers (calls : list (Dispatcher * string * Handler))
  (d : Dispatchers) : Dispatchers :=
  match calls with
  | [] => d
  | (which, event, h) :: rest =>
      run_add_handlers rest
        (with_handlers which (add_handler event h (handlers_of which d)) d)
  end.

(** The calls of [_disconnect_signals], run; the first that raises ends
    the function. *)
Fixpoint run_remove_handlers (calls : list (Dispatcher * string * Handler))
  (d : Dispatchers) : result Dispatchers :=
  match calls with
  | [] => Ok d
  | (which, event, h) :: rest =>
      match remove_handler event h (handlers_of which d) with
      | Ok handlers => run_remove_handlers rest (with_handlers which handlers d)
      | Raise e => Raise e
      end
  end.

Definition Dispatcher_eqb (a b : Dispatcher) : bool :=
  match a, b with
  | dispatcher, dispatcher | stats_dispatcher, stats_dispatcher => true
  | _, _ => false
  end.

Definition registration_eqb (x y : Dispatcher * string * Handler) : bool :=
  Dispatcher_eqb (fst (fst x)) (fst (fst y))
  && (snd (fst x) =? snd (fst y))
  && Handler_eqb (snd x) (snd y).

(** What [debug_change] makes of an item whose started submenu belongs to
    the domain [vm]: the debug console item gets the condition of
    [debug_console_update] for its flag. *)
Definition debug_console_refresh (w : World) (app : DomainTray)
  (i : DomainMenuItem) : DomainMenuItem :=
  match submenu i, vm i with
  | Some sub, Some v =>
      if is_StartedMenu sub
      then with_submenu
             (Some {| menu_class := menu_class sub;
                      children :=
                        map (set_debug_console (debug_console_visible w app v))
                          (children sub) |})
             i
      else i
  | _, _ => i
  end.

(** * The device widgets

    A shallow embedding of [qui/devices/actionable_widgets.py]: the feature
    toggle of the device settings and the list of action widgets of a
    device.  The backend ([qui.devices.backend]) and the toolkit are
    outside: a [Device] and a [VM] say what the backend answers. *)

Module Devices.

(** ** Python strings and lists *)

(** [s.split(sep)] for a separator of one character: every occurrence
    splits, and the result is never empty. *)
Fixpoint split (sep : ascii) (s : string) : list string :=
  match s with
  | EmptyString => [EmptyString]
  | String c rest =>
      if Ascii.eqb c sep then EmptyString :: split sep rest
      else match split sep rest with
           | [] => [String c EmptyString]
           | word :: words => String c word :: words
           end
  end.

(** [sep.join(l)]. *)
Fixpoint join (sep : string) (l : list string) : string :=
  match l with
  | [] => EmptyString
  | x :: rest =>
      match rest with
      | [] => x
      | _ :: _ => (x ++ sep ++ join sep rest)%string
      end
  end.

(** [x in l]. *)
Definition list_contains (x : string) (l : list string) : bool :=
  existsb (String.eqb x) l.

(** [l.remove(x)]: the first occurrence goes; [None] stands for
    [ValueError]. *)
Fixpoint list_remove (x : string) (l : list string) : option (list string) :=
  match l with
  | [] => None
  | y :: rest =>
      if y =? x then Some rest
      else match list_remove x rest with
           | Some rest' => Some (y :: rest')
           | None => None
           end
  end.

Definition space : ascii := Ascii.ascii_of_nat 32.

(** ** The feature toggle of the device settings *)

(** [DeviceSettingsWidget.toggle_feature]: [features] are the features of
    the backend domain of the device, [id_string] the id of the device. *)
Definition toggle_feature (id_string feature_name : string)
  (features : list (string * string)) : list (string * string) :=
  let feature :=
    match dict_get features feature_name with
    | Some value => value
    | None => EmptyString
    end in
  let all_devs := split space feature in
  let all_devs :=
    if list_contains id_string all_devs
    then match list_remove id_string all_devs with
         | Some l => l
         | None => all_devs
         end
    else all_devs ++ [id_string] in
  dict_set features feature_name (join " " all_devs).

(** The device ids a feature lists. *)
Definition listed (feature_name : string) (features : list (string * string))
  : list string :=
  split space
    (match dict_get features feature_name with
     | Some value => value
     | None => EmptyString
     end).

(** No space in a string. *)
Fixpoint no_space (s : string) : bool :=
  match s with
  | EmptyString => true
  | String c rest => negb (Ascii.eqb c space) && no_space rest
  end.

(** ** The action widgets of a device *)

(** A qube as the backend presents it. *)
Record VM : Type := {
  name : string;
  should_be_cleaned_up : bool
}.

(** A device as the backend presents it; [attached vm] stands for
    [vm in device.attachments], [assigned vm] for [vm in device.assignments],
    [valid_for vm] for [device.is_valid_for_vm(vm)], and [attach_with_me]
    for the truth value of [device.devices_to_attach_with_me]. *)
Record Device : Type := {
  backend_domain : VM;
  attached : VM -> bool;
  assigned : VM -> bool;
  valid_for : VM -> bool;
  attach_with_me : bool
}.

Inductive Widget : Type :=
| DeviceHeaderWidget
| SeparatorItem
| InfoHeader (text : string)
| DetachWidget (vm : VM)
| DetachAndShutdownWidget (vm : VM)
| DetachWithWidget (vm : VM)
| DetachAndAttachWidget (vm : VM)
| DetachAndAttachDisposableWidget (vm : VM)
| AttachWidget (vm : VM) (actionable : bool)
| AttachDisposableWidget (vm : VM)
| DeviceSettingsWidget.

(** The attribute [actionable] of a widget. *)
Definition actionable (x : Widget) : bool :=
  match x with
  | DeviceHeaderWidget | SeparatorItem | InfoHeader _ => false
  | AttachWidget _ b => b
  | _ => true
  end.

Definition attached_vms (device : Device) (vms : list VM) : list VM :=
  filter (attached device) vms.

Definition assigned_vms (device : Device) (vms : list VM) : list VM :=
  filter (fun vm => assigned device vm && negb (attached device vm)) vms.

Definition other_vms (device : Device) (vms : list VM) : list VM :=
  filter (fun vm =>
            negb (attached device vm) && negb (assigned device vm)
            && negb (name vm =? name (backend_domain device)))
    vms.

(** [AttachWidget(vm, device)]. *)
Definition new_AttachWidget (device : Device) (vm : VM) : Widget :=
  AttachWidget vm (valid_for device vm).

(** [MainDeviceWidget.get_child_widgets]: the widgets in the order the
    generator yields them. *)
Definition get_child_widgets (device : Device) (vms disp_vm_templates : list VM)
  : list Widget :=
  [DeviceHeaderWidget; SeparatorItem]
  ++ (match attached_vms device vms with
      | _ :: _ =>
          flat_map
            (fun vm =>
               [DetachWidget vm]
               ++ (if should_be_cleaned_up vm
                   then [DetachAndShutdownWidget vm] else [])
               ++ (if attach_with_me device then [DetachWithWidget vm] else []))
            (attached_vms device vms)
          ++ [SeparatorItem]
          ++ (match assigned_vms device vms with
              | _ :: _ =>
                  [InfoHeader "Detach and attach to preferred qube:"]
                  ++ map DetachAndAttachWidget (assigned_vms device vms)
              | [] => []
              end)
          ++ [InfoHeader "Detach and attach to other qube:"]
          ++ map DetachAndAttachWidget (other_vms device vms)
          ++ [SeparatorItem]
          ++ [InfoHeader "Detach and attach to new disposable qube:"]
          ++ map DetachAndAttachDisposableWidget disp_vm_templates
      | [] =>
          (match assigned_vms device vms with
           | _ :: _ =>
               [InfoHeader "Attach to preferred qube:"]
               ++ map (new_AttachWidget device) (assigned_vms device vms)
           | [] => []
           end)
          ++ [InfoHeader "Attach to qube:"]
          ++ map (new_AttachWidget device) (other_vms device vms)
          ++ [SeparatorItem]
          ++ [InfoHeader "Attach to new disposable qube:"]
          ++ map AttachDisposableWidget disp_vm_templates
      end)
  ++ [DeviceSettingsWidget].

(** [generate_wrapper_widget]: the sensitivity it gives the wrapper. *)
Definition wrapper_sensitive (inside_widget : Widget) : bool :=
  actionable inside_widget.

(** ** Sample data *)

Definition sys_usb : VM := {| name := "sys-usb"; should_be_cleaned_up := false |}.
Definition work_vm : VM := {| name := "work"; should_be_cleaned_up := false |}.
Definition vault_vm : VM := {| name := "vault"; should_be_cleaned_up := false |}.
Definition disp1 : VM := {| name := "disp1"; should_be_cleaned_up := true |}.
Definition default_dvm : VM :=
  {| name := "default-dvm"; should_be_cleaned_up := false |}.

(** A camera of sys-usb, attached to [disp1], assigned to [work], which
    attaches with a microphone; the policy forbids [vault]. *)
Definition camera : Device :=
  {| backend_domain := sys_usb;
     attached := fun vm => name vm =? "disp1";
     assigned := fun vm => name vm =? "work";
     valid_for := fun vm => negb (name vm =? "vault");
     attach_with_me := true |}.

End Devices.

(** ** The actions of the submenu items *)

(** A request an item makes to the admin API for its domain. *)
Inductive ApiCall : Type :=
| request_pause
| request_unpause
| request_shutdown (force : bool)
| request_kill
| request_run_service (service : string) (user : option string).

(** What the admin API answers to the requests for one domain, and the text
    [str(ex)] of an exception. *)
Record Admin : Type := {
  answers : ApiCall -> result unit;
  str : exn -> string
}.

(** The response of a question dialog. *)
Inductive Response : Type := RESPONSE_OK | RESPONSE_CANCEL.

(** What an action does outside the tray: a request to the admin API, the
    error dialog of [show_error], the question dialog whose response goes to
    [react_to_question], the end of that dialog, a subprocess, a sleep of one
    second. *)
Inductive UiEffect : Type :=
| api_request (vm_name : string) (c : ApiCall)
| show_error (title text : string)
| question_dialog (title markup : string)
| widget_destroy
| create_subprocess_exec (argv : list string)
| asyncio_sleep.

Definition newline : string := String "010"%char EmptyString.

(** [try: request  except exc.QubesException as ex: show_error(title,
    text.format(self.vm.name, str(ex)))]; the text ends with
    [{0}:\n{1}], and [text] is the part before it. *)
Definition try_request (a : Admin) (v : VM) (c : ApiCall) (title text : string)
  : result unit * list UiEffect :=
  match answers a c with
  | Ok _ => (Ok tt, [api_request (name v) c])
  | Raise e =>
      if issubclass e QubesException
      then (Ok tt,
            [api_request (name v) c;
             show_error title (text ++ name v ++ ":" ++ newline ++ str a e)%string])
      else (Raise e, [api_request (name v) c])
  end.

Definition shutdown_question (a : Admin) (v : VM) (title : string) (e : exn)
  : UiEffect :=
  question_dialog title
    ("The qube " ++ name v
     ++ " couldn't be shut down normally. The following error occurred: "
     ++ newline ++ "<tt>" ++ str a e ++ "</tt>" ++ newline ++ newline
     ++ "Do you want to force shutdown? " ++ newline ++ newline
     ++ "<b>Warning:</b> this may cause unexpected issues in connected qubes.")%string.

(** [perform_action] of the items of a submenu for the domain [v], but for
    [RestartItem], whose action waits ([None] here, see
    [RestartItem_perform_action]), and [InternalInfoItem], which has none. *)
Definition perform_action (a : Admin) (v : VM) (item : ActionItem)
  : option (result unit * list UiEffect) :=
  match item with
  | PauseItem =>
      Some (try_request a v request_pause "Error pausing qube"
              "The following error occurred while attempting to pause qube ")
  | UnpauseItem =>
      Some (try_request a v request_unpause "Error unpausing qube"
              "The following error occurred while attempting to unpause qube ")
  | ShutdownItem force _ =>
      Some
        match answers a (request_shutdown force) with
        | Ok _ => (Ok tt, [api_request (name v) (request_shutdown force)])
        | Raise e =>
            if issubclass e QubesException then
              if force
              then (Ok tt,
                    [api_request (name v) (request_shutdown force);
                     show_error "Error shutting down qube"
                       ("The following error occurred while attempting to shut down qube "
                        ++ name v ++ ":" ++ newline ++ str a e)%string])
              else (Ok tt,
                    [api_request (name v) (request_shutdown force);
                     shutdown_question a v "Error shutting down qube" e])
            else (Raise e, [api_request (name v) (request_shutdown force)])
        end
  | KillItem =>
      Some (try_request a v request_kill "Error shutting down qube"
              "The following error occurred while attempting to shutdown qube ")
  | PreferencesItem =>
      Some (Ok tt, [create_subprocess_exec ["qubes-vm-settings"; name v]])
  | LogItem _ path =>
      Some (Ok tt, [create_subprocess_exec ["qubes-log-viewer"; path]])
  | RunTerminalItem as_root _ =>
      Some (try_request a v
              (request_run_service "qubes.StartApp+qubes-run-terminal"
                 (if as_root then Some "root" else None))
              "Error starting terminal"
              "The following error occurred while attempting to run terminal ")
  | RunDebugConsoleItem _ =>
      Some (Ok tt, [create_subprocess_exec ["qvm-console-dispvm"; name v]])
  | OpenFileManagerItem =>
      Some (try_request a v
              (request_run_service "qubes.StartApp+qubes-open-file-manager" None)
              "Error opening file manager"
              "The following error occurred while attempting to open file manager ")
  | RestartItem _ _ => None
  | InternalInfoItem => None
  end.

(** [ShutdownItem.react_to_question]; an exception that is no
    [QubesException] leaves it before the dialog is destroyed. *)
Definition ShutdownItem_react_to_question (a : Admin) (v : VM)
  (response : Response) : result unit * list UiEffect :=
  match response with
  | RESPONSE_OK =>
      match answers a (request_shutdown true) with
      | Ok _ =>
          (Ok tt, [api_request (name v) (request_shutdown true); widget_destroy])
      | Raise e =>
          if issubclass e QubesException
          then (Ok tt,
                [api_request (name v) (request_shutdown true);
                 show_error "Error shutting down qube"
                   ("The following error occurred while attempting to shut down qube "
                    ++ name v ++ ":" ++ newline ++ str a e)%string;
                 widget_destroy])
          else (Raise e, [api_request (name v) (request_shutdown true)])
      end
  | RESPONSE_CANCEL => (Ok tt, [widget_destroy])
  end.

(** *** Restart *)

(** [RestartItem.react_to_question]: the effects, and the attribute that
    the source calls give-up afterwards. *)
Definition RestartItem_react_to_question (a : Admin) (v : VM)
  (response : Response) (given_up : bool) : bool * list UiEffect :=
  match response with
  | RESPONSE_OK =>
      match answers a (request_shutdown true) with
      | Ok _ =>
          (given_up,
           [api_request (name v) (request_shutdown true); widget_destroy])
      | Raise e =>
          if issubclass e QubesException
          then (true,
                [api_request (name v) (request_shutdown true);
                 show_error "Error shutting down qube"
                   ("The following error occurred while attempting to shut down qube "
                    ++ name v ++ ":" ++ newline ++ str a e)%string;
                 widget_destroy])
          else (given_up, [api_request (name v) (request_shutdown true)])
      end
  | RESPONSE_CANCEL => (true, [widget_destroy])
  end.

(** One turn of the waiting loop of [RestartItem.perform_action] as the
    outside decides it: what [is_running] answers, and the response to the
    question dialog that the toolkit delivers while the action sleeps, if
    any. *)
Record Poll : Type := {
  is_running_answer : result bool;
  response : option Response
}.

(** How far an action got: it returned, it raised, or it is still waiting
    when the polls that are given end. *)
Inductive Outcome : Type :=
| Returned
| Raised (e : exn)
| Waiting.

Definition restart_error (text : string) : UiEffect :=
  show_error "Error restarting qube" text.

(** The second [try] of [RestartItem.perform_action]; [dialog] says whether
    the question dialog is open, [start_error] is the text of the
    [QubesException] made from the output of a failed [qvm-start]. *)
Fixpoint RestartItem_wait (a : Admin) (v : VM) (start_error : option string)
  (dialog given_up : bool) (polls : list Poll)
  : Outcome * bool * list UiEffect :=
  match polls with
  | [] => (Waiting, given_up, [])
  | p :: rest =>
      match is_running_answer p with
      | Raise e =>
          if issubclass e QubesException
          then (Returned, given_up,
                [restart_error
                   ("The following error occurred while attempting to restartqube "
                    ++ name v ++ ":" ++ newline ++ str a e)%string])
          else (Raised e, given_up, [])
      | Ok false =>
          (Returned, given_up,
           create_subprocess_exec ["qvm-start"; name v]
           :: match start_error with
              | Some text =>
                  [restart_error
                     ("The following error occurred while attempting to restartqube "
                      ++ name v ++ ":" ++ newline ++ text)%string]
              | None => []
              end)
      | Ok true =>
          if given_up then (Returned, given_up, [])
          else
            let reaction :=
              match response p with
              | Some r =>
                  if dialog
                  then (false, RestartItem_react_to_question a v r given_up)
                  else (dialog, (given_up, []))
              | None => (dialog, (given_up, []))
              end in
            let later :=
              RestartItem_wait a v start_error (fst reaction)
                (fst (snd reaction)) rest in
            (fst (fst later), snd (fst later),
             asyncio_sleep :: snd (snd reaction) ++ snd later)
      end
  end.

(** [RestartItem.perform_action] of an item with the flags [force] and
    [given_up]. *)
Definition RestartItem_perform_action (a : Admin) (v : VM)
  (force given_up : bool) (start_error : option string) (polls : list Poll)
  : Outcome * bool * list UiEffect :=
  match answers a (request_shutdown force) with
  | Ok _ =>
      let later := RestartItem_wait a v start_error false given_up polls in
      (fst (fst later), snd (fst later),
       api_request (name v) (request_shutdown force) :: snd later)
  | Raise e =>
      if issubclass e QubesException then
        if force
        then (Returned, given_up,
              [api_request (name v) (request_shutdown force);
               restart_error
                 ("The following error occurred while attempting to restartqube "
                  ++ name v ++ ":" ++ newline ++ str a e)%string])
        else
          let later := RestartItem_wait a v start_error true given_up polls in
          (fst (fst later), snd (fst later),
           api_request (name v) (request_shutdown force)
           :: shutdown_question a v "Error restarting qube" e :: snd later)
      else (Raised e, given_up, [api_request (name v) (request_shutdown force)])
  end.

(** The requests for a forced shutdown among the effects. *)
Definition is_forced_shutdown (x : UiEffect) : bool :=
  match x with
  | api_request _ (request_shutdown true) => true
  | _ => false
  end.

Definition is_start (x : UiEffect) : bool :=
  match x with
  | create_subprocess_exec ("qvm-start" :: _) => true
  | _ => false
  end.

Definition is_sleep (x : UiEffect) : bool :=
  match x with
  | asyncio_sleep => true
  | _ => false
  end.

Definition is_api_request (x : UiEffect) : bool :=
  match x with
  | api_request _ _ => true
  | _ => false
  end.

(** A sample: the admin API refuses a plain shutdown and takes a forced
    one. *)
Definition stubborn_admin : Admin :=
  {| answers := fun c =>
       match c with
       | request_shutdown false => Raise QubesException
       | _ => Ok tt
       end;
     str := fun _ => "qube is busy" |}.

(** * Properties *)

(** ** The monad *)

Section Keeps.
Context {X : Type} (f : DomainTray -> X).

Lemma keeps_ret {A} (a : A) : keeps f (ret a).
Proof. intros s. reflexivity. Qed.

Lemma keeps_raise {A} (e : exn) : keeps f (@raise A e).
Proof. intros s. reflexivity. Qed.

Lemma keeps_get : keeps f get.
Proof. intros s. reflexivity. Qed.

Lemma keeps_call {A} (r : result A) : keeps f (call r).
Proof. intros s. reflexivity. Qed.

Lemma keeps_modify (g : DomainTray -> DomainTray) :
  (forall s, f (g s) = f s) -> keeps f (modify g).
Proof. intros H s. apply H. Qed.

Lemma keeps_bind {A B} (m : M A) (k : A -> M B) :
  keeps f m -> (forall a, keeps f (k a)) -> keeps f (bind m k).
Proof.
  intros Hm Hk s. unfold bind. specialize (Hm s).
  destruct (m s) as [[a | e] s']; simpl in *.
  - rewrite Hk. exact Hm.
  - exact Hm.
Qed.

Lemma keeps_try_excepts {A} (m : M A) (clauses : list (exn * M A)) :
  keeps f m -> Forall (fun ch => keeps f (snd ch)) clauses ->
  keeps f (try_excepts m clauses).
Proof.
  intros Hm Hc s. unfold try_excepts. specialize (Hm s).
  destruct (m s) as [[a | e] s']; simpl in *; [exact Hm |].
  assert (Hf : match find_clause e clauses with
               | Some h => keeps f h
               | None => True
               end).
  { induction Hc as [| [c h] rest Hh _ IH]; simpl; [exact I |].
    destruct (issubclass e c); [exact Hh | exact IH]. }
  destruct (find_clause e clauses) as [h |]; simpl.
  - rewrite Hf. exact Hm.
  - exact Hm.
Qed.

Lemma keeps_try_except {A} (m : M A) (c : exn) (h : M A) :
  keeps f m -> keeps f h -> keeps f (try_except m c h).
Proof.
  intros Hm Hh. apply keeps_try_excepts; [exact Hm |].
  constructor; [exact Hh | constructor].
Qed.

Lemma keeps_for_each {A} (l : list A) (body : A -> M unit) :
  (forall x, keeps f (body x)) -> keeps f (for_each l body).
Proof.
  intros Hb. induction l as [| x rest IH]; simpl.
  - apply keeps_ret.
  - apply keeps_bind; [apply Hb | intros _; exact IH].
Qed.

Lemma keeps_on_item (k : string)
  (g : DomainTray -> DomainMenuItem -> result DomainMenuItem) :
  (forall s d, f (with_menu_items d s) = f s) -> keeps f (on_item k g).
Proof.
  intros H. unfold on_item. apply keeps_bind; [apply keeps_get |].
  intros s. destruct (dict_get (menu_items s) k).
  - apply keeps_bind; [apply keeps_call |].
    intros i. apply keeps_modify. intros s'. apply H.
  - apply keeps_ret.
Qed.

End Keeps.

(** Break a [keeps] goal down along the structure of the computation. *)
Ltac keeps_step :=
  match goal with
  | |- keeps _ (bind _ _) => apply keeps_bind
  | |- keeps _ (ret _) => apply keeps_ret
  | |- keeps _ (raise _) => apply keeps_raise
  | |- keeps _ get => apply keeps_get
  | |- keeps _ (call _) => apply keeps_call
  | |- keeps _ (try_except _ _ _) => apply keeps_try_except
  | |- keeps _ (for_each _ _) => apply keeps_for_each
  | |- keeps _ (on_item _ _) => apply keeps_on_item; intros; reflexivity
  | |- keeps _ (modify _) => apply keeps_modify; intros; reflexivity
  | |- keeps _ (if ?b then _ else _) => destruct b
  | |- keeps _ (match ?x with _ => _ end) => destruct x
  | |- forall _, _ => intro
  end.

Ltac keeps_auto := repeat keeps_step.

(** ** Lookups *)

Lemma domains_getitem_name (l : list VM) (n : string) (v : VM) :
  domains_getitem l n = Some v -> name v = n.
Proof.
  induction l as [| x rest IH]; simpl; [discriminate |].
  destruct (name x =? n) eqn:E.
  - intros H. injection H as <-. apply String.eqb_eq. exact E.
  - exact IH.
Qed.

Lemma dict_get_del {A} (d : list (string * A)) (k : string) :
  dict_get (dict_del d k) k = None.
Proof.
  induction d as [| [k' v] rest IH]; simpl; [reflexivity |].
  destruct (k' =? k) eqn:E; simpl; [exact IH |].
  rewrite E. exact IH.
Qed.

(** ** The add handler on a present identity *)

(** C10: invoked for an identity that is already a key of [menu_items], the
    add handler returns at once and leaves the whole tray, the menu and the
    identity-to-item mapping included, as it was, whatever the event kind. *)
Theorem add_domain_item_present (w : World) (event : option string)
  (vm_name : string) (s : DomainTray) :
  dict_contains (menu_items s) vm_name = true ->
  add_domain_item w event vm_name s = (Ok tt, s).
Proof.
  intros H. unfold add_domain_item.
  destruct (domains_getitem (domains w) vm_name) as [v |] eqn:E; [| reflexivity].
  apply domains_getitem_name in E. subst vm_name.
  unfold bind, get. rewrite H. reflexivity.
Qed.

Lemma add_domain_item_present_witness :
  dict_contains (menu_items tray_running) "work" = true
  /\ add_domain_item world_paused (Some "domain-paused") "work" tray_running
     = (Ok tt, tray_running).
Proof.
  split; [reflexivity |].
  apply (add_domain_item_present world_paused (Some "domain-paused") "work"
           tray_running).
  reflexivity.
Defined.

(** ** Removal *)

(** C7: removal never raises; removing an identity a second time changes
    nothing more, so twice leaves the tray (menu and mapping) as once does;
    and removing an identity that is not tracked changes nothing. *)
Theorem remove_domain_item_idempotent (vm_name : string) (s : DomainTray) :
  fst (remove_domain_item vm_name s) = Ok tt
  /\ remove_domain_item vm_name (snd (remove_domain_item vm_name s))
     = (Ok tt, snd (remove_domain_item vm_name s))
  /\ (dict_contains (menu_items s) vm_name = false ->
      remove_domain_item vm_name s = (Ok tt, s)).
Proof.
  unfold remove_domain_item, bind, get, dict_contains.
  destruct (dict_get (menu_items s) vm_name) as [item |] eqn:E; simpl.
  - split; [reflexivity |]. split; [| discriminate].
    rewrite dict_get_del. reflexivity.
  - rewrite E. repeat split; reflexivity.
Qed.

Lemma remove_domain_item_idempotent_witness :
  dict_contains (menu_items tray_running) "alpha" = false
  /\ remove_domain_item "alpha" tray_running = (Ok tt, tray_running).
Proof.
  split; [reflexivity |].
  apply (remove_domain_item_idempotent "alpha" tray_running).
  reflexivity.
Defined.

(** ** The all-paused notification *)

Lemma outstanding_from_app (n : nat) (l : list Effect) (e : Effect) :
  outstanding_from n (l ++ [e])
  = if is_paused_send e then S (outstanding_from n l)
    else if is_paused_withdraw e then 0
    else outstanding_from n l.
Proof.
  revert n. induction l as [| x rest IH]; intros n; simpl.
  - destruct (is_paused_send e); [reflexivity |].
    destruct (is_paused_withdraw e); reflexivity.
  - destruct (is_paused_send x); [apply IH |].
    destruct (is_paused_withdraw x); apply IH.
Qed.

Lemma outstanding_app (l : list Effect) (e : Effect) :
  outstanding (l ++ [e])
  = if is_paused_send e then S (outstanding l)
    else if is_paused_withdraw e then 0
    else outstanding l.
Proof. apply outstanding_from_app. Qed.

Lemma count_sends_app (l : list Effect) (e : Effect) :
  count_sends (l ++ [e])
  = if is_paused_send e then S (count_sends l) else count_sends l.
Proof.
  unfold count_sends. rewrite filter_app, length_app. simpl.
  destruct (is_paused_send e); simpl; lia.
Qed.

Lemma count_withdraws_app (l : list Effect) (e : Effect) :
  count_withdraws (l ++ [e])
  = if is_paused_withdraw e then S (count_withdraws l) else count_withdraws l.
Proof.
  unfold count_withdraws. rewrite filter_app, length_app. simpl.
  destruct (is_paused_withdraw e); simpl; lia.
Qed.

Lemma emit_paused_notification_eq (s : DomainTray) :
  emit_paused_notification s
  = (Ok tt,
     if pause_notification_out s then s
     else with_pause_notification_out true
            (with_log
               (fun l => l ++ [send_notification (Some "vms-paused")
                                 paused_notification]) s)).
Proof.
  unfold emit_paused_notification, bind, get.
  destruct (pause_notification_out s); reflexivity.
Qed.

Lemma withdraw_paused_notification_eq (s : DomainTray) :
  withdraw_paused_notification s
  = (Ok tt,
     if pause_notification_out s
     then with_pause_notification_out false
            (with_log (fun l => l ++ [withdraw_notification "vms-paused"]) s)
     else s).
Proof.
  unfold withdraw_paused_notification, bind, get.
  destruct (pause_notification_out s); reflexivity.
Qed.

Lemma check_pause_notify_eq (w : World) (s : DomainTray) :
  check_pause_notify w s
  = match have_running_and_all_are_paused w with
    | Ok true => emit_paused_notification s
    | Ok false => withdraw_paused_notification s
    | Raise e => (Raise e, s)
    end.
Proof.
  unfold check_pause_notify, bind, call.
  destruct (have_running_and_all_are_paused w) as [[|] | e]; reflexivity.
Qed.

Lemma check_pause_notify_latch_inv (w : World) (s : DomainTray) :
  latch_inv s -> latch_inv (snd (check_pause_notify w s)).
Proof.
  unfold latch_inv. intros H. rewrite check_pause_notify_eq.
  destruct (have_running_and_all_are_paused w) as [[|] | e]; simpl;
    [| | exact H].
  - rewrite emit_paused_notification_eq.
    destruct (pause_notification_out s) eqn:E; simpl.
    + rewrite E. exact H.
    + rewrite outstanding_app. simpl. rewrite H. reflexivity.
  - rewrite withdraw_paused_notification_eq.
    destruct (pause_notification_out s) eqn:E; simpl.
    + rewrite outstanding_app. reflexivity.
    + rewrite E. exact H.
Qed.

Lemma keeps_notify_add (w : World) (event : option string) (vm_name : string) :
  keeps notify_view (add_domain_item w event vm_name).
Proof. unfold add_domain_item, add_domain_item_state. keeps_auto. Qed.

Lemma keeps_notify_remove (vm_name : string) :
  keeps notify_view (remove_domain_item vm_name).
Proof. unfold remove_domain_item. keeps_auto. Qed.

Lemma keeps_notify_shutdown (w : World) (v : VM) :
  keeps notify_view (handle_domain_shutdown w v).
Proof. unfold handle_domain_shutdown, shutdown_scan_item. keeps_auto. Qed.

Lemma keeps_notify_update (w : World) (v : VM) (event : string) :
  keeps notify_view (update_domain_item w v event).
Proof.
  unfold update_domain_item. apply keeps_bind; [apply keeps_get | intros s].
  apply keeps_bind.
  - apply keeps_try_excepts; [keeps_auto |].
    apply Forall_cons; [apply keeps_raise |].
    apply Forall_cons; [| apply Forall_nil]. simpl.
    apply keeps_bind; [apply keeps_notify_add | keeps_auto].
  - intros found. destruct (negb found); [apply keeps_ret |].
    unfold update_domain_item_found, update_domain_item_state.
    repeat first [apply keeps_notify_shutdown | keeps_step].
Qed.

Lemma keeps_notify_unpause (w : World) :
  keeps notify_view (do_unpause_all w).
Proof.
  unfold do_unpause_all, do_unpause_one, emit.
  repeat first
    [ apply keeps_modify; intros s; unfold notify_view; simpl;
      rewrite outstanding_app, count_sends_app, count_withdraws_app; reflexivity
    | keeps_step ].
Qed.

Lemma keeps_notify_refresh (w : World) :
  keeps notify_view (refresh_all w).
Proof.
  unfold refresh_all.
  repeat first [apply keeps_notify_remove | apply keeps_notify_update | keeps_step].
Qed.

Lemma keeps_notify_shift (shift : bool) :
  keeps notify_view (set_shift_pressed shift).
Proof. unfold set_shift_pressed, reconfigure. keeps_auto. Qed.

Lemma run_call_latch_inv (w : World) (c : Call) (s : DomainTray) :
  latch_inv s -> latch_inv (snd (run_call w c s)).
Proof.
  intros H.
  assert (K : forall m : M unit, keeps notify_view m -> latch_inv (snd (m s))).
  { intros m Hm. specialize (Hm s). unfold notify_view in Hm.
    injection Hm as H1 H2 _ _. unfold latch_inv. rewrite H1, H2. exact H. }
  destruct c; simpl.
  - apply K, keeps_notify_add.
  - apply K, keeps_notify_remove.
  - apply K, keeps_notify_update.
  - apply check_pause_notify_latch_inv, H.
  - apply K, keeps_notify_unpause.
  - apply K, keeps_notify_refresh.
  - apply K, keeps_notify_shift.
Qed.

Lemma run_latch_inv (calls : list (World * Call)) (s : DomainTray) :
  latch_inv s -> latch_inv (run calls s).
Proof.
  revert s. induction calls as [| [w c] rest IH]; intros s H; simpl.
  - exact H.
  - apply IH, run_call_latch_inv, H.
Qed.

Lemma latch_inv_at_most_one (s : DomainTray) :
  latch_inv s -> outstanding (log s) <= 1.
Proof. unfold latch_inv. intros ->. destruct (pause_notification_out s); lia. Qed.

(** C4: the all-paused notification is sent only while the latch is false,
    and sending sets the latch; it is withdrawn only while the latch is true,
    and withdrawing clears the latch.  Hence, from a state whose latch is
    false and agrees with the log, after any handler calls at most one such
    notification is out; two rechecks in a row with the aggregate true send
    exactly one notification; and true, false, true sends two, with one
    withdrawal between them. *)
Theorem paused_notification_at_most_one
  (calls : list (World * Call)) (a b c d : World) (s : DomainTray)
  (Hinv : latch_inv s)
  (Hlatch : pause_notification_out s = false)
  (Ha : have_running_and_all_are_paused a = Ok true)
  (Hb : have_running_and_all_are_paused b = Ok true)
  (Hc : have_running_and_all_are_paused c = Ok false)
  (Hd : have_running_and_all_are_paused d = Ok true) :
  (forall t,
      emit_paused_notification t
      = (Ok tt,
         if pause_notification_out t then t
         else with_pause_notification_out true
                (with_log
                   (fun l => l ++ [send_notification (Some "vms-paused")
                                     paused_notification]) t)))
  /\ (forall t,
         withdraw_paused_notification t
         = (Ok tt,
            if pause_notification_out t
            then with_pause_notification_out false
                   (with_log
                      (fun l => l ++ [withdraw_notification "vms-paused"]) t)
            else t))
  /\ latch_inv (run calls s)
  /\ outstanding (log (run calls s)) <= 1
  /\ (let s2 := run [(a, call_check_pause_notify); (b, call_check_pause_notify)] s in
      count_sends (log s2) = count_sends (log s) + 1
      /\ count_withdraws (log s2) = count_withdraws (log s)
      /\ pause_notification_out s2 = true)
  /\ (let s3 := run [(a, call_check_pause_notify); (c, call_check_pause_notify);
                     (d, call_check_pause_notify)] s in
      count_sends (log s3) = count_sends (log s) + 2
      /\ count_withdraws (log s3) = count_withdraws (log s) + 1
      /\ pause_notification_out s3 = true).
Proof.
  split; [exact emit_paused_notification_eq |].
  split; [exact withdraw_paused_notification_eq |].
  split; [apply run_latch_inv, Hinv |].
  split; [apply latch_inv_at_most_one, run_latch_inv, Hinv |].
  split; simpl.
  - rewrite !check_pause_notify_eq, Ha, Hb, !emit_paused_notification_eq.
    rewrite Hlatch. simpl.
    rewrite count_sends_app, count_withdraws_app. simpl.
    repeat split; lia.
  - rewrite !check_pause_notify_eq, Ha, Hc, Hd.
    rewrite !emit_paused_notification_eq, !withdraw_paused_notification_eq.
    simpl. rewrite Hlatch. simpl.
    rewrite !count_sends_app, !count_withdraws_app. simpl.
    repeat split; lia.
Qed.

Lemma paused_notification_at_most_one_witness :
  latch_inv tray_running
  /\ outstanding
       (log (run [(world_paused, call_check_pause_notify);
                  (world_paused, call_do_unpause_all);
                  (world_paused, call_check_pause_notify)] tray_running)) <= 1.
Proof.
  split; [reflexivity |].
  apply (paused_notification_at_most_one
           [(world_paused, call_check_pause_notify);
            (world_paused, call_do_unpause_all);
            (world_paused, call_check_pause_notify)]
           world_paused world_paused world_running world_paused tray_running);
    reflexivity.
Defined.

(** ** The pause aggregate *)

Lemma have_running_loop_true (w : World) (vms : list VM) (found : bool) :
  have_running_loop w vms found = Ok true
  <-> (found = true \/ exists v, In v vms /\ counted w v = true)
      /\ forall v, In v vms -> counted w v = true ->
           is_running (api w (name v)) = Ok true
           /\ is_paused (api w (name v)) = Ok true.
Proof.
  revert found. induction vms as [| v rest IH]; intros found; simpl.
  - split.
    + intros H. injection H as ->. split; [left; reflexivity | intros ? []].
    + intros [[-> | [v [[] _]]] _]. reflexivity.
  - assert (Eskip : (klass v =? "AdminVM") || is_preload (api w (name v))
                    = negb (counted w v))
      by (unfold counted; rewrite negb_involutive; reflexivity).
    rewrite Eskip. clear Eskip.
    destruct (counted w v) eqn:Hv; simpl.
    + destruct (is_running (api w (name v))) as [[|] | e] eqn:Er;
        [destruct (is_paused (api w (name v))) as [[|] | e] eqn:Ep | |].
      * rewrite IH. split.
        -- intros [_ Hall]. split.
           ++ right. exists v. split; [left; reflexivity | exact Hv].
           ++ intros x [<- | Hin] Hx; [rewrite Er, Ep; split; reflexivity |].
              apply Hall; assumption.
        -- intros [_ Hall]. split; [left; reflexivity |].
           intros x Hin Hx. apply Hall; [right; exact Hin | exact Hx].
      * split; [discriminate |]. intros [_ Hall].
        destruct (Hall v (or_introl eq_refl) Hv) as [_ H].
        rewrite Ep in H. discriminate.
      * split; [discriminate |]. intros [_ Hall].
        destruct (Hall v (or_introl eq_refl) Hv) as [_ H].
        rewrite Ep in H. discriminate.
      * split; [discriminate |]. intros [_ Hall].
        destruct (Hall v (or_introl eq_refl) Hv) as [H _].
        rewrite Er in H. discriminate.
      * split; [discriminate |]. intros [_ Hall].
        destruct (Hall v (or_introl eq_refl) Hv) as [H _].
        rewrite Er in H. discriminate.
    + rewrite IH. split.
      * intros [Hex Hall]. split.
        -- destruct Hex as [-> | [x [Hin Hx]]]; [left; reflexivity |].
           right. exists x. split; [right; exact Hin | exact Hx].
        -- intros x [<- | Hin] Hx; [rewrite Hv in Hx; discriminate |].
           apply Hall; assumption.
      * intros [Hex Hall]. split.
        -- destruct Hex as [-> | [x [[<- | Hin] Hx]]]; [left; reflexivity | |].
           ++ rewrite Hv in Hx. discriminate.
           ++ right. exists x. split; assumption.
        -- intros x Hin Hx. apply Hall; [right; exact Hin | exact Hx].
Qed.

(** What the code computes: the aggregate is true exactly when some domain
    is counted and every counted domain, running or not, answers that it is
    running and that it is paused. *)
Lemma have_running_and_all_are_paused_true (w : World) :
  have_running_and_all_are_paused w = Ok true
  <-> (exists v, In v (domains w) /\ counted w v = true)
      /\ forall v, In v (domains w) -> counted w v = true ->
           is_running (api w (name v)) = Ok true
           /\ is_paused (api w (name v)) = Ok true.
Proof.
  unfold have_running_and_all_are_paused. rewrite have_running_loop_true.
  split; intros [Hex Hall]; (split; [| exact Hall]).
  - destruct Hex as [H | H]; [discriminate | exact H].
  - right. exact Hex.
Qed.

(** C2: with a paused qube next to a halted one, one domain is running and
    every running counted domain is paused, so the aggregate of the
    specification is true; the code answers false, because the halted qube
    takes the branch meant for a running qube that is not paused. *)
Theorem have_running_and_all_are_paused_halted_domain :
  all_paused_spec world_paused_and_halted = true
  /\ have_running_and_all_are_paused world_paused_and_halted = Ok false.
Proof. split; reflexivity. Qed.

(** ** Items in the dictionary *)

Lemma dict_get_set {A} (d : list (string * A)) (k k2 : string) (x : A) :
  dict_get (dict_set d k x) k2 = if k =? k2 then Some x else dict_get d k2.
Proof.
  induction d as [| [k' y] rest IH]; simpl.
  - reflexivity.
  - destruct (k' =? k) eqn:E; simpl.
    + apply String.eqb_eq in E. subst k'.
      destruct (k =? k2); reflexivity.
    + destruct (k' =? k2) eqn:E2.
      * apply String.eqb_eq in E2. subst k2.
        rewrite String.eqb_sym, E. reflexivity.
      * exact IH.
Qed.

Lemma dict_set_skeleton {A B} (g : A -> B) (d : list (string * A))
  (k : string) (x y : A) :
  dict_get d k = Some y -> g x = g y ->
  map (fun kv => (fst kv, g (snd kv))) (dict_set d k x)
  = map (fun kv => (fst kv, g (snd kv))) d.
Proof.
  intros H Hg. induction d as [| [k' z] rest IH]; simpl in *; [discriminate |].
  destruct (k' =? k); simpl.
  - injection H as ->. rewrite Hg. reflexivity.
  - rewrite IH; [reflexivity | exact H].
Qed.

Lemma on_item_eq (k : string)
  (f : DomainTray -> DomainMenuItem -> result DomainMenuItem) (s : DomainTray) :
  on_item k f s
  = match dict_get (menu_items s) k with
    | Some item =>
        match f s item with
        | Ok item' => (Ok tt, with_menu_items (fun d => dict_set d k item') s)
        | Raise e => (Raise e, s)
        end
    | None => (Ok tt, s)
    end.
Proof.
  unfold on_item, bind, get.
  destruct (dict_get (menu_items s) k) as [item |]; [| reflexivity].
  unfold call. destruct (f s item); reflexivity.
Qed.

Lemma keeps_skeleton_on_item (k : string)
  (f : DomainTray -> DomainMenuItem -> result DomainMenuItem) :
  (forall app i i', f app i = Ok i' -> vm i' = vm i) ->
  keeps skeleton (on_item k f).
Proof.
  intros Hf s. rewrite on_item_eq.
  destruct (dict_get (menu_items s) k) as [item |] eqn:E; [| reflexivity].
  destruct (f s item) as [item' |] eqn:Ef; [| reflexivity].
  unfold skeleton. simpl. f_equal.
  apply dict_set_skeleton with (y := item); [exact E |].
  apply (Hf s). exact Ef.
Qed.

Lemma update_state_ok (w : World) (app : DomainTray) (state : string)
  (i : DomainMenuItem) :
  exists i', update_state w app state i = Ok i' /\ vm i' = vm i
             /\ outdated i' = outdated i.
Proof.
  unfold update_state, _set_submenu.
  destruct (vm i) as [v |] eqn:E; [| exists i; auto].
  destruct (klass v =? "AdminVM"); [exists i; auto |].
  destruct (negb (truthy (klass v))).
  - eexists. split; [reflexivity |]. simpl. auto.
  - destruct (state =? "Halted"); [eexists; split; [reflexivity |]; auto |].
    destruct ((state =? "Running") || (state =? "Paused"));
      destruct (dict_get colormap state); simpl; rewrite E;
      (eexists; split; [reflexivity |]; simpl; auto).
Qed.

Lemma update_state_vm (w : World) (state : string) :
  forall app i i', update_state w app state i = Ok i' -> vm i' = vm i.
Proof.
  intros app i i' H. destruct (update_state_ok w app state i) as [j [Hj [Hv _]]].
  rewrite Hj in H. injection H as <-. exact Hv.
Qed.

Lemma method_vm (g : DomainMenuItem -> DomainMenuItem) :
  (forall i, vm (g i) = vm i) ->
  forall app i i', method g app i = Ok i' -> vm i' = vm i.
Proof. intros Hg app i i' H. injection H as <-. apply Hg. Qed.

Ltac skeleton_step :=
  first
    [ apply keeps_skeleton_on_item;
      first [ apply update_state_vm
            | apply method_vm; intros; reflexivity ]
    | keeps_step ].

Lemma keeps_skeleton_shutdown (w : World) (v : VM) :
  keeps skeleton (handle_domain_shutdown w v).
Proof.
  unfold handle_domain_shutdown, shutdown_scan_item. repeat skeleton_step.
Qed.

Lemma keeps_skeleton_update_found (w : World) (v : VM) (event : string) :
  keeps skeleton (update_domain_item_found w v event).
Proof.
  unfold update_domain_item_found, update_domain_item_state.
  repeat first [apply keeps_skeleton_shutdown | skeleton_step].
Qed.

Lemma dict_contains_skeleton (s s' : DomainTray) (k : string) :
  skeleton s' = skeleton s ->
  dict_contains (menu_items s') k = dict_contains (menu_items s) k.
Proof.
  unfold skeleton. intros H. injection H as _ H.
  assert (G : forall d : list (string * DomainMenuItem),
             dict_contains d k
             = existsb (fun p => fst p =? k)
                 (map (fun kv => (fst kv, vm (snd kv))) d)).
  { intros d. unfold dict_contains.
    induction d as [| [k' x] rest IH]; simpl; [reflexivity |].
    destruct (k' =? k); [reflexivity | exact IH]. }
  rewrite !G, H. reflexivity.
Qed.

(** ** The update handler on an event outside the table *)

Lemma bind_ret_tt (m : M unit) (s : DomainTray) :
  bind m (fun _ => ret tt) s = m s.
Proof.
  unfold bind, ret. destruct (m s) as [[[] | e] s']; reflexivity.
Qed.

Lemma update_domain_item_present (w : World) (v : VM) (event : string)
  (s : DomainTray) (item : DomainMenuItem) :
  dict_get (menu_items s) (name v) = Some item ->
  update_domain_item w v event s = update_domain_item_found w v event s.
Proof.
  intros H. unfold update_domain_item, bind at 1, get.
  unfold bind at 1, try_excepts. rewrite H. reflexivity.
Qed.

Lemma not_in_table (event : string) :
  dict_get STATE_DICTIONARY event = None ->
  (event =? "domain-shutdown") = false
  /\ (event =? "domain-start") = false
  /\ (event =? "domain-pre-start") = false.
Proof.
  intros H.
  repeat split;
    match goal with
    | |- (event =? ?k) = false =>
        destruct (event =? k) eqn:E; [| reflexivity];
        apply String.eqb_eq in E; subst event; discriminate H
    end.
Qed.

(** C1, as the code has it: for every event kind outside the state table
    the update handler queries the power state of the domain; a query that
    fails for whatever reason, the domain being gone included, resolves to
    Transient; and an entry that is present is updated with the resolved
    state and stays in the mapping and in the menu. *)
Theorem update_domain_item_unknown_kind (w : World) (v : VM) (event : string)
  (s : DomainTray) :
  dict_get STATE_DICTIONARY event = None ->
  dict_contains (menu_items s) (name v) = true ->
  update_domain_item_state w v event s = (Ok (queried_state w v), s)
  /\ update_domain_item w v event s
     = on_item (name v) (fun app => update_state w app (queried_state w v)) s
  /\ dict_contains (menu_items (snd (update_domain_item w v event s))) (name v)
     = true
  /\ tray_menu (snd (update_domain_item w v event s)) = tray_menu s.
Proof.
  intros Ht Hc.
  assert (Hi : exists item, dict_get (menu_items s) (name v) = Some item).
  { unfold dict_contains in Hc.
    destruct (dict_get (menu_items s) (name v)) as [item |];
      [exists item; reflexivity | discriminate]. }
  destruct Hi as [item Hi].
  assert (Hst : update_domain_item_state w v event s = (Ok (queried_state w v), s)).
  { unfold update_domain_item_state, queried_state. rewrite Ht.
    unfold try_except, try_excepts, call.
    destruct (get_power_state (api w (name v))); reflexivity. }
  split; [exact Hst |].
  rewrite (update_domain_item_present w v event s item Hi).
  split; [| split].
  - unfold update_domain_item_found. unfold bind at 1. rewrite Hst.
    destruct (not_in_table event Ht) as [-> [-> ->]]. simpl.
    unfold bind at 1.
    destruct (on_item (name v) (fun app => update_state w app (queried_state w v)) s)
      as [[[] | e] s']; reflexivity.
  - rewrite (dict_contains_skeleton s); [exact Hc |].
    apply keeps_skeleton_update_found.
  - pose proof (keeps_skeleton_update_found w v event s) as K.
    unfold skeleton in K. injection K as K _. exact K.
Qed.

Lemma update_domain_item_unknown_kind_witness :
  dict_get STATE_DICTIONARY "domain-feature-set:internal" = None
  /\ dict_contains (menu_items tray_running) (name work) = true
  /\ update_domain_item_state world_gone work "domain-feature-set:internal"
       tray_running
     = (Ok "Transient", tray_running).
Proof.
  split; [reflexivity |]. split; [reflexivity |].
  apply (update_domain_item_unknown_kind world_gone work
           "domain-feature-set:internal" tray_running); reflexivity.
Defined.

(** C1, as it is stated, fails: [work] has been removed from the system and
    its power state query fails with the not-found error, yet an event
    outside the table leaves its entry in the mapping and in the menu,
    shown with the Transient presentation. *)
Lemma update_domain_item_unknown_kind_gone :
  dict_get STATE_DICTIONARY "domain-feature-set:internal" = None
  /\ domains_contains (domains world_gone) "work" = false
  /\ get_power_state (api world_gone "work") = Raise QubesVMNotFoundError
  /\ dict_contains (menu_items tray_running) "work" = true
  /\ let s' := snd (update_domain_item world_gone work
                      "domain-feature-set:internal" tray_running) in
     dict_contains (menu_items s') "work" = true
     /\ existsb (Widget_eqb (WDomainMenuItem (Some work))) (tray_menu s') = true
     /\ option_map visible (dict_get (menu_items s') "work") = Some true
     /\ option_map name_label (dict_get (menu_items s') "work")
        = Some (set_markup "<span color='red'>work</span>").
Proof. repeat split. Qed.

(** ** Bulk unpause *)







(** ** Loops over the items *)

Lemma dict_get_app {A} (done rest : list (string * A)) (k : string) :
  ~ In k (map fst done) -> dict_get (done ++ rest) k = dict_get rest k.
Proof.
  induction done as [| [k' x] done IH]; simpl; intros H; [reflexivity |].
  destruct (k' =? k) eqn:E.
  - apply String.eqb_eq in E. exfalso. apply H. left. exact E.
  - apply IH. intros Hin. apply H. right. exact Hin.
Qed.

Lemma dict_set_app {A} (done rest : list (string * A)) (k : string) (x y : A) :
  ~ In k (map fst done) ->
  dict_set (done ++ (k, x) :: rest) k y = done ++ (k, y) :: rest.
Proof.
  induction done as [| [k' z] done IH]; simpl; intros H.
  - rewrite String.eqb_refl. reflexivity.
  - destruct (k' =? k) eqn:E.
    + apply String.eqb_eq in E. exfalso. apply H. left. exact E.
    + rewrite IH; [reflexivity |]. intros Hin. apply H. right. exact Hin.
Qed.

Lemma NoDup_keys_head {A} (done rest : list (string * A)) (k : string) (x : A) :
  NoDup (map fst (done ++ (k, x) :: rest)) -> ~ In k (map fst done).
Proof.
  rewrite map_app. simpl. intros H Hin.
  apply NoDup_remove_2 in H. apply H. apply in_or_app. left. exact Hin.
Qed.

Lemma with_menu_items_same (s : DomainTray) (d : list (string * DomainMenuItem)) :
  menu_items s = d -> with_menu_items (fun _ => d) s = s.
Proof. intros <-. destruct s; reflexivity. Qed.

(** A loop that applies the method [g] to every item, one key after the
    other, maps [g] over the dictionary when the keys are distinct. *)
Lemma for_each_method_map (g : DomainMenuItem -> DomainMenuItem) :
  forall (todo done : list (string * DomainMenuItem)) (s : DomainTray),
    menu_items s = done ++ todo ->
    NoDup (map fst (done ++ todo)) ->
    for_each todo (fun entry => on_item (fst entry) (method g)) s
    = (Ok tt,
       with_menu_items
         (fun _ => done ++ map (fun kv => (fst kv, g (snd kv))) todo) s).
Proof.
  induction todo as [| [k it] rest IH]; intros done s Hs Hnd; simpl.
  - rewrite with_menu_items_same; [reflexivity |]. rewrite app_nil_r in *. exact Hs.
  - pose proof (NoDup_keys_head done rest k it Hnd) as Hk.
    unfold bind. rewrite on_item_eq, Hs, (dict_get_app done _ k Hk). simpl.
    rewrite String.eqb_refl. unfold method at 1.
    rewrite (IH (done ++ [(k, g it)])).
    + unfold with_menu_items. simpl. rewrite <- app_assoc. reflexivity.
    + simpl. rewrite Hs, (dict_set_app done rest k it (g it) Hk).
      rewrite <- app_assoc. reflexivity.
    + rewrite <- app_assoc. simpl.
      rewrite map_app in *. simpl in *. exact Hnd.
Qed.

(** ** The shift modifier *)

Lemma reconfigure_eq (shift : bool) (s : DomainTray) :
  NoDup (map fst (menu_items s)) ->
  reconfigure shift s
  = (Ok tt,
     with_menu_items
       (map (fun kv => (fst kv, reconfigure_item shift (snd kv)))) s).
Proof.
  intros Hnd. unfold reconfigure, bind, get.
  rewrite (for_each_method_map (reconfigure_item shift) (menu_items s) [] s);
    [reflexivity | reflexivity | exact Hnd].
Qed.

Lemma keeps_shift_reconfigure (shift : bool) :
  keeps _shift_pressed (reconfigure shift).
Proof. unfold reconfigure. keeps_auto. Qed.

Lemma eqb_shift_false (a b : bool) : a <> b -> Bool.eqb b a = false.
Proof. destruct a, b; intros H; try reflexivity; contradiction H; reflexivity. Qed.

(** C8: setting the shift flag to the value it has does nothing at all, so
    the second of two calls in a row with one value is a no-op and the two
    together make the one pass of the first call; a call that changes the
    value stores it and makes one pass over [menu_items], in which every
    item with a domain and a submenu has its run-terminal child set to root
    or not and its shutdown and restart children set to force or not, the
    other children staying as they are. *)
Theorem set_shift_pressed_once (shift : bool) (s : DomainTray) :
  NoDup (map fst (menu_items s)) ->
  (shift_pressed s = shift -> set_shift_pressed shift s = (Ok tt, s))
  /\ set_shift_pressed shift (snd (set_shift_pressed shift s))
     = (Ok tt, snd (set_shift_pressed shift s))
  /\ (shift_pressed s <> shift ->
      set_shift_pressed shift s = reconfigure shift (with_shift_pressed shift s)
      /\ set_shift_pressed shift s
         = (Ok tt,
            with_menu_items
              (map (fun kv => (fst kv, reconfigure_item shift (snd kv))))
              (with_shift_pressed shift s)))
  /\ (forall i v sub,
         vm i = Some v -> submenu i = Some sub ->
         submenu (reconfigure_item shift i)
         = Some {| menu_class := menu_class sub;
                   children := map (do_emit shift) (children sub) |})
  /\ (forall c,
         do_emit shift c
         = match c with
           | RunTerminalItem _ _ => new_RunTerminalItem shift
           | ShutdownItem _ _ => new_ShutdownItem shift
           | RestartItem _ _ => new_RestartItem shift
           | _ => c
           end).
Proof.
  intros Hnd.
  assert (Hsame : forall t, shift_pressed t = shift ->
                            set_shift_pressed shift t = (Ok tt, t)).
  { intros t Ht. unfold set_shift_pressed, bind, get.
    rewrite Ht, Bool.eqb_reflx. reflexivity. }
  assert (Hchange : shift_pressed s <> shift ->
                    set_shift_pressed shift s
                    = reconfigure shift (with_shift_pressed shift s)).
  { intros Hne. unfold set_shift_pressed, bind at 1, get.
    rewrite (eqb_shift_false _ _ Hne). reflexivity. }
  split; [apply Hsame |]. split; [| split; [| split]].
  - apply Hsame.
    destruct (Bool.bool_dec (shift_pressed s) shift) as [He | Hne].
    + rewrite (Hsame s He). exact He.
    + rewrite (Hchange Hne). unfold shift_pressed.
      rewrite (keeps_shift_reconfigure shift (with_shift_pressed shift s)).
      reflexivity.
  - intros Hne. split; [exact (Hchange Hne) |].
    rewrite (Hchange Hne). apply reconfigure_eq. exact Hnd.
  - intros i v sub Hv Hsub. unfold reconfigure_item. rewrite Hv, Hsub. reflexivity.
  - intros c. destruct c; reflexivity.
Qed.

Lemma set_shift_pressed_once_witness :
  NoDup (map fst (menu_items tray_running))
  /\ (shift_pressed tray_running <> true ->
      set_shift_pressed true tray_running
      = reconfigure true (with_shift_pressed true tray_running))
  /\ set_shift_pressed true (snd (set_shift_pressed true tray_running))
     = (Ok tt, snd (set_shift_pressed true tray_running)).
Proof.
  assert (Hnd : NoDup (map fst (menu_items tray_running))).
  { repeat (constructor;
            [simpl; intros H; repeat destruct H as [H | H];
             try discriminate H; try contradiction |]).
    constructor. }
  split; [exact Hnd |].
  pose proof (set_shift_pressed_once true tray_running Hnd) as [_ [H2 [H3 _]]].
  split; [| exact H2].
  intros Hne. apply (H3 Hne).
Defined.

(** ** The outdated scan of a template shutdown *)




Lemma scan_marks_keys (w : World) (v : VM) (l : list (string * DomainMenuItem)) :
  map fst (fst (scan_marks w v l)) = map fst l.
Proof.
  induction l as [| entry rest IH]; simpl; [reflexivity |].
  destruct (scan_verdict w v (vm (snd entry))); simpl; [rewrite IH |]; reflexivity.
Qed.

Lemma dict_get_In {A} (d : list (string * A)) (x : string * A) :
  NoDup (map fst d) -> In x d -> dict_get d (fst x) = Some (snd x).
Proof.
  induction d as [| [k y] rest IH]; simpl; intros Hnd Hin; [contradiction |].
  inversion Hnd as [| ? ? Hk Hnd']. subst.
  destruct Hin as [<- | Hin]; simpl.
  - rewrite String.eqb_refl. reflexivity.
  - destruct (k =? fst x) eqn:E.
    + apply String.eqb_eq in E. subst k. exfalso. apply Hk.
      apply in_map. exact Hin.
    + apply IH; assumption.
Qed.


Lemma dict_get_keys_none {A} (d : list (string * A)) (k : string) :
  ~ In k (map fst d) -> dict_get d k = None.
Proof.
  induction d as [| [k' x] rest IH]; simpl; intros H; [reflexivity |].
  destruct (k' =? k) eqn:E.
  - apply String.eqb_eq in E. exfalso. apply H. left. exact E.
  - apply IH. intros Hin. apply H. right. exact Hin.
Qed.

Lemma handle_at_In (d : list (string * DomainMenuItem))
  (x : string * DomainMenuItem) :
  NoDup (map fst d) -> In x d -> handle_at d (fst x) = vm (snd x).
Proof.
  intros Hnd Hin. unfold handle_at. rewrite (dict_get_In d x Hnd Hin). reflexivity.
Qed.









Lemma any_outdated_true (vols : list (result bool)) :
  any_outdated vols = Ok true -> In (Ok true) vols.
Proof.
  induction vols as [| [[|] | e] rest IH]; simpl; intros H; try discriminate H.
  - left. reflexivity.
  - right. apply IH. exact H.
Qed.

Lemma any_outdated_answers (vols : list (result bool)) :
  (forall r, In r vols -> exists b, r = Ok b) ->
  any_outdated vols = Ok (existsb answers_true vols).
Proof.
  induction vols as [| r rest IH]; simpl; intros H; [reflexivity |].
  destruct (H r (or_introl eq_refl)) as [[|] ->]; simpl; [reflexivity |].
  apply IH. intros r' Hr'. apply H. right. exact Hr'.
Qed.





(** ** The add handler *)

Lemma add_domain_item_state_eq (w : World) (event : option string) (v : VM)
  (s : DomainTray) :
  add_domain_item_state w event v s = (add_state_result w event v, s).
Proof.
  unfold add_domain_item_state, add_state_result.
  destruct (truthy_opt (STATE_DICTIONARY_get event)); [reflexivity |].
  unfold try_except, try_excepts, bind, call, ret.
  destruct (get_power_state (api w (name v))) as [st | e]; [reflexivity |].
  destruct (negb (domains_contains (domains w) (name v)));
    destruct e; reflexivity.
Qed.

Lemma add_domain_item_eq (w : World) (event : option string) (vm_name : string)
  (s : DomainTray) :
  add_domain_item w event vm_name s
  = match domains_getitem (domains w) vm_name with
    | None => (Ok tt, s)
    | Some v =>
        if dict_contains (menu_items s) (name v) then (Ok tt, s)
        else
          match add_state_result w event v with
          | Raise e => (Raise e, s)
          | Ok None => (Ok tt, s)
          | Ok (Some st) =>
              match new_DomainMenuItem w s (Some v) (Some st) with
              | Raise e => (Raise e, s)
              | Ok item => (Ok tt, insert_entry event v item s)
              end
          end
    end.
Proof.
  unfold add_domain_item.
  destruct (domains_getitem (domains w) vm_name) as [v |]; [| reflexivity].
  unfold bind at 1, get.
  destruct (dict_contains (menu_items s) (name v)); [reflexivity |].
  unfold bind at 1. rewrite add_domain_item_state_eq.
  destruct (add_state_result w event v) as [[st |] | e]; try reflexivity.
  unfold bind at 1, call at 1.
  destruct (new_DomainMenuItem w s (Some v) (Some st)) as [item | e];
    [| reflexivity].
  unfold insert_entry.
  destruct (negb (truthy_opt event)); reflexivity.
Qed.

Lemma update_domain_item_absent (w : World) (v : VM) (event : string)
  (s : DomainTray) :
  dict_contains (menu_items s) (name v) = false ->
  update_domain_item w v event s
  = match add_domain_item w (Some event) (name v) s with
    | (Raise e, s1) => (Raise e, s1)
    | (Ok _, s1) =>
        if dict_contains (menu_items s1) (name v)
        then update_domain_item_found w v event s1
        else (Ok tt, s1)
    end.
Proof.
  intros H. unfold dict_contains in H.
  unfold update_domain_item, bind at 1, get.
  unfold bind at 1, try_excepts.
  destruct (dict_get (menu_items s) (name v)); [discriminate |].
  simpl. unfold bind at 1.
  destruct (add_domain_item w (Some event) (name v) s) as [[[] | e] s1];
    [| reflexivity].
  simpl. destruct (dict_contains (menu_items s1) (name v)); reflexivity.
Qed.

(** ** Items made by the constructor *)

#[local] Arguments String.eqb : simpl never.



Lemma new_DomainMenuItem_shape (w : World) (a : DomainTray) (v : VM)
  (state : option string) (i : DomainMenuItem) :
  new_DomainMenuItem w a (Some v) state = Ok i ->
  ((klass v =? "AdminVM") = true /\ i = fresh_item v)
  \/ ((klass v =? "AdminVM") = false
      /\ exists st, update_state w a st (fresh_item v) = Ok i).
Proof.
  unfold new_DomainMenuItem. fold (fresh_item v).
  destruct (klass v =? "AdminVM").
  - intros H. injection H as <-. left. split; reflexivity.
  - intros H. right. split; [reflexivity |].
    destruct (truthy_opt state).
    + eexists. exact H.
    + destruct (get_power_state (api w (name v))) as [st | e]; [| discriminate].
      exists st. exact H.
Qed.

Lemma update_state_Some (w : World) (a : DomainTray) (st : string)
  (i : DomainMenuItem) (v : VM) :
  vm i = Some v ->
  update_state w a st i
  = if klass v =? "AdminVM" then Ok i
    else if negb (truthy (klass v))
         then Ok (with_submenu (Some (submenu_for w a st v)) i)
    else if st =? "Halted" then Ok (hide i)
    else Ok (presented w a st v i).
Proof.
  intros Hv. unfold update_state, _set_submenu, presented. cbv zeta.
  rewrite Hv.
  destruct (klass v =? "AdminVM"); [reflexivity |].
  destruct (negb (truthy (klass v))); [reflexivity |].
  destruct (st =? "Halted"); [reflexivity |].
  destruct ((st =? "Running") || (st =? "Paused"));
    destruct (dict_get colormap st);
    cbn [vm with_name_label show_all hide_spinner show_spinner with_spinner
         with_visible];
    rewrite Hv;
    unfold with_submenu, with_name_label, hide_spinner, show_spinner, show_all,
      with_spinner, with_visible, submenu_for;
    cbn [vm visible spinner name_label submenu outdated negb];
    rewrite ?Hv; reflexivity.
Qed.



Lemma new_DomainMenuItem_vm (w : World) (a : DomainTray) (v : VM)
  (state : option string) (i : DomainMenuItem) :
  new_DomainMenuItem w a (Some v) state = Ok i -> vm i = Some v.
Proof.
  intros H.
  destruct (new_DomainMenuItem_shape w a v state i H) as [[_ ->] | [_ [st0 H0]]].
  - reflexivity.
  - apply update_state_vm in H0. exact H0.
Qed.



(** ** An update that arrives before the add *)











(** ** The order of names *)


Lemma ltb_irrefl (a : string) : String.ltb a a = false.
Proof.
  unfold String.ltb.
  assert (H : String.compare a a = Eq)
    by (apply OrderedTypeEx.String_as_OT.cmp_eq; reflexivity).
  rewrite H. reflexivity.
Qed.


(** ** The scan of the add handler *)


Lemma scan_insert_nil (child : Widget) (n : string) :
  scan_insert child n [] = [child].
Proof. reflexivity. Qed.









(** ** Entries in order of name *)








(** ** Removal from an ordered menu *)



Lemma NoDup_map_filter {A B} (g : A -> B) (f : A -> bool) (l : list A) :
  NoDup (map g l) -> NoDup (map g (filter f l)).
Proof.
  induction l as [| x rest IH]; simpl; intros H; [constructor |].
  inversion H as [| ? ? Hx Hrest]. subst.
  destruct (f x); simpl; [| apply IH; exact Hrest].
  constructor; [| apply IH; exact Hrest].
  intros Hin. apply Hx. apply in_map_iff in Hin. destruct Hin as [y [Hy Hin]].
  apply filter_In in Hin. rewrite <- Hy. apply in_map. apply Hin.
Qed.


Lemma VM_eqb_eq (a b : VM) : VM_eqb a b = true <-> a = b.
Proof.
  unfold VM_eqb. rewrite andb_true_iff, !String.eqb_eq.
  destruct a, b; simpl. split.
  - intros [-> ->]. reflexivity.
  - intros H. injection H as -> ->. split; reflexivity.
Qed.





(** ** Handlers that keep the menu and the keys *)


Lemma reconfigure_item_vm (shift : bool) (i : DomainMenuItem) :
  vm (reconfigure_item shift i) = vm i.
Proof.
  unfold reconfigure_item.
  destruct (vm i) eqn:E; [destruct (submenu i) |]; simpl; congruence.
Qed.

Lemma keeps_skeleton_check_pause (w : World) :
  keeps skeleton (check_pause_notify w).
Proof.
  unfold check_pause_notify, emit_paused_notification,
    withdraw_paused_notification, emit.
  keeps_auto.
Qed.

Lemma keeps_skeleton_unpause (w : World) : keeps skeleton (do_unpause_all w).
Proof. unfold do_unpause_all, do_unpause_one, emit. keeps_auto. Qed.

Lemma keeps_skeleton_shift (shift : bool) :
  keeps skeleton (set_shift_pressed shift).
Proof.
  unfold set_shift_pressed, reconfigure.
  repeat first
    [ apply keeps_skeleton_on_item; apply method_vm; apply reconfigure_item_vm
    | keeps_step ].
Qed.

Lemma update_domain_item_present_skeleton (w : World) (v : VM) (event : string)
  (s : DomainTray) :
  dict_contains (menu_items s) (name v) = true ->
  skeleton (snd (update_domain_item w v event s)) = skeleton s.
Proof.
  intros H. unfold dict_contains in H.
  destruct (dict_get (menu_items s) (name v)) as [item |] eqn:E;
    [| discriminate].
  rewrite (update_domain_item_present w v event s item E).
  apply keeps_skeleton_update_found.
Qed.








(** ** The menu built at start-up *)












Lemma keeps_skeleton_initialize_show (w : World) (entry : string * DomainMenuItem) :
  keeps skeleton (initialize_show_item w entry).
Proof.
  unfold initialize_show_item.
  repeat first
    [ apply keeps_skeleton_on_item; apply method_vm; intros; reflexivity
    | keeps_step ].
Qed.


(** ** The boolean test of the order *)




(** ** The order of the menu *)




(** * Properties of every handler call *)

(** ** Properties kept along a computation *)

Section Preserves.
Variable P : DomainTray -> Prop.

Lemma preserves_ret {A} (a : A) : preserves P (ret a).
Proof. intros s H. exact H. Qed.

Lemma preserves_raise {A} (e : exn) : preserves P (@raise A e).
Proof. intros s H. exact H. Qed.

Lemma preserves_get : preserves P get.
Proof. intros s H. exact H. Qed.

Lemma preserves_call {A} (r : result A) : preserves P (call r).
Proof. intros s H. exact H. Qed.

Lemma preserves_modify (g : DomainTray -> DomainTray) :
  (forall s, P s -> P (g s)) -> preserves P (modify g).
Proof. intros H s Hs. apply H. exact Hs. Qed.

Lemma preserves_bind {A B} (m : M A) (k : A -> M B) :
  preserves P m -> (forall a, preserves P (k a)) -> preserves P (bind m k).
Proof.
  intros Hm Hk s Hs. unfold bind. specialize (Hm s Hs).
  destruct (m s) as [[a | e] s']; simpl in *.
  - apply Hk. exact Hm.
  - exact Hm.
Qed.

Lemma preserves_try_excepts {A} (m : M A) (clauses : list (exn * M A)) :
  preserves P m -> Forall (fun ch => preserves P (snd ch)) clauses ->
  preserves P (try_excepts m clauses).
Proof.
  intros Hm Hc s Hs. unfold try_excepts. specialize (Hm s Hs).
  destruct (m s) as [[a | e] s']; simpl in *; [exact Hm |].
  induction Hc as [| [c h] rest Hh _ IH]; simpl; [exact Hm |].
  destruct (issubclass e c); [apply Hh; exact Hm | exact IH].
Qed.

Lemma preserves_try_except {A} (m : M A) (c : exn) (h : M A) :
  preserves P m -> preserves P h -> preserves P (try_except m c h).
Proof.
  intros Hm Hh. apply preserves_try_excepts; [exact Hm |].
  apply Forall_cons; [exact Hh | apply Forall_nil].
Qed.

Lemma preserves_for_each {A} (l : list A) (body : A -> M unit) :
  (forall x, preserves P (body x)) -> preserves P (for_each l body).
Proof.
  intros Hb. induction l as [| x rest IH]; simpl.
  - apply preserves_ret.
  - apply preserves_bind; [apply Hb | intros _; exact IH].
Qed.

Lemma preserves_keeps {A X} (f : DomainTray -> X) (m : M A) :
  (forall s s', f s' = f s -> P s -> P s') -> keeps f m -> preserves P m.
Proof. intros Hf Hm s Hs. apply (Hf s); [apply Hm | exact Hs]. Qed.

End Preserves.

(** Break a [preserves] goal down along the structure of the computation. *)
Ltac preserves_step :=
  match goal with
  | |- preserves _ (bind _ _) => apply preserves_bind
  | |- preserves _ (ret _) => apply preserves_ret
  | |- preserves _ (raise _) => apply preserves_raise
  | |- preserves _ get => apply preserves_get
  | |- preserves _ (call _) => apply preserves_call
  | |- preserves _ (try_except _ _ _) => apply preserves_try_except
  | |- preserves _ (for_each _ _) => apply preserves_for_each
  | |- preserves _ (if ?b then _ else _) => destruct b
  | |- preserves _ (match ?x with _ => _ end) => destruct x
  | |- forall _, _ => intro
  end.

Lemma run_signals_preserves (P : DomainTray -> Prop) :
  (forall w sg, preserves P (run_signal w sg)) ->
  forall signals s, P s -> P (run_signals signals s).
Proof.
  intros H signals. induction signals as [| [w sg] rest IH]; intros s Hs; simpl.
  - exact Hs.
  - apply IH. apply H. exact Hs.
Qed.

(** ** The handlers added to the loop keep the skeleton *)

Lemma debug_change_item_vm (w : World) :
  forall app i i', debug_change_item w app i = Ok i' -> vm i' = vm i.
Proof.
  intros app i i'. unfold debug_change_item, debug_console_update.
  destruct (submenu i) as [sub |]; [| intros H; injection H as <-; reflexivity].
  destruct (is_StartedMenu sub); [| intros H; injection H as <-; reflexivity].
  destruct (vm i) eqn:E.
  - intros H. injection H as <-. simpl. exact E.
  - destruct (expert_mode app); [| discriminate].
    intros H. injection H as <-. simpl. exact E.
Qed.

Lemma keeps_skeleton_debug_change (w : World) (local_name : string) (v : VM) :
  keeps skeleton (debug_change w local_name v).
Proof.
  unfold debug_change.
  repeat first [ apply keeps_skeleton_on_item; apply debug_change_item_vm
               | keeps_step ].
Qed.

Lemma keeps_skeleton_emit_notification (v : VM) (event : string)
  (kwargs : list (string * string)) :
  keeps skeleton (emit_notification v event kwargs).
Proof. unfold emit_notification, kwargs_getitem, emit. keeps_auto. Qed.

Lemma keeps_skeleton_key_event (keyval : Key) (type : EventType) :
  keeps skeleton (key_event keyval type).
Proof.
  unfold key_event.
  destruct keyval; destruct type;
    first [apply keeps_skeleton_shift | apply keeps_ret].
Qed.

(** ** The menu and the dictionary agree *)

Lemma menu_handles_app (a b : list Widget) :
  menu_handles (a ++ b) = menu_handles a ++ menu_handles b.
Proof. unfold menu_handles. apply flat_map_app. Qed.

Lemma keyed_handles_app (a b : list (string * option VM)) :
  keyed_handles (a ++ b) = keyed_handles a ++ keyed_handles b.
Proof. unfold keyed_handles. apply flat_map_app. Qed.

Lemma menu_handles_In (h : VM) (menu : list Widget) :
  In (entry h) menu <-> In h (menu_handles menu).
Proof.
  unfold menu_handles, entry. rewrite in_flat_map. split.
  - intros H. exists (WDomainMenuItem (Some h)). split; [exact H | left; reflexivity].
  - intros [x [Hx Hin]]. destruct x as [[v |] | |]; simpl in Hin;
      try contradiction.
    destruct Hin as [-> | []]. exact Hx.
Qed.

Lemma menu_handles_insert (h : VM) (p : nat) (menu : list Widget) :
  Permutation (menu_handles (menu_insert (entry h) p menu))
              (h :: menu_handles menu).
Proof.
  unfold menu_insert. rewrite menu_handles_app. simpl.
  rewrite <- (firstn_skipn p menu) at 3. rewrite menu_handles_app.
  symmetry. apply Permutation_middle.
Qed.

Lemma menu_handles_add (h : VM) (menu : list Widget) :
  Permutation (menu_handles (menu_add (entry h) menu)) (h :: menu_handles menu).
Proof.
  unfold menu_add. rewrite menu_handles_app. simpl.
  symmetry. apply Permutation_cons_append.
Qed.

Lemma dict_set_absent {A} (d : list (string * A)) (k : string) (x : A) :
  dict_get d k = None -> dict_set d k x = d ++ [(k, x)].
Proof.
  induction d as [| [k' y] rest IH]; simpl; intros H; [reflexivity |].
  destruct (k' =? k); [discriminate |]. rewrite IH by exact H. reflexivity.
Qed.

Lemma dict_get_None_keys {A} (d : list (string * A)) (k : string) :
  dict_get d k = None -> ~ In k (map fst d).
Proof.
  induction d as [| [k' y] rest IH]; simpl; intros H; [tauto |].
  destruct (k' =? k) eqn:E; [discriminate |].
  apply String.eqb_neq in E. intros [G | G]; [contradiction |].
  exact (IH H G).
Qed.

Lemma skeleton_keys (s : DomainTray) :
  map fst (snd (skeleton s)) = map fst (menu_items s).
Proof. unfold skeleton. simpl. rewrite map_map. reflexivity. Qed.

Lemma consistent_skeleton (s s' : DomainTray) :
  skeleton s' = skeleton s -> consistent s -> consistent s'.
Proof. unfold consistent. intros ->. tauto. Qed.

Lemma preserves_consistent_keeps {A} (m : M A) :
  keeps skeleton m -> preserves consistent m.
Proof. apply preserves_keeps. exact consistent_skeleton. Qed.

Lemma consistent_insert_entry (event : option string) (v : VM)
  (item : DomainMenuItem) (s : DomainTray) :
  consistent s ->
  dict_contains (menu_items s) (name v) = false ->
  vm item = Some v ->
  consistent (insert_entry event v item s).
Proof.
  unfold consistent, consistent_view, skeleton, insert_entry. simpl.
  intros [Hnd [Hnames Hperm]] Habs Hvm.
  assert (Hnone : dict_get (menu_items s) (name v) = None).
  { unfold dict_contains in Habs.
    destruct (dict_get (menu_items s) (name v)); [discriminate | reflexivity]. }
  rewrite (dict_set_absent _ _ _ Hnone), map_app. simpl. rewrite Hvm.
  split; [| split].
  - rewrite map_app. simpl. rewrite map_map in *. simpl in *.
    apply NoDup_app_remove_l with (l := []). simpl.
    apply (Permutation_NoDup (l := name v :: map fst (menu_items s))).
    + apply Permutation_cons_append.
    + constructor; [apply dict_get_None_keys; exact Hnone | exact Hnd].
  - apply Forall_app. split; [exact Hnames |].
    constructor; [| constructor]. exists v. split; reflexivity.
  - rewrite keyed_handles_app. simpl.
    apply (Permutation_trans (l' := v :: menu_handles (tray_menu s))).
    + fold (entry v).
      destruct (negb (truthy_opt event));
        [apply menu_handles_add | apply menu_handles_insert].
    + apply (Permutation_trans
               (l' := v :: keyed_handles
                             (map (fun kv => (fst kv, vm (snd kv))) (menu_items s)))).
      * constructor. exact Hperm.
      * apply Permutation_cons_append.
Qed.

Lemma preserves_consistent_add (w : World) (event : option string)
  (vm_name : string) :
  preserves consistent (add_domain_item w event vm_name).
Proof.
  intros s Hs. rewrite add_domain_item_eq.
  destruct (domains_getitem (domains w) vm_name) as [v |]; [| exact Hs].
  destruct (dict_contains (menu_items s) (name v)) eqn:Ec; [exact Hs |].
  destruct (add_state_result w event v) as [[st |] | e]; try exact Hs.
  destruct (new_DomainMenuItem w s (Some v) (Some st)) as [item | e] eqn:En;
    [| exact Hs].
  simpl. apply consistent_insert_entry; [exact Hs | exact Ec |].
  exact (new_DomainMenuItem_vm _ _ _ _ _ En).
Qed.

Lemma menu_remove_handles (h : VM) (menu : list Widget) :
  In h (menu_handles menu) ->
  exists before after,
    menu_handles menu = before ++ h :: after
    /\ menu_handles (menu_remove (entry h) menu) = before ++ after.
Proof.
  induction menu as [| x rest IH]; simpl; [contradiction |].
  destruct x as [[y |] | |]; simpl.
  - destruct (VM_eqb y h) eqn:E.
    + apply VM_eqb_eq in E. subst y. intros _. exists [], (menu_handles rest).
      split; reflexivity.
    + intros [-> | Hin].
      * assert (G : VM_eqb h h = true) by (apply VM_eqb_eq; reflexivity).
        rewrite G in E. discriminate.
      * destruct (IH Hin) as [b [a [H1 H2]]]. exists (y :: b), a.
        simpl. rewrite H1, H2. split; reflexivity.
  - intros Hin. destruct (IH Hin) as [b [a [H1 H2]]]. exists b, a.
    split; assumption.
  - intros Hin. destruct (IH Hin) as [b [a [H1 H2]]]. exists b, a.
    split; assumption.
  - intros Hin. destruct (IH Hin) as [b [a [H1 H2]]]. exists b, a.
    split; assumption.
Qed.

Lemma keyed_del (keyed : list (string * option VM)) (k : string) (h : VM) :
  NoDup (map fst keyed) ->
  Forall (fun kh => exists v, snd kh = Some v /\ name v = fst kh) keyed ->
  In (k, Some h) keyed ->
  exists before after,
    keyed_handles keyed = before ++ h :: after
    /\ keyed_handles (filter (fun kh => negb (fst kh =? k)) keyed)
       = before ++ after.
Proof.
  induction keyed as [| [k' o] rest IH]; simpl; [contradiction |].
  intros Hnd Hall Hin. inversion Hnd as [| ? ? Hnotin Hnd']; subst.
  inversion Hall as [| ? ? _ Hall']; subst.
  destruct Hin as [Heq | Hin].
  - injection Heq as -> ->. rewrite String.eqb_refl. simpl.
    exists [], (keyed_handles rest). split; [reflexivity |].
    simpl. f_equal.
    clear - Hnotin. induction rest as [| [k2 o2] rest IH]; simpl; [reflexivity |].
    simpl in Hnotin.
    destruct (k2 =? k) eqn:E.
    + apply String.eqb_eq in E. exfalso. apply Hnotin. left. exact E.
    + simpl. rewrite IH; [reflexivity |]. intros G. apply Hnotin. right. exact G.
  - assert (E : (k' =? k) = false).
    { apply String.eqb_neq. intros ->. apply Hnotin.
      apply (in_map fst) in Hin. exact Hin. }
    rewrite E. simpl.
    destruct (IH Hnd' Hall' Hin) as [b [a [H1 H2]]].
    exists ((match o with Some v => [v] | None => [] end) ++ b), a.
    rewrite H1, H2, !app_assoc. split; reflexivity.
Qed.

Lemma dict_get_keyed (d : list (string * DomainMenuItem)) (k : string)
  (i : DomainMenuItem) :
  dict_get d k = Some i ->
  In (k, vm i) (map (fun kv => (fst kv, vm (snd kv))) d).
Proof.
  induction d as [| [k' y] rest IH]; simpl; [discriminate |].
  destruct (k' =? k) eqn:E.
  - apply String.eqb_eq in E. subst k'. intros H. injection H as ->.
    left. reflexivity.
  - intros H. right. apply IH. exact H.
Qed.

Lemma preserves_consistent_remove (vm_name : string) :
  preserves consistent (remove_domain_item vm_name).
Proof.
  intros s Hs. unfold remove_domain_item, bind, get, modify. simpl.
  destruct (dict_get (menu_items s) vm_name) as [i |] eqn:E; [| exact Hs].
  simpl. destruct Hs as [Hnd [Hnames Hperm]].
  unfold consistent, consistent_view, skeleton, dict_del in *. simpl in *.
  pose proof (dict_get_keyed _ _ _ E) as Hin.
  assert (Hh : exists h, vm i = Some h /\ name h = vm_name).
  { rewrite Forall_forall in Hnames. exact (Hnames _ Hin). }
  destruct Hh as [h [Hvm Hname]]. rewrite Hvm in *.
  set (keyed := map (fun kv => (fst kv, vm (snd kv))) (menu_items s)) in *.
  assert (Hfilter :
            map (fun kv => (fst kv, vm (snd kv)))
              (filter (fun kv => negb (fst kv =? vm_name)) (menu_items s))
            = filter (fun kh => negb (fst kh =? vm_name)) keyed).
  { unfold keyed. clear. induction (menu_items s) as [| [k y] rest IH];
      simpl; [reflexivity |].
    destruct (negb (k =? vm_name)); simpl; rewrite IH; reflexivity. }
  rewrite Hfilter.
  destruct (keyed_del keyed vm_name h Hnd Hnames Hin) as [tb [ta [Ht1 Ht2]]].
  assert (Hmenu : In h (menu_handles (tray_menu s))).
  { apply (Permutation_in (l := keyed_handles keyed));
      [symmetry; exact Hperm |].
    rewrite Ht1. apply in_elt. }
  destruct (menu_remove_handles h (tray_menu s) Hmenu) as [mb [ma [Hm1 Hm2]]].
  split; [| split].
  - apply NoDup_map_filter. exact Hnd.
  - rewrite Forall_forall in *. intros x Hx. apply filter_In in Hx.
    apply Hnames. apply Hx.
  - fold (entry h). rewrite Hm2, Ht2.
    apply (Permutation_app_inv mb ma tb ta h).
    rewrite <- Hm1, <- Ht1. exact Hperm.
Qed.

Lemma preserves_consistent_update (w : World) (v : VM) (event : string) :
  preserves consistent (update_domain_item w v event).
Proof.
  intros s Hs.
  destruct (dict_contains (menu_items s) (name v)) eqn:E.
  - apply (consistent_skeleton s); [| exact Hs].
    apply update_domain_item_present_skeleton. exact E.
  - rewrite (update_domain_item_absent w v event s E).
    pose proof (preserves_consistent_add w (Some event) (name v) s Hs) as Ha.
    destruct (add_domain_item w (Some event) (name v) s) as [[[] | e] s1];
      simpl in *; [| exact Ha].
    destruct (dict_contains (menu_items s1) (name v)); [| exact Ha].
    apply (consistent_skeleton s1); [| exact Ha].
    apply keeps_skeleton_update_found.
Qed.

Lemma preserves_consistent_run_call (w : World) (c : Call) :
  preserves consistent (run_call w c).
Proof.
  destruct c; simpl.
  - apply preserves_consistent_add.
  - apply preserves_consistent_remove.
  - apply preserves_consistent_update.
  - apply preserves_consistent_keeps. apply keeps_skeleton_check_pause.
  - apply preserves_consistent_keeps. apply keeps_skeleton_unpause.
  - unfold refresh_all.
    repeat first [ apply preserves_consistent_remove
                 | apply preserves_consistent_update
                 | preserves_step ].
  - apply preserves_consistent_keeps. apply keeps_skeleton_shift.
Qed.

Lemma consistent_menu_add (x : Widget) (s : DomainTray) :
  has_vm x = false \/ x = WDomainMenuItem None ->
  consistent s -> consistent (with_tray_menu (menu_add x) s).
Proof.
  unfold consistent, consistent_view, skeleton, menu_add. simpl.
  intros Hx [Hnd [Hnames Hperm]]. split; [exact Hnd | split; [exact Hnames |]].
  rewrite menu_handles_app.
  assert (E : menu_handles [x] = []).
  { destruct Hx as [Hx | ->]; [| reflexivity].
    destruct x as [[y |] | |]; try reflexivity; discriminate. }
  rewrite E, app_nil_r. exact Hperm.
Qed.

Lemma preserves_consistent_initialize_menu (w : World) :
  preserves consistent (initialize_menu w).
Proof.
  intros s Hs. unfold initialize_menu.
  unfold bind at 1, get. simpl. unfold bind at 1, call. simpl.
  revert s Hs.
  change (preserves consistent
            (modify (with_tray_menu (menu_add (WDomainMenuItem None))) ;;
             for_each (sorted (filter (fun v => klass v =? "AdminVM") (domains w)))
               (fun v => add_domain_item w None (name v)) ;;
             for_each
               (sorted (filter (fun v => negb (klass v =? "AdminVM")) (domains w)))
               (fun v => add_domain_item w None (name v)) ;;
             s <- get ;;
             for_each (menu_items s) (initialize_show_item w) ;;
             modify (with_tray_menu (menu_add SeparatorMenuItem)) ;;
             modify (with_tray_menu (menu_add QubesManagerItem)))).
  repeat first
    [ apply preserves_consistent_add
    | apply preserves_consistent_keeps; apply keeps_skeleton_initialize_show
    | apply preserves_modify; intros s; apply consistent_menu_add;
      first [right; reflexivity | left; reflexivity]
    | preserves_step ].
Qed.

Lemma preserves_consistent_run_signal (w : World) (sg : Signal) :
  preserves consistent (run_signal w sg).
Proof.
  destruct sg; simpl.
  - apply preserves_consistent_run_call.
  - apply preserves_consistent_initialize_menu.
  - apply preserves_consistent_keeps. apply keeps_skeleton_debug_change.
  - apply preserves_consistent_keeps. apply keeps_skeleton_key_event.
  - apply preserves_consistent_keeps. apply keeps_skeleton_shift.
  - apply preserves_consistent_keeps. apply keeps_skeleton_emit_notification.
Qed.

Lemma consistent_new_DomainTray (expert : bool) :
  consistent (new_DomainTray expert).
Proof.
  unfold consistent, consistent_view, skeleton. simpl.
  split; [constructor | split; [constructor | constructor]].
Qed.

Lemma keyed_handles_names (keyed : list (string * option VM)) :
  Forall (fun kh => exists h, snd kh = Some h /\ name h = fst kh) keyed ->
  map name (keyed_handles keyed) = map fst keyed.
Proof.
  induction 1 as [| [k o] rest [h [Ho Hn]] _ IH]; simpl in *; [reflexivity |].
  subst o. simpl. rewrite IH, Hn. reflexivity.
Qed.

Lemma keyed_handles_In (keyed : list (string * option VM)) (h : VM) :
  Forall (fun kh => exists v, snd kh = Some v /\ name v = fst kh) keyed ->
  In h (keyed_handles keyed) <-> In (name h, Some h) keyed.
Proof.
  intros Hall. unfold keyed_handles. rewrite in_flat_map. split.
  - intros [[k o] [Hin Hx]]. rewrite Forall_forall in Hall.
    destruct (Hall _ Hin) as [v [Ho Hn]]. simpl in *. subst o.
    destruct Hx as [-> | []]. rewrite Hn. exact Hin.
  - intros Hin. exists (name h, Some h). split; [exact Hin | left; reflexivity].
Qed.

Lemma keyed_In_handle_at (d : list (string * DomainMenuItem)) (k : string)
  (o : option VM) :
  NoDup (map fst d) ->
  In (k, o) (map (fun kv => (fst kv, vm (snd kv))) d) ->
  handle_at d k = o.
Proof.
  intros Hnd Hin. apply in_map_iff in Hin. destruct Hin as [[k' i] [Heq Hin]].
  simpl in Heq. injection Heq as -> <-.
  exact (handle_at_In d (k, i) Hnd Hin).
Qed.

(** X1: in every state the tray reaches from its creation, by whatever
    handler calls in whatever worlds, the menu and the dictionary of items
    agree: no name is tracked twice or shown twice, every tracked item is
    stored under the name of its domain and has its entry in the menu, and
    every domain entry of the menu is a tracked item. *)
Theorem menu_and_items_agree (expert : bool) (signals : list (World * Signal)) :
  let s := run_signals signals (new_DomainTray expert) in
  NoDup (map fst (menu_items s))
  /\ NoDup (map name (menu_handles (tray_menu s)))
  /\ (forall k i,
         dict_get (menu_items s) k = Some i ->
         exists h, vm i = Some h /\ name h = k /\ In (entry h) (tray_menu s))
  /\ (forall h,
         In (entry h) (tray_menu s) ->
         handle_at (menu_items s) (name h) = Some h).
Proof.
  intros s.
  assert (H : consistent s).
  { apply run_signals_preserves.
    - apply preserves_consistent_run_signal.
    - apply consistent_new_DomainTray. }
  destruct H as [Hnd [Hnames Hperm]].
  rewrite skeleton_keys in Hnd. unfold skeleton in Hnames, Hperm. simpl in *.
  set (keyed := map (fun kv => (fst kv, vm (snd kv))) (menu_items s)) in *.
  assert (Hkeys : map fst keyed = map fst (menu_items s))
    by (unfold keyed; rewrite map_map; reflexivity).
  split; [exact Hnd |]. split; [| split].
  - apply (Permutation_NoDup (l := map name (keyed_handles keyed))).
    + apply Permutation_map. symmetry. exact Hperm.
    + rewrite (keyed_handles_names keyed Hnames), Hkeys. exact Hnd.
  - intros k i Hget. pose proof (dict_get_keyed _ _ _ Hget) as Hin.
    fold keyed in Hin. rewrite Forall_forall in Hnames.
    destruct (Hnames _ Hin) as [h [Hvm Hn]]. simpl in *.
    exists h. split; [exact Hvm | split; [exact Hn |]].
    apply menu_handles_In.
    apply (Permutation_in (l := keyed_handles keyed)); [symmetry; exact Hperm |].
    rewrite <- Forall_forall in Hnames.
    apply (keyed_handles_In keyed h Hnames). rewrite Hn, <- Hvm. exact Hin.
  - intros h Hin. apply menu_handles_In in Hin.
    apply (Permutation_in (l' := keyed_handles keyed)) in Hin; [| exact Hperm].
    apply (keyed_handles_In keyed h Hnames) in Hin.
    apply keyed_In_handle_at; [exact Hnd | exact Hin].
Qed.

(** ** The submenus follow the shift flag *)

Lemma configured_any (b : bool) (o : option bool) (c : ActionItem) :
  o = Some b \/ o = None ->
  configured (Some b) c = true -> configured o c = true.
Proof.
  intros [-> | ->]; [tauto |].
  destruct c; simpl; try reflexivity; intros H; apply andb_prop in H;
    destruct H as [H _]; rewrite H; reflexivity.
Qed.

Lemma log_items_configured (o : option bool) (w : World) (v : VM) :
  forallb (configured o) (log_items w v) = true.
Proof.
  unfold log_items. induction (filter _ (console_logs v)) as [| x rest IH];
    simpl; [reflexivity | exact IH].
Qed.

Lemma submenu_for_configured (w : World) (app : DomainTray) (st : string)
  (v : VM) :
  forallb
    (configured
       (if is_StartedMenu (submenu_for w app st v) || negb (shift_pressed app)
        then Some (shift_pressed app) else None))
    (children (submenu_for w app st v)) = true.
Proof.
  unfold submenu_for.
  destruct (features_internal (api w (name v))).
  - unfold new_InternalMenu, is_StartedMenu. cbn [menu_class children orb].
    rewrite !forallb_app, log_items_configured. cbn [forallb andb].
    destruct (st =? "Running"); [| reflexivity].
    destruct (shift_pressed app); reflexivity.
  - destruct (st =? "Running").
    + unfold new_StartedMenu, is_StartedMenu. cbn [menu_class children orb].
      rewrite forallb_app.
      destruct (negb (klass v =? "DispVM") || negb (auto_cleanup (api w (name v))));
        destruct (shift_pressed app); reflexivity.
    + destruct (st =? "Paused"); [reflexivity |].
      unfold new_DebugMenu. cbn [menu_class children].
      rewrite !forallb_app, log_items_configured. reflexivity.
Qed.

Lemma update_state_configured (w : World) (st : string) :
  forall app i i',
    update_state w app st i = Ok i' ->
    item_configured (shift_pressed app) i ->
    item_configured (shift_pressed app) i'.
Proof.
  intros app i i' H Hi. destruct (vm i) as [v |] eqn:E.
  - rewrite (update_state_Some w app st i v E) in H.
    destruct (klass v =? "AdminVM"); [injection H as <-; exact Hi |].
    destruct (negb (truthy (klass v))).
    + injection H as <-. unfold item_configured. simpl. rewrite E.
      split; [discriminate | apply submenu_for_configured].
    + destruct (st =? "Halted"); injection H as <-.
      * exact Hi.
      * unfold item_configured. simpl. rewrite E.
        split; [discriminate | apply submenu_for_configured].
  - unfold update_state in H. rewrite E in H. injection H as <-. exact Hi.
Qed.

Lemma method_configured (g : DomainMenuItem -> DomainMenuItem) :
  (forall i, vm (g i) = vm i /\ submenu (g i) = submenu i) ->
  forall app i i',
    method g app i = Ok i' ->
    item_configured (shift_pressed app) i ->
    item_configured (shift_pressed app) i'.
Proof.
  intros Hg app i i' H. injection H as <-. unfold item_configured.
  destruct (Hg i) as [-> ->]. tauto.
Qed.

Lemma set_debug_console_configured (o : option bool) (b : bool)
  (l : list ActionItem) :
  forallb (configured o) (map (set_debug_console b) l) = forallb (configured o) l.
Proof.
  induction l as [| c rest IH]; simpl; [reflexivity |].
  rewrite IH. destruct c; reflexivity.
Qed.

Lemma debug_change_item_configured (w : World) :
  forall app i i',
    debug_change_item w app i = Ok i' ->
    item_configured (shift_pressed app) i ->
    item_configured (shift_pressed app) i'.
Proof.
  intros app i i'. unfold debug_change_item, debug_console_update, item_configured.
  destruct (submenu i) as [sub |] eqn:Es; [| intros H; injection H as <-; rewrite Es; tauto].
  destruct (is_StartedMenu sub) eqn:Ec;
    [| intros H; injection H as <-; rewrite Es, Ec; tauto].
  destruct (vm i) eqn:Ev.
  - intros H [_ Hc]. injection H as <-. simpl. rewrite Ev.
    split; [discriminate |].
    unfold is_StartedMenu in *. simpl. rewrite set_debug_console_configured.
    rewrite Ec. exact Hc.
  - intros _ [Hv _]. contradiction.
Qed.

Lemma dict_set_keys {A} (d : list (string * A)) (k : string) (x y : A) :
  dict_get d k = Some y -> map fst (dict_set d k x) = map fst d.
Proof.
  induction d as [| [k' z] rest IH]; simpl; [discriminate |].
  destruct (k' =? k); simpl; [reflexivity |].
  intros H. rewrite IH by exact H. reflexivity.
Qed.

Lemma dict_set_Forall {A} (Q : string * A -> Prop) (d : list (string * A))
  (k : string) (x : A) :
  (forall k', Q (k', x)) -> Forall Q d -> Forall Q (dict_set d k x).
Proof.
  intros Hx. induction 1 as [| [k' z] rest Hz Hrest IH]; simpl.
  - constructor; [apply Hx | constructor].
  - destruct (k' =? k); constructor; auto.
Qed.

Lemma dict_get_Forall {A} (Q : string * A -> Prop) (d : list (string * A))
  (k : string) (x : A) :
  Forall Q d -> dict_get d k = Some x -> Q (k, x).
Proof.
  induction 1 as [| [k' z] rest Hz _ IH]; simpl; [discriminate |].
  destruct (k' =? k) eqn:E.
  - apply String.eqb_eq in E. subst k'. intros H. injection H as <-. exact Hz.
  - exact IH.
Qed.

Lemma shift_coherent_same (s s' : DomainTray) :
  menu_items s' = menu_items s -> _shift_pressed s' = _shift_pressed s ->
  shift_coherent s -> shift_coherent s'.
Proof.
  unfold shift_coherent, shift_pressed. intros -> ->. tauto.
Qed.

Lemma preserves_coherent_on_item (k : string)
  (f : DomainTray -> DomainMenuItem -> result DomainMenuItem) :
  (forall app i i',
      f app i = Ok i' ->
      item_configured (shift_pressed app) i ->
      item_configured (shift_pressed app) i') ->
  preserves shift_coherent (on_item k f).
Proof.
  intros Hf s Hs. rewrite on_item_eq.
  destruct (dict_get (menu_items s) k) as [item |] eqn:E; [| exact Hs].
  destruct (f s item) as [item' | e] eqn:Ef; [| exact Hs].
  destruct Hs as [Hnd Hall]. unfold shift_coherent. simpl.
  split.
  - rewrite (dict_set_keys _ _ _ _ E). exact Hnd.
  - apply dict_set_Forall; [| exact Hall].
    intros k'. simpl. apply (Hf s item item' Ef).
    exact (dict_get_Forall _ _ _ _ Hall E).
Qed.

(** Break a goal on [shift_coherent] down along the computation. *)
Ltac coherent_step :=
  first
    [ apply preserves_coherent_on_item;
      first [ apply update_state_configured
            | apply debug_change_item_configured
            | apply method_configured; intros; split; reflexivity ]
    | apply preserves_modify; intros ? ?;
      eapply shift_coherent_same; [reflexivity | reflexivity | eassumption]
    | preserves_step ].

Lemma preserves_coherent_shutdown (w : World) (v : VM) :
  preserves shift_coherent (handle_domain_shutdown w v).
Proof.
  unfold handle_domain_shutdown, shutdown_scan_item. repeat coherent_step.
Qed.

Lemma preserves_coherent_update_found (w : World) (v : VM) (event : string) :
  preserves shift_coherent (update_domain_item_found w v event).
Proof.
  unfold update_domain_item_found, update_domain_item_state.
  repeat first [apply preserves_coherent_shutdown | coherent_step].
Qed.

Lemma fresh_item_configured (shift : bool) (v : VM) :
  item_configured shift (fresh_item v).
Proof. exact I. Qed.

Lemma preserves_coherent_add (w : World) (event : option string)
  (vm_name : string) :
  preserves shift_coherent (add_domain_item w event vm_name).
Proof.
  intros s Hs. rewrite add_domain_item_eq.
  destruct (domains_getitem (domains w) vm_name) as [v |]; [| exact Hs].
  destruct (dict_contains (menu_items s) (name v)) eqn:Ec; [exact Hs |].
  destruct (add_state_result w event v) as [[st |] | e]; try exact Hs.
  destruct (new_DomainMenuItem w s (Some v) (Some st)) as [item | e] eqn:En;
    [| exact Hs].
  assert (Hitem : item_configured (shift_pressed s) item).
  { destruct (new_DomainMenuItem_shape _ _ _ _ _ En) as [[_ ->] | [_ [st' Hu]]].
    - apply fresh_item_configured.
    - apply (update_state_configured w st' s _ _ Hu).
      apply fresh_item_configured. }
  assert (Hnone : dict_get (menu_items s) (name v) = None).
  { unfold dict_contains in Ec.
    destruct (dict_get (menu_items s) (name v)); [discriminate | reflexivity]. }
  destruct Hs as [Hnd Hall]. unfold shift_coherent, insert_entry. simpl.
  rewrite (dict_set_absent _ _ _ Hnone). split.
  - rewrite map_app. simpl.
    apply (Permutation_NoDup (l := name v :: map fst (menu_items s))).
    + apply Permutation_cons_append.
    + constructor; [apply dict_get_None_keys; exact Hnone | exact Hnd].
  - apply Forall_app. split; [exact Hall |].
    constructor; [exact Hitem | constructor].
Qed.

Lemma preserves_coherent_remove (vm_name : string) :
  preserves shift_coherent (remove_domain_item vm_name).
Proof.
  intros s Hs. unfold remove_domain_item, bind, get, modify. simpl.
  destruct (dict_get (menu_items s) vm_name) as [i |]; [| exact Hs].
  simpl. destruct Hs as [Hnd Hall]. unfold shift_coherent, dict_del. simpl.
  split.
  - apply NoDup_map_filter. exact Hnd.
  - rewrite Forall_forall in *. intros x Hx. apply filter_In in Hx.
    apply Hall. apply Hx.
Qed.

Lemma preserves_coherent_update (w : World) (v : VM) (event : string) :
  preserves shift_coherent (update_domain_item w v event).
Proof.
  unfold update_domain_item.
  apply preserves_bind; [apply preserves_get |]. intros s.
  apply preserves_bind.
  - apply preserves_try_excepts.
    + destruct (dict_get (menu_items s) (name v));
        [apply preserves_ret | apply preserves_raise].
    + apply Forall_cons; [apply preserves_raise |].
      apply Forall_cons; [| apply Forall_nil]. simpl.
      repeat first [apply preserves_coherent_add | preserves_step].
  - intros found. destruct (negb found);
      [apply preserves_ret | apply preserves_coherent_update_found].
Qed.

Lemma do_emit_configured (shift : bool) (c : ActionItem) :
  configured (Some shift) (do_emit shift c) = true.
Proof.
  destruct c; simpl; try reflexivity;
    rewrite String.eqb_refl, Bool.eqb_reflx; reflexivity.
Qed.

Lemma reconfigure_item_configured (shift old : bool) (i : DomainMenuItem) :
  item_configured old i -> item_configured shift (reconfigure_item shift i).
Proof.
  unfold item_configured, reconfigure_item.
  destruct (submenu i) as [sub |] eqn:Es.
  - intros [Hv _]. destruct (vm i) as [v |] eqn:Ev; [| contradiction].
    simpl. rewrite Ev. split; [discriminate |].
    rewrite forallb_forall. intros c Hc. apply in_map_iff in Hc.
    destruct Hc as [c0 [<- _]].
    apply (configured_any shift); [| apply do_emit_configured].
    destruct (_ || _); [left | right]; reflexivity.
  - intros _. destruct (vm i); rewrite Es; exact I.
Qed.

Lemma preserves_coherent_shift (shift : bool) :
  preserves shift_coherent (set_shift_pressed shift).
Proof.
  intros s Hs. unfold set_shift_pressed. unfold bind at 1, get. simpl.
  destruct (Bool.eqb shift (shift_pressed s)); [exact Hs |].
  unfold bind, modify. simpl.
  destruct Hs as [Hnd Hall].
  rewrite reconfigure_eq by exact Hnd.
  unfold shift_coherent, shift_pressed. simpl. split.
  - rewrite map_map. simpl. exact Hnd.
  - rewrite Forall_map. simpl. rewrite Forall_forall in *.
    intros x Hx. apply (reconfigure_item_configured shift (shift_pressed s)).
    apply Hall. exact Hx.
Qed.

Lemma preserves_coherent_run_call (w : World) (c : Call) :
  preserves shift_coherent (run_call w c).
Proof.
  destruct c; simpl.
  - apply preserves_coherent_add.
  - apply preserves_coherent_remove.
  - apply preserves_coherent_update.
  - unfold check_pause_notify, emit_paused_notification,
      withdraw_paused_notification, emit.
    repeat coherent_step.
  - unfold do_unpause_all, do_unpause_one, emit. repeat coherent_step.
  - unfold refresh_all.
    repeat first [ apply preserves_coherent_remove
                 | apply preserves_coherent_update
                 | preserves_step ].
  - apply preserves_coherent_shift.
Qed.

Lemma preserves_coherent_initialize_menu (w : World) :
  preserves shift_coherent (initialize_menu w).
Proof.
  intros s Hs. unfold initialize_menu.
  unfold bind at 1, get. simpl. unfold bind at 1, call. simpl.
  revert s Hs.
  change (preserves shift_coherent
            (modify (with_tray_menu (menu_add (WDomainMenuItem None))) ;;
             for_each (sorted (filter (fun v => klass v =? "AdminVM") (domains w)))
               (fun v => add_domain_item w None (name v)) ;;
             for_each
               (sorted (filter (fun v => negb (klass v =? "AdminVM")) (domains w)))
               (fun v => add_domain_item w None (name v)) ;;
             s <- get ;;
             for_each (menu_items s) (initialize_show_item w) ;;
             modify (with_tray_menu (menu_add SeparatorMenuItem)) ;;
             modify (with_tray_menu (menu_add QubesManagerItem)))).
  unfold initialize_show_item.
  repeat first [apply preserves_coherent_add | coherent_step].
Qed.

Lemma preserves_coherent_run_signal (w : World) (sg : Signal) :
  preserves shift_coherent (run_signal w sg).
Proof.
  destruct sg; simpl.
  - apply preserves_coherent_run_call.
  - apply preserves_coherent_initialize_menu.
  - unfold debug_change. repeat coherent_step.
  - unfold key_event. destruct keyval; destruct type;
      first [apply preserves_coherent_shift | apply preserves_ret].
  - apply preserves_coherent_shift.
  - unfold emit_notification, kwargs_getitem, emit. repeat coherent_step.
Qed.

Lemma shift_coherent_run_signals (expert : bool)
  (signals : list (World * Signal)) :
  shift_coherent (run_signals signals (new_DomainTray expert)).
Proof.
  apply run_signals_preserves.
  - apply preserves_coherent_run_signal.
  - split; constructor.
Qed.

(** X2: in every state the tray reaches from its creation, every terminal,
    shutdown and restart item of every submenu shows the label of the flag
    it holds; in the submenu of a started domain the flag is the shift flag
    of the tray; and while shift is not pressed no item holds a flag. *)
Theorem submenus_follow_shift (expert : bool) (signals : list (World * Signal))
  (k : string) (i : DomainMenuItem) (sub : Menu) (c : ActionItem) :
  let s := run_signals signals (new_DomainTray expert) in
  dict_get (menu_items s) k = Some i ->
  submenu i = Some sub ->
  In c (children sub) ->
  match c with
  | RunTerminalItem flag label =>
      label = dynamic_label flag
      /\ (menu_class sub = StartedMenu -> flag = shift_pressed s)
      /\ (shift_pressed s = false -> flag = false)
  | ShutdownItem flag label =>
      label = shutdown_label flag
      /\ (menu_class sub = StartedMenu -> flag = shift_pressed s)
      /\ (shift_pressed s = false -> flag = false)
  | RestartItem flag label =>
      label = restart_label flag
      /\ (menu_class sub = StartedMenu -> flag = shift_pressed s)
      /\ (shift_pressed s = false -> flag = false)
  | _ => True
  end.
Proof.
  intros s Hget Hsub Hc.
  destruct (shift_coherent_run_signals expert signals) as [_ Hall].
  fold s in Hall.
  pose proof (dict_get_Forall _ _ _ _ Hall Hget) as Hi. simpl in Hi.
  unfold item_configured in Hi. rewrite Hsub in Hi. destruct Hi as [_ Hi].
  rewrite forallb_forall in Hi. specialize (Hi c Hc).
  assert (Hflag : forall flag,
             match (if is_StartedMenu sub || negb (shift_pressed s)
                    then Some (shift_pressed s) else None) with
             | Some b => Bool.eqb flag b
             | None => true
             end = true ->
             (menu_class sub = StartedMenu -> flag = shift_pressed s)
             /\ (shift_pressed s = false -> flag = false)).
  { intros flag H. unfold is_StartedMenu in H. split.
    - intros E. rewrite E in H. simpl in H. apply Bool.eqb_prop. exact H.
    - intros E. rewrite E in H. simpl negb in H. rewrite orb_true_r in H.
      apply Bool.eqb_prop. exact H. }
  destruct c; try exact I; simpl in Hi; apply andb_prop in Hi;
    destruct Hi as [Hl Hf]; apply String.eqb_eq in Hl;
    (split; [exact Hl | exact (Hflag _ Hf)]).
Qed.

Lemma submenus_follow_shift_witness :
  exists i sub,
    dict_get (menu_items tray_running) "work" = Some i
    /\ submenu i = Some sub
    /\ In (new_ShutdownItem false) (children sub)
    /\ (menu_class sub = StartedMenu -> false = shift_pressed tray_running).
Proof.
  destruct (dict_get (menu_items tray_running) "work") as [i |] eqn:Ei;
    [| discriminate Ei].
  destruct (submenu i) as [sub |] eqn:Es;
    [| vm_compute in Ei; injection Ei as <-; discriminate Es].
  assert (Hin : In (new_ShutdownItem false) (children sub)).
  { vm_compute in Ei. injection Ei as <-. vm_compute in Es.
    injection Es as <-. simpl. tauto. }
  exists i, sub.
  split; [reflexivity |]. split; [exact Es |]. split; [exact Hin |].
  exact (proj1 (proj2 (submenus_follow_shift false [(world_running, signal_run)]
                         "work" i sub (new_ShutdownItem false) Ei Es Hin))).
Defined.

(** ** Shift pressed and released *)

Lemma do_emit_round_trip (c : ActionItem) :
  configured (Some false) c = true -> do_emit false (do_emit true c) = c.
Proof.
  destruct c; simpl; try reflexivity; intros H; apply andb_prop in H;
    destruct H as [Hl Hf]; apply String.eqb_eq in Hl;
    apply Bool.eqb_prop in Hf; subst; reflexivity.
Qed.

Lemma reconfigure_item_round_trip (i : DomainMenuItem) :
  item_configured false i ->
  reconfigure_item false (reconfigure_item true i) = i.
Proof.
  unfold item_configured, reconfigure_item.
  destruct i as [v vis sp nl sub od]. simpl.
  destruct sub as [[mc ch] |]; [| destruct v; reflexivity].
  intros [Hv Hc]. destruct v as [v |]; [| contradiction]. simpl.
  rewrite orb_true_r in Hc. simpl in Hc.
  assert (E : map (do_emit false) (map (do_emit true) ch) = ch).
  { induction ch as [| c rest IH]; simpl; [reflexivity |].
    simpl in Hc. apply andb_prop in Hc. destruct Hc as [H1 H2].
    rewrite (do_emit_round_trip c H1), (IH H2). reflexivity. }
  unfold with_submenu. simpl. rewrite E. reflexivity.
Qed.

Lemma set_shift_pressed_change (shift : bool) (s : DomainTray) :
  NoDup (map fst (menu_items s)) ->
  shift_pressed s = negb shift ->
  snd (set_shift_pressed shift s)
  = with_menu_items (map (fun kv => (fst kv, reconfigure_item shift (snd kv))))
      (with_shift_pressed shift s).
Proof.
  intros Hnd Hs. unfold set_shift_pressed. unfold bind at 1, get. simpl.
  rewrite Hs. destruct shift; simpl; unfold bind, modify; simpl;
    rewrite reconfigure_eq by exact Hnd; reflexivity.
Qed.

(** X3: in a state the tray reaches from its creation with shift not
    pressed, a press of a shift key followed by its release leaves the tray
    as it was: the menu, every item with its submenu, the notifications; the
    shift attribute reads false. *)
Theorem shift_press_release (expert : bool) (signals : list (World * Signal))
  (w1 w2 : World) (k1 k2 : Key) :
  shift_pressed (run_signals signals (new_DomainTray expert)) = false ->
  k1 <> KEY_other -> k2 <> KEY_other ->
  run_signals
    [(w1, signal_key_event k1 KEY_PRESS); (w2, signal_key_event k2 KEY_RELEASE)]
    (run_signals signals (new_DomainTray expert))
  = with_shift_pressed false (run_signals signals (new_DomainTray expert)).
Proof.
  intros Hs Hk1 Hk2.
  destruct (shift_coherent_run_signals expert signals) as [Hnd Hall].
  set (s := run_signals signals (new_DomainTray expert)) in *.
  rewrite Hs in Hall.
  assert (E1 : snd (key_event k1 KEY_PRESS s)
               = with_menu_items
                   (map (fun kv => (fst kv, reconfigure_item true (snd kv))))
                   (with_shift_pressed true s)).
  { destruct k1; try contradiction; simpl;
      apply set_shift_pressed_change; assumption. }
  simpl. rewrite E1.
  assert (E2 : forall t,
             NoDup (map fst (menu_items t)) -> shift_pressed t = true ->
             snd (key_event k2 KEY_RELEASE t)
             = with_menu_items
                 (map (fun kv => (fst kv, reconfigure_item false (snd kv))))
                 (with_shift_pressed false t)).
  { intros t Ht1 Ht2. destruct k2; try contradiction; simpl;
      apply set_shift_pressed_change; assumption. }
  rewrite E2.
  - unfold with_menu_items, with_shift_pressed. simpl. f_equal.
    rewrite map_map. simpl.
    clear - Hall. induction Hall as [| [k i] rest Hi _ IH]; simpl; [reflexivity |].
    simpl in Hi. rewrite (reconfigure_item_round_trip i Hi), IH. reflexivity.
  - simpl. rewrite map_map. simpl. exact Hnd.
  - reflexivity.
Qed.

Lemma shift_press_release_witness :
  shift_pressed
    (run_signals [(world_running, signal_run)] (new_DomainTray false)) = false
  /\ run_signals
       [(world_running, signal_key_event KEY_Shift_L KEY_PRESS);
        (world_paused, signal_key_event KEY_Shift_R KEY_RELEASE)]
       (run_signals [(world_running, signal_run)] (new_DomainTray false))
     = with_shift_pressed false
         (run_signals [(world_running, signal_run)] (new_DomainTray false)).
Proof.
  split; [reflexivity |].
  apply (shift_press_release false [(world_running, signal_run)]
           world_running world_paused KEY_Shift_L KEY_Shift_R);
    [reflexivity | discriminate | discriminate].
Defined.

(** ** Adding and removing *)

Lemma Widget_eqb_eq (a b : Widget) : Widget_eqb a b = true <-> a = b.
Proof.
  destruct a as [[x |] | |], b as [[y |] | |]; simpl;
    try (split; [discriminate | discriminate]);
    try (split; reflexivity).
  rewrite VM_eqb_eq. split; [intros -> | intros H; injection H as ->];
    reflexivity.
Qed.

Lemma menu_remove_middle (x : Widget) (a b : list Widget) :
  ~ In x a -> menu_remove x (a ++ x :: b) = a ++ b.
Proof.
  induction a as [| y rest IH]; simpl; intros H.
  - assert (E : Widget_eqb x x = true) by (apply Widget_eqb_eq; reflexivity).
    rewrite E. reflexivity.
  - destruct (Widget_eqb y x) eqn:E.
    + apply Widget_eqb_eq in E. exfalso. apply H. left. exact E.
    + rewrite IH; [reflexivity |]. intros G. apply H. right. exact G.
Qed.

Lemma dict_del_absent {A} (d : list (string * A)) (k : string) :
  dict_get d k = None -> dict_del d k = d.
Proof.
  unfold dict_del. induction d as [| [k' y] rest IH]; simpl; intros H;
    [reflexivity |].
  destruct (k' =? k); [discriminate |]. simpl. rewrite IH by exact H.
  reflexivity.
Qed.

Lemma dict_del_set_absent {A} (d : list (string * A)) (k : string) (x : A) :
  dict_get d k = None -> dict_del (dict_set d k x) k = d.
Proof.
  intros H. rewrite (dict_set_absent d k x H). unfold dict_del.
  rewrite filter_app. simpl. rewrite String.eqb_refl. simpl.
  rewrite app_nil_r. apply (dict_del_absent d k H).
Qed.

Lemma dict_contains_false {A} (d : list (string * A)) (k : string) :
  dict_contains d k = false -> dict_get d k = None.
Proof.
  unfold dict_contains. destruct (dict_get d k); [discriminate | reflexivity].
Qed.

(** X4: for a name that is neither tracked nor shown, adding the domain
    and then removing it restores the tray: the menu and the dictionary are
    what they were, whatever the event, the place the entry had taken and
    the state the item had been built in. *)
Theorem add_then_remove (w : World) (event : option string) (vm_name : string)
  (s : DomainTray) :
  dict_contains (menu_items s) vm_name = false ->
  ~ In vm_name (map name (menu_handles (tray_menu s))) ->
  remove_domain_item vm_name (snd (add_domain_item w event vm_name s))
  = (Ok tt, s).
Proof.
  intros Habs Hmenu.
  assert (Hnone := dict_contains_false _ _ Habs).
  assert (Hsame : remove_domain_item vm_name s = (Ok tt, s)).
  { unfold remove_domain_item, bind, get. simpl. rewrite Hnone. reflexivity. }
  rewrite add_domain_item_eq.
  destruct (domains_getitem (domains w) vm_name) as [v |] eqn:Eg; [| exact Hsame].
  pose proof (domains_getitem_name _ _ _ Eg) as Hn.
  destruct (dict_contains (menu_items s) (name v)); [exact Hsame |].
  destruct (add_state_result w event v) as [[st |] | e]; try exact Hsame.
  destruct (new_DomainMenuItem w s (Some v) (Some st)) as [item | e] eqn:En;
    [| exact Hsame].
  pose proof (new_DomainMenuItem_vm _ _ _ _ _ En) as Hv.
  cbn [snd]. unfold remove_domain_item, bind, get, modify, insert_entry.
  cbn [menu_items with_menu_items with_tray_menu fst snd].
  rewrite Hn, dict_get_set, String.eqb_refl. cbn [fst snd]. rewrite Hv.
  assert (Hnotin : forall l, incl l (tray_menu s) -> ~ In (entry v) l).
  { intros l Hl Hin. apply Hmenu. rewrite <- Hn. apply in_map.
    apply menu_handles_In. apply Hl. exact Hin. }
  assert (Hm : menu_remove (WDomainMenuItem (Some v))
                 ((if negb (truthy_opt event)
                   then menu_add (WDomainMenuItem (Some v))
                   else menu_insert (WDomainMenuItem (Some v))
                          (scan_position (tray_menu s) vm_name 0))
                    (tray_menu s))
               = tray_menu s).
  { destruct (negb (truthy_opt event)).
    - unfold menu_add. rewrite (menu_remove_middle _ _ []).
      + apply app_nil_r.
      + apply Hnotin. apply incl_refl.
    - unfold menu_insert. rewrite menu_remove_middle.
      + apply firstn_skipn.
      + apply Hnotin. intros x Hx.
        rewrite <- (firstn_skipn (scan_position (tray_menu s) vm_name 0)
                      (tray_menu s)).
        apply in_or_app. left. exact Hx. }
  destruct s as [tm mi pn sp ex lg]. unfold with_menu_items, with_tray_menu.
  cbn [tray_menu menu_items pause_notification_out _shift_pressed expert_mode log]
    in *.
  rewrite Hm, (dict_del_set_absent mi vm_name item Hnone). reflexivity.
Qed.

Lemma add_then_remove_witness :
  dict_contains (menu_items tray_running) "alpha" = false
  /\ remove_domain_item "alpha"
       (snd (add_domain_item world_with_alpha (Some "domain-add") "alpha"
               tray_running))
     = (Ok tt, tray_running).
Proof.
  split; [reflexivity |].
  apply (add_then_remove world_with_alpha (Some "domain-add") "alpha"
           tray_running).
  - reflexivity.
  - simpl. intros [H | [H | []]]; discriminate H.
Defined.

(** ** Start-up lists every domain *)















(** ** The refresh on reconnection *)

Lemma update_state_idempotent (w : World) (a : DomainTray) (st : string)
  (i i' : DomainMenuItem) :
  update_state w a st i = Ok i' -> update_state w a st i' = Ok i'.
Proof.
  destruct (vm i) as [v |] eqn:E.
  - rewrite (update_state_Some w a st i v E).
    destruct (klass v =? "AdminVM") eqn:Ea.
    + intros H. injection H as <-.
      rewrite (update_state_Some w a st i v E), Ea. reflexivity.
    + destruct (negb (truthy (klass v))) eqn:Et.
      * intros H. injection H as <-.
        rewrite (update_state_Some w a st _ v) by exact E.
        rewrite Ea, Et. reflexivity.
      * destruct (st =? "Halted") eqn:Eh; intros H; injection H as <-.
        -- rewrite (update_state_Some w a st _ v) by exact E.
           rewrite Ea, Et, Eh. reflexivity.
        -- rewrite (update_state_Some w a st _ v) by exact E.
           rewrite Ea, Et, Eh. reflexivity.
  - unfold update_state. rewrite E. intros H. injection H as <-.
    rewrite E. reflexivity.
Qed.












(** ** State updates of an item *)

(** X7: a state update of an item is idempotent, and a later update to a
    state other than Halted overwrites an earlier one: the item is the same
    as if the earlier update had never happened.  An update to Halted after
    another only hides an item of an ordinary class, which keeps what the
    earlier update gave it. *)
Theorem update_state_last_wins (w : World) (app : DomainTray)
  (first later : string) (i i' : DomainMenuItem) :
  update_state w app first i = Ok i' ->
  update_state w app first i' = Ok i'
  /\ ((later =? "Halted") = false ->
      update_state w app later i' = update_state w app later i)
  /\ (forall h, vm i = Some h -> is_admin h = false -> truthy (klass h) = true ->
                update_state w app "Halted" i' = Ok (hide i')).
Proof.
  intros H. split; [exact (update_state_idempotent _ _ _ _ _ H) |].
  destruct (vm i) as [v |] eqn:E.
  - rewrite (update_state_Some w app first i v E) in H.
    assert (Hv : vm i' = Some v).
    { destruct (klass v =? "AdminVM"); [injection H as <-; exact E |].
      destruct (negb (truthy (klass v))); [injection H as <-; exact E |].
      destruct (first =? "Halted"); injection H as <-; exact E. }
    split.
    + intros Hl.
      rewrite (update_state_Some w app later i' v Hv),
        (update_state_Some w app later i v E), Hl.
      destruct (klass v =? "AdminVM"); [injection H as <-; reflexivity |].
      destruct (negb (truthy (klass v))); [injection H as <-; reflexivity |].
      destruct (first =? "Halted"); injection H as <-; reflexivity.
    + intros h Hh Hadm Hkl. injection Hh as <-.
      rewrite (update_state_Some w app "Halted" i' v Hv).
      unfold is_admin in Hadm. rewrite Hadm, Hkl. reflexivity.
  - unfold update_state in H. rewrite E in H. injection H as <-.
    split; [reflexivity |]. intros h Hh. discriminate Hh.
Qed.

Lemma update_state_last_wins_witness :
  update_state world_running tray_running "Running"
    (presented world_running tray_running "Transient" work (fresh_item work))
  = update_state world_running tray_running "Running" (fresh_item work).
Proof.
  apply (update_state_last_wins world_running tray_running "Transient" "Running"
           (fresh_item work));
    reflexivity.
Defined.

(** ** Starting and shutting down *)







(** ** The pause aggregate as the code computes it *)

(** X9: the aggregate is true exactly when some domain is counted (neither
    admin-class nor a preload) and every counted domain answers that it is
    running and that it is paused; a counted domain that is not running
    makes it false.  When every counted domain answers both queries, the
    aggregate raises nothing. *)
Theorem have_running_and_all_are_paused_exactly (w : World) :
  (have_running_and_all_are_paused w = Ok true
   <-> (exists v, In v (domains w) /\ counted w v = true)
       /\ forall v, In v (domains w) -> counted w v = true ->
            is_running (api w (name v)) = Ok true
            /\ is_paused (api w (name v)) = Ok true)
  /\ ((forall v, In v (domains w) -> counted w v = true ->
         (exists r, is_running (api w (name v)) = Ok r)
         /\ (exists p, is_paused (api w (name v)) = Ok p)) ->
      exists b, have_running_and_all_are_paused w = Ok b).
Proof.
  split; [apply have_running_and_all_are_paused_true |].
  unfold have_running_and_all_are_paused. generalize false.
  induction (domains w) as [| v rest IH]; intros found Hall; simpl.
  - exists found. reflexivity.
  - destruct ((klass v =? "AdminVM") || is_preload (api w (name v))) eqn:Ec.
    + apply IH. intros x Hx. apply Hall. right. exact Hx.
    + destruct (Hall v (or_introl eq_refl)) as [[r Hr] [p Hp]].
      { unfold counted. rewrite Ec. reflexivity. }
      rewrite Hr, Hp. destruct r; [| exists false; reflexivity].
      destruct p; [| exists false; reflexivity].
      apply IH. intros x Hx. apply Hall. right. exact Hx.
Qed.

(** ** Status notifications *)

(** X10: for each of the seven event kinds that [register_events] delivers
    to [emit_notification], the handler sends exactly one desktop
    notification, titled with the name of the qube (of the disposable, for a
    used preload), of high priority with the warning icon exactly for the
    two failure kinds, and changes nothing else; the kinds that carry a
    reason or a disposable need it among the keyword arguments.  For any
    other event kind it sends nothing. *)
Theorem emit_notification_sends_once (v : VM) (event : string)
  (kwargs : list (string * string)) (s : DomainTray) :
  (event = "domain-preload-dispvm-used" -> dict_get kwargs "dispvm" <> None) ->
  (event = "domain-start-failed" \/ event = "domain-shutdown-failed" ->
   dict_get kwargs "reason" <> None) ->
  (In (dispatcher, event, h_emit_notification) register_events ->
   exists n,
     emit_notification v event kwargs s
     = (Ok tt, with_log (fun l => l ++ [send_notification None n]) s)
     /\ title n
        = ("Qube Status: "
           ++ (if event =? "domain-preload-dispvm-used"
               then match dict_get kwargs "dispvm" with
                    | Some d => d
                    | None => EmptyString
                    end
               else name v))%string
     /\ high_priority n
        = ((event =? "domain-start-failed") || (event =? "domain-shutdown-failed"))
     /\ icon n = (if high_priority n then Some "dialog-warning" else None)
     /\ buttons n = [])
  /\ (~ In (dispatcher, event, h_emit_notification) register_events ->
      emit_notification v event kwargs s = (Ok tt, s)).
Proof.
  intros Hdisp Hreason. split.
  - intros Hin. simpl in Hin.
    repeat (destruct Hin as [Hin | Hin];
            [try discriminate Hin; injection Hin as <- |]);
      try contradiction.
    + eexists. split; [reflexivity |]. repeat split.
    + eexists. split; [reflexivity |]. repeat split.
    + destruct (dict_get kwargs "reason") as [r |] eqn:E;
        [| exfalso; apply Hreason; [left; reflexivity | reflexivity]].
      eexists. split.
      * unfold emit_notification, kwargs_getitem. rewrite E. reflexivity.
      * repeat split.
    + eexists. split; [reflexivity |]. repeat split.
    + eexists. split; [reflexivity |]. repeat split.
    + destruct (dict_get kwargs "reason") as [r |] eqn:E;
        [| exfalso; apply Hreason; [right; reflexivity | reflexivity]].
      eexists. split.
      * unfold emit_notification, kwargs_getitem. rewrite E. reflexivity.
      * repeat split.
    + destruct (dict_get kwargs "dispvm") as [d |] eqn:E;
        [| exfalso; apply Hdisp; reflexivity].
      eexists. split.
      * unfold emit_notification, kwargs_getitem. rewrite E. reflexivity.
      * repeat split.
  - intros Hnot. unfold emit_notification.
    assert (H : forall e, In e ["domain-pre-start"; "domain-start";
                                "domain-start-failed"; "domain-pre-shutdown";
                                "domain-shutdown"; "domain-shutdown-failed";
                                "domain-preload-dispvm-used"] ->
                (event =? e) = false).
    { intros e He. apply String.eqb_neq. intros ->. apply Hnot.
      simpl in He. simpl.
      repeat (destruct He as [<- | He]; [tauto |]). contradiction. }
    rewrite !H by (simpl; tauto). reflexivity.
Qed.

Lemma emit_notification_sends_once_witness :
  exists n,
    emit_notification work "domain-start-failed" [("reason", "out of memory")]
      tray_running
    = (Ok tt, with_log (fun l => l ++ [send_notification None n]) tray_running)
    /\ body n = "Qube work has failed to start: out of memory"
    /\ high_priority n = true.
Proof.
  destruct (emit_notification_sends_once work "domain-start-failed"
              [("reason", "out of memory")] tray_running) as [H _].
  - discriminate.
  - intros _. discriminate.
  - destruct H as [n [Hn _]].
    + simpl. tauto.
    + exists n. split; [exact Hn |].
      injection Hn as Hlog. rewrite <- Hlog. split; reflexivity.
Defined.

(** ** The debug console *)


Lemma debug_console_refresh_app (w : World) (a b : DomainTray)
  (i : DomainMenuItem) :
  expert_mode a = expert_mode b ->
  debug_console_refresh w a i = debug_console_refresh w b i.
Proof.
  intros H. unfold debug_console_refresh, debug_console_visible. rewrite H.
  reflexivity.
Qed.






(** ** Registering and disconnecting the handlers *)

Lemma Handler_eqb_eq (a b : Handler) : Handler_eqb a b = true <-> a = b.
Proof. destruct a, b; simpl; split; intros H; try reflexivity; discriminate. Qed.

Lemma Dispatcher_eqb_eq (a b : Dispatcher) : Dispatcher_eqb a b = true <-> a = b.
Proof. destruct a, b; simpl; split; intros H; try reflexivity; discriminate. Qed.

Lemma registration_eqb_eq (x y : Dispatcher * string * Handler) :
  registration_eqb x y = true <-> x = y.
Proof.
  destruct x as [[a e] h], y as [[a' e'] h']. unfold registration_eqb. simpl.
  rewrite !andb_true_iff, Dispatcher_eqb_eq, String.eqb_eq, Handler_eqb_eq.
  split.
  - intros [[-> ->] ->]. reflexivity.
  - intros H. injection H as -> -> ->. auto.
Qed.

Lemma existsb_Handler (h : Handler) (hs : list Handler) :
  existsb (Handler_eqb h) hs = true <-> In h hs.
Proof.
  rewrite existsb_exists. split.
  - intros [x [Hx E]]. apply Handler_eqb_eq in E. subst x. exact Hx.
  - intros H. exists h. split; [exact H | apply Handler_eqb_eq; reflexivity].
Qed.

Lemma bool_eq_iff (a b : bool) : (a = true <-> b = true) -> a = b.
Proof. destruct a, b; intros [H1 H2]; auto; symmetry; auto. Qed.

(** Membership in the set of one event after [add_handler]. *)
Lemma add_handler_member (event : string) (h : Handler)
  (handlers : list (string * list Handler)) (event' : string) (h' : Handler) :
  match dict_get (add_handler event h handlers) event' with
  | Some hs => existsb (Handler_eqb h') hs
  | None => false
  end
  = match dict_get handlers event' with
    | Some hs => existsb (Handler_eqb h') hs
    | None => false
    end
    || ((event =? event') && Handler_eqb h h').
Proof.
  unfold add_handler.
  destruct (dict_get handlers event) as [hs |] eqn:E.
  - destruct (existsb (Handler_eqb h) hs) eqn:Eh.
    + destruct (event =? event') eqn:Ee; [| rewrite orb_false_r; reflexivity].
      apply String.eqb_eq in Ee. subst event'. rewrite E. simpl.
      destruct (Handler_eqb h h') eqn:Ehh; [| rewrite orb_false_r; reflexivity].
      apply Handler_eqb_eq in Ehh. subst h'.
      apply existsb_Handler in Eh. rewrite orb_true_r.
      apply existsb_Handler. exact Eh.
    + rewrite dict_get_set. destruct (event =? event') eqn:Ee.
      * apply String.eqb_eq in Ee. subst event'. rewrite E, existsb_app.
        simpl. rewrite orb_false_r.
        f_equal. apply bool_eq_iff. rewrite !Handler_eqb_eq.
        split; intros ->; reflexivity.
      * rewrite orb_false_r. reflexivity.
  - rewrite dict_get_set. destruct (event =? event') eqn:Ee.
    + apply String.eqb_eq in Ee. subst event'. rewrite E. simpl.
      rewrite orb_false_r. apply bool_eq_iff. rewrite !Handler_eqb_eq.
      split; intros ->; reflexivity.
    + rewrite orb_false_r. reflexivity.
Qed.

Lemma existsb_filter_out (h h' : Handler) (hs : list Handler) :
  existsb (Handler_eqb h') (filter (fun x => negb (Handler_eqb h x)) hs)
  = existsb (Handler_eqb h') hs && negb (Handler_eqb h h').
Proof.
  apply bool_eq_iff.
  rewrite andb_true_iff, negb_true_iff, !existsb_Handler, filter_In,
    negb_true_iff.
  split.
  - intros [H1 H2]. split; [exact H1 | exact H2].
  - intros [H1 H2]. split; [exact H1 | exact H2].
Qed.

(** Membership in the set of one event after [remove_handler]. *)
Lemma remove_handler_member (event : string) (h : Handler)
  (handlers : list (string * list Handler)) :
  match dict_get handlers event with
  | Some hs => existsb (Handler_eqb h) hs
  | None => false
  end = true ->
  exists handlers',
    remove_handler event h handlers = Ok handlers'
    /\ forall event' h',
         match dict_get handlers' event' with
         | Some hs => existsb (Handler_eqb h') hs
         | None => false
         end
         = match dict_get handlers event' with
           | Some hs => existsb (Handler_eqb h') hs
           | None => false
           end
           && negb ((event =? event') && Handler_eqb h h').
Proof.
  unfold remove_handler.
  destruct (dict_get handlers event) as [hs |] eqn:E; [| discriminate].
  intros Hin. rewrite Hin. eexists. split; [reflexivity |].
  intros event' h'. rewrite dict_get_set.
  destruct (event =? event') eqn:Ee.
  - apply String.eqb_eq in Ee. subst event'. rewrite E. simpl.
    apply existsb_filter_out.
  - simpl. rewrite andb_true_r. reflexivity.
Qed.

Lemma registered_with_handlers (which : Dispatcher)
  (handlers : list (string * list Handler)) (d : Dispatchers)
  (x : Dispatcher * string * Handler) :
  registered (with_handlers which handlers d) x
  = if Dispatcher_eqb which (fst (fst x))
    then match dict_get handlers (snd (fst x)) with
         | Some hs => existsb (Handler_eqb (snd x)) hs
         | None => false
         end
    else registered d x.
Proof.
  destruct x as [[a e] h]. unfold registered. simpl.
  destruct which, a; reflexivity.
Qed.

Lemma registered_add (y x : Dispatcher * string * Handler) (d : Dispatchers) :
  registered
    (with_handlers (fst (fst y))
       (add_handler (snd (fst y)) (snd y) (handlers_of (fst (fst y)) d)) d) x
  = registered d x || registration_eqb y x.
Proof.
  rewrite registered_with_handlers. unfold registration_eqb.
  destruct y as [[a e] h], x as [[a' e'] h']. simpl.
  destruct (Dispatcher_eqb a a') eqn:Ea.
  - apply Dispatcher_eqb_eq in Ea. subst a'. rewrite add_handler_member.
    reflexivity.
  - simpl. rewrite orb_false_r. reflexivity.
Qed.

Lemma run_add_handlers_registered (calls : list (Dispatcher * string * Handler)) :
  forall d x,
    registered (run_add_handlers calls d) x
    = registered d x || existsb (fun y => registration_eqb y x) calls.
Proof.
  induction calls as [| [[a e] h] rest IH]; intros d x; simpl.
  - rewrite orb_false_r. reflexivity.
  - pose proof (registered_add (a, e, h) x d) as H. cbn [fst snd] in H.
    rewrite IH, H, orb_assoc. reflexivity.
Qed.

Lemma run_remove_handlers_registered
  (calls : list (Dispatcher * string * Handler)) :
  forall d,
    NoDup calls ->
    (forall y, In y calls -> registered d y = true) ->
    exists d',
      run_remove_handlers calls d = Ok d'
      /\ forall x, registered d' x
                   = registered d x
                     && negb (existsb (fun y => registration_eqb y x) calls).
Proof.
  induction calls as [| [[a e] h] rest IH]; intros d Hnd Hall; simpl.
  - exists d. split; [reflexivity |]. intros x. rewrite andb_true_r. reflexivity.
  - inversion Hnd as [| ? ? Hnotin Hnd']; subst.
    destruct (remove_handler_member e h (handlers_of a d)) as [hs' [Hr Hm]].
    { apply (Hall (a, e, h)). left. reflexivity. }
    rewrite Hr.
    assert (Hreg : forall x,
               registered (with_handlers a hs' d) x
               = registered d x && negb (registration_eqb (a, e, h) x)).
    { intros [[a' e'] h']. rewrite registered_with_handlers.
      unfold registration_eqb. simpl.
      destruct (Dispatcher_eqb a a') eqn:Ea.
      - apply Dispatcher_eqb_eq in Ea. subst a'. rewrite Hm. reflexivity.
      - simpl. rewrite andb_true_r. reflexivity. }
    destruct (IH (with_handlers a hs' d) Hnd') as [d' [Hd' Hx]].
    + intros y Hy. rewrite Hreg, (Hall y (or_intror Hy)). simpl.
      apply negb_true_iff. apply not_true_iff_false. intros E.
      apply registration_eqb_eq in E. subst y. contradiction.
    + exists d'. split; [exact Hd' |]. intros x.
      rewrite Hx, Hreg, negb_orb, andb_assoc. reflexivity.
Qed.

Lemma register_events_NoDup : NoDup register_events.
Proof.
  unfold register_events.
  repeat (apply NoDup_cons;
          [ simpl; intros H;
            repeat (destruct H as [H | H]; [discriminate H |]); exact H
          | ]).
  apply NoDup_nil.
Qed.

(** X12: [_disconnect_signals] removes exactly the registrations that
    [register_events] makes, each once: run after [register_events], from
    whatever the two dispatchers held before, it raises no [KeyError], and
    afterwards none of the tray's registrations is left, while every other
    registration is as it was. *)
Theorem disconnect_undoes_register (d : Dispatchers) :
  _disconnect_signals = register_events
  /\ exists d',
       run_remove_handlers _disconnect_signals
         (run_add_handlers register_events d) = Ok d'
       /\ (forall x, In x register_events -> registered d' x = false)
       /\ (forall x, ~ In x register_events -> registered d' x = registered d x).
Proof.
  split; [reflexivity |].
  change _disconnect_signals with register_events.
  destruct (run_remove_handlers_registered register_events
              (run_add_handlers register_events d) register_events_NoDup)
    as [d' [Hd' Hx]].
  - intros y Hy. rewrite run_add_handlers_registered.
    apply orb_true_iff. right. apply existsb_exists. exists y.
    split; [exact Hy | apply registration_eqb_eq; reflexivity].
  - exists d'. split; [exact Hd' |]. split.
    + intros x Hin. rewrite Hx.
      assert (E : existsb (fun y => registration_eqb y x) register_events = true).
      { apply existsb_exists. exists x.
        split; [exact Hin | apply registration_eqb_eq; reflexivity]. }
      rewrite E. apply andb_false_r.
    + intros x Hnot. rewrite Hx, run_add_handlers_registered.
      assert (E : existsb (fun y => registration_eqb y x) register_events = false).
      { apply not_true_iff_false. intros E. apply existsb_exists in E.
        destruct E as [y [Hy Ey]]. apply registration_eqb_eq in Ey. subst y.
        contradiction. }
      rewrite E, orb_false_r, andb_true_r. reflexivity.
Qed.

(** X13: every event kind of the state table is delivered to
    [update_domain_item], and the only other kinds delivered to it are the
    two changes of the internal feature, for which it queries the power
    state; every kind delivered to [check_pause_notify] is delivered to
    [update_domain_item] as well. *)
Theorem state_table_is_registered (event : string) :
  (dict_get STATE_DICTIONARY event <> None ->
   In (dispatcher, event, h_update_domain_item) register_events)
  /\ (In (dispatcher, event, h_update_domain_item) register_events ->
      dict_get STATE_DICTIONARY event <> None
      \/ event = "domain-feature-set:internal"
      \/ event = "domain-feature-delete:internal")
  /\ (In (dispatcher, event, h_check_pause_notify) register_events ->
      In (dispatcher, event, h_update_domain_item) register_events).
Proof.
  split; [| split].
  - unfold STATE_DICTIONARY. simpl dict_get.
    repeat match goal with
           | |- context [if ?k =? event then _ else _] =>
               let E := fresh "E" in
               destruct (k =? event) eqn:E;
               [apply String.eqb_eq in E; subst event; intros _; simpl; tauto |]
           end.
    intros H. contradiction.
  - intros H. simpl in H.
    repeat (destruct H as [H | H];
            [try discriminate H; injection H as <-;
             first [left; discriminate | right; tauto] |]).
    contradiction.
  - intros H. simpl in H.
    repeat (destruct H as [H | H];
            [try discriminate H; injection H as <-; simpl; tauto |]).
    contradiction.
Qed.

(** * Properties of the device widgets *)

(** ** Splitting and joining *)

Lemma split_nonempty (sep : ascii) (s : string) : Devices.split sep s <> [].
Proof.
  destruct s as [| c rest]; simpl; [discriminate |].
  destruct (Ascii.eqb c sep); [discriminate |].
  destruct (Devices.split sep rest); discriminate.
Qed.

Lemma join_cons (sep x : string) (l : list string) :
  l <> [] -> Devices.join sep (x :: l) = (x ++ sep ++ Devices.join sep l)%string.
Proof. destruct l; [contradiction | reflexivity]. Qed.

Lemma join_split (sep : ascii) (s : string) :
  Devices.join (String sep EmptyString) (Devices.split sep s) = s.
Proof.
  induction s as [| c rest IH]; [reflexivity |].
  simpl Devices.split. destruct (Ascii.eqb c sep) eqn:E.
  - apply Ascii.eqb_eq in E. subst c.
    rewrite join_cons by apply split_nonempty. rewrite IH. reflexivity.
  - pose proof (split_nonempty sep rest) as Hne.
    destruct (Devices.split sep rest) as [| word words]; [contradiction |].
    destruct words as [| w2 ws].
    + simpl in *. rewrite IH. reflexivity.
    + rewrite join_cons by discriminate. rewrite join_cons in IH by discriminate.
      cbn [append] in IH |- *. rewrite IH. reflexivity.
Qed.

Lemma split_word (x : string) :
  Devices.no_space x = true -> Devices.split Devices.space x = [x].
Proof.
  induction x as [| c rest IH]; simpl; [reflexivity |].
  intros H. apply andb_prop in H. destruct H as [Hc Hrest].
  apply negb_true_iff in Hc. rewrite Hc, (IH Hrest). reflexivity.
Qed.

Lemma split_word_app (x r : string) :
  Devices.no_space x = true ->
  Devices.split Devices.space (x ++ String Devices.space r)
  = x :: Devices.split Devices.space r.
Proof.
  induction x as [| c rest IH]; simpl.
  - intros _. reflexivity.
  - intros H. apply andb_prop in H. destruct H as [Hc Hrest].
    apply negb_true_iff in Hc. rewrite Hc, (IH Hrest). reflexivity.
Qed.

Lemma split_join (l : list string) :
  l <> [] ->
  Forall (fun x => Devices.no_space x = true) l ->
  Devices.split Devices.space (Devices.join " " l) = l.
Proof.
  induction l as [| x rest IH]; [contradiction |].
  intros _ Hall. inversion Hall as [| ? ? Hx Hrest]; subst.
  destruct rest as [| y rest'].
  - simpl. apply split_word. exact Hx.
  - rewrite join_cons by discriminate.
    change (" " ++ Devices.join " " (y :: rest'))%string
      with (String Devices.space (Devices.join " " (y :: rest'))).
    rewrite (split_word_app x _ Hx), IH; [reflexivity | discriminate | exact Hrest].
Qed.

Lemma split_no_space (s : string) :
  Forall (fun x => Devices.no_space x = true) (Devices.split Devices.space s).
Proof.
  induction s as [| c rest IH]; simpl.
  - constructor; [reflexivity | constructor].
  - destruct (Ascii.eqb c Devices.space) eqn:E.
    + constructor; [reflexivity | exact IH].
    + destruct (Devices.split Devices.space rest) as [| word words].
      * constructor; [simpl; rewrite E; reflexivity | constructor].
      * inversion IH as [| ? ? Hw Hws]; subst.
        constructor; [simpl; rewrite E, Hw; reflexivity | exact Hws].
Qed.

Lemma list_remove_Forall (P : string -> Prop) (x : string) (l l' : list string) :
  Devices.list_remove x l = Some l' -> Forall P l -> Forall P l'.
Proof.
  revert l'. induction l as [| y rest IH]; simpl; intros l'; [discriminate |].
  intros H Hall. inversion Hall as [| ? ? Hy Hrest]; subst.
  destruct (y =? x).
  - injection H as <-. exact Hrest.
  - destruct (Devices.list_remove x rest) as [rest' |]; [| discriminate].
    injection H as <-. constructor; [exact Hy | apply IH; [reflexivity | exact Hrest]].
Qed.

Lemma list_remove_snoc (x : string) (l : list string) :
  Devices.list_contains x l = false ->
  Devices.list_remove x (l ++ [x]) = Some l.
Proof.
  unfold Devices.list_contains.
  induction l as [| y rest IH]; simpl.
  - intros _. rewrite String.eqb_refl. reflexivity.
  - intros H. apply orb_false_iff in H. destruct H as [Hy Hrest].
    rewrite String.eqb_sym, Hy, (IH Hrest). reflexivity.
Qed.

Lemma list_contains_snoc (x : string) (l : list string) :
  Devices.list_contains x (l ++ [x]) = true.
Proof.
  unfold Devices.list_contains. rewrite existsb_app. simpl.
  rewrite String.eqb_refl, orb_true_r. reflexivity.
Qed.

Lemma list_remove_contains (x : string) (l : list string) :
  Devices.list_contains x l = true -> exists l', Devices.list_remove x l = Some l'.
Proof.
  unfold Devices.list_contains.
  induction l as [| y rest IH]; simpl; [discriminate |].
  destruct (y =? x) eqn:E; [intros _; eexists; reflexivity |].
  rewrite String.eqb_sym, E. simpl. intros H.
  destruct (IH H) as [l' ->]. eexists. reflexivity.
Qed.

Lemma list_remove_split (x : string) (l : list string) :
  Devices.list_contains x l = true ->
  exists before after,
    l = before ++ x :: after
    /\ ~ In x before
    /\ Devices.list_remove x l = Some (before ++ after).
Proof.
  unfold Devices.list_contains.
  induction l as [| y rest IH]; simpl; [discriminate |].
  destruct (y =? x) eqn:E.
  - apply String.eqb_eq in E. subst y. intros _. exists [], rest.
    split; [reflexivity |]. split; [intros [] | reflexivity].
  - rewrite String.eqb_sym, E. simpl. intros H.
    destruct (IH H) as [b [a [H1 [H2 H3]]]].
    exists (y :: b), a. split; [rewrite H1; reflexivity |].
    split.
    + intros [G | G]; [| exact (H2 G)].
      subst y. rewrite String.eqb_refl in E. discriminate.
    + rewrite H3. reflexivity.
Qed.

(** What a toggle writes parses back to the list it was made from. *)
Lemma toggle_feature_listed (id_string feature_name : string)
  (features : list (string * string)) :
  Devices.no_space id_string = true ->
  Devices.listed feature_name
    (Devices.toggle_feature id_string feature_name features)
  = if Devices.list_contains id_string (Devices.listed feature_name features)
    then match Devices.list_remove id_string
                 (Devices.listed feature_name features) with
         | Some (x :: rest) => x :: rest
         | _ => [EmptyString]
         end
    else Devices.listed feature_name features ++ [id_string].
Proof.
  intros Hid. unfold Devices.listed at 1, Devices.toggle_feature.
  rewrite dict_get_set, String.eqb_refl.
  fold (Devices.listed feature_name features).
  pose proof (split_no_space
                (match dict_get features feature_name with
                 | Some value => value
                 | None => EmptyString
                 end)) as Hall.
  fold (Devices.listed feature_name features) in Hall.
  destruct (Devices.list_contains id_string (Devices.listed feature_name features))
    eqn:Ec.
  - destruct (list_remove_contains _ _ Ec) as [l' Hl']. rewrite Hl'.
    destruct l' as [| x rest]; [reflexivity |].
    apply split_join; [discriminate |].
    exact (list_remove_Forall _ _ _ _ Hl' Hall).
  - apply split_join.
    + intros H. apply app_eq_nil in H. destruct H as [_ H]. discriminate.
    + apply Forall_app. split; [exact Hall |].
      constructor; [exact Hid | constructor].
Qed.

(** X14: for a device id without a space that a feature does not list,
    the toggle adds the id at the end of the list, what it writes parses
    back to that list, and a second toggle writes the feature back as it
    was (the empty string, if the feature was not set); no other feature
    changes.  A feature that is not set or empty lists the empty id, and the
    toggle keeps it: the value written starts with a space. *)
Theorem toggle_feature_twice (id_string feature_name : string)
  (features : list (string * string)) :
  Devices.no_space id_string = true ->
  Devices.list_contains id_string (Devices.listed feature_name features) = false ->
  Devices.listed feature_name
    (Devices.toggle_feature id_string feature_name features)
  = Devices.listed feature_name features ++ [id_string]
  /\ dict_get
       (Devices.toggle_feature id_string feature_name
          (Devices.toggle_feature id_string feature_name features))
       feature_name
     = Some (match dict_get features feature_name with
             | Some value => value
             | None => EmptyString
             end)
  /\ (forall other,
         other <> feature_name ->
         dict_get (Devices.toggle_feature id_string feature_name features) other
         = dict_get features other)
  /\ (match dict_get features feature_name with
      | Some value => value
      | None => EmptyString
      end = EmptyString ->
      dict_get (Devices.toggle_feature id_string feature_name features)
        feature_name
      = Some (" " ++ id_string)%string).
Proof.
  intros Hid Habs.
  pose proof (toggle_feature_listed id_string feature_name features Hid) as H1.
  rewrite Habs in H1.
  split; [exact H1 |]. split; [| split].
  - unfold Devices.toggle_feature at 1.
    fold (Devices.listed feature_name
            (Devices.toggle_feature id_string feature_name features)).
    rewrite H1, list_contains_snoc, (list_remove_snoc _ _ Habs).
    rewrite dict_get_set, String.eqb_refl. f_equal.
    unfold Devices.listed.
    change " " with (String Devices.space EmptyString). apply join_split.
  - intros other Hother. unfold Devices.toggle_feature.
    rewrite dict_get_set.
    destruct (feature_name =? other) eqn:E; [| reflexivity].
    apply String.eqb_eq in E. subst other. contradiction.
  - intros Hempty. unfold Devices.toggle_feature.
    rewrite dict_get_set, String.eqb_refl.
    unfold Devices.listed in Habs. rewrite Hempty in *.
    simpl Devices.split in *. rewrite Habs. reflexivity.
Qed.

Lemma toggle_feature_twice_witness :
  Devices.listed "attach-with-mic"
    (Devices.toggle_feature "sys-usb:2-1" "attach-with-mic"
       [("attach-with-mic", "sys-usb:1-4 sys-usb:3-2")])
  = ["sys-usb:1-4"; "sys-usb:3-2"; "sys-usb:2-1"]
  /\ dict_get
       (Devices.toggle_feature "sys-usb:2-1" "attach-with-mic"
          (Devices.toggle_feature "sys-usb:2-1" "attach-with-mic"
             [("attach-with-mic", "sys-usb:1-4 sys-usb:3-2")]))
       "attach-with-mic"
     = Some "sys-usb:1-4 sys-usb:3-2".
Proof.
  destruct (toggle_feature_twice "sys-usb:2-1" "attach-with-mic"
              [("attach-with-mic", "sys-usb:1-4 sys-usb:3-2")])
    as [H1 [H2 _]]; [reflexivity | reflexivity |].
  split; [exact H1 | exact H2].
Defined.

(** X15: for a device id without a space that a feature lists, the toggle
    takes the first occurrence of the id out of the list and leaves the
    other ids in their order; what it writes parses back to that list, but
    for the list left empty, which is written as the empty string and lists
    the empty id. *)
Theorem toggle_feature_removes (id_string feature_name : string)
  (features : list (string * string)) :
  Devices.no_space id_string = true ->
  Devices.list_contains id_string (Devices.listed feature_name features) = true ->
  exists before after,
    Devices.listed feature_name features = before ++ id_string :: after
    /\ ~ In id_string before
    /\ Devices.listed feature_name
         (Devices.toggle_feature id_string feature_name features)
       = match before ++ after with
         | [] => [EmptyString]
         | x :: rest => x :: rest
         end.
Proof.
  intros Hid Hc.
  rewrite (toggle_feature_listed id_string feature_name features Hid), Hc.
  destruct (list_remove_split _ _ Hc) as [b [a [H1 [H2 H3]]]].
  exists b, a. split; [exact H1 |]. split; [exact H2 |].
  rewrite H3. destruct (b ++ a); reflexivity.
Qed.

Lemma toggle_feature_removes_witness :
  exists before after,
    Devices.listed "attach-with-mic" [("attach-with-mic", "a b a")]
    = before ++ "a" :: after
    /\ ~ In "a" before
    /\ Devices.listed "attach-with-mic"
         (Devices.toggle_feature "a" "attach-with-mic"
            [("attach-with-mic", "a b a")])
       = match before ++ after with
         | [] => [EmptyString]
         | x :: rest => x :: rest
         end.
Proof.
  apply (toggle_feature_removes "a" "attach-with-mic"
           [("attach-with-mic", "a b a")]); reflexivity.
Defined.

(** ** The action widgets of a device *)

Lemma attached_vms_In (device : Devices.Device) (vms : list Devices.VM)
  (vm : Devices.VM) :
  In vm (Devices.attached_vms device vms)
  <-> In vm vms /\ Devices.attached device vm = true.
Proof. unfold Devices.attached_vms. apply filter_In. Qed.

Lemma assigned_vms_In (device : Devices.Device) (vms : list Devices.VM)
  (vm : Devices.VM) :
  In vm (Devices.assigned_vms device vms)
  <-> In vm vms /\ Devices.assigned device vm = true
      /\ Devices.attached device vm = false.
Proof.
  unfold Devices.assigned_vms. rewrite filter_In, andb_true_iff, negb_true_iff.
  tauto.
Qed.

Lemma other_vms_In (device : Devices.Device) (vms : list Devices.VM)
  (vm : Devices.VM) :
  In vm (Devices.other_vms device vms)
  <-> In vm vms /\ Devices.attached device vm = false
      /\ Devices.assigned device vm = false
      /\ Devices.name vm <> Devices.name (Devices.backend_domain device).
Proof.
  unfold Devices.other_vms.
  rewrite filter_In, !andb_true_iff, !negb_true_iff, String.eqb_neq. tauto.
Qed.

Lemma attached_vms_nil (device : Devices.Device) (vms : list Devices.VM) :
  Devices.attached_vms device vms = []
  <-> forall vm, In vm vms -> Devices.attached device vm = false.
Proof.
  split.
  - intros E vm Hin. destruct (Devices.attached device vm) eqn:Ea; [| reflexivity].
    assert (H : In vm (Devices.attached_vms device vms))
      by (apply attached_vms_In; split; assumption).
    rewrite E in H. contradiction.
  - intros H. destruct (Devices.attached_vms device vms) as [| vm rest] eqn:E;
      [reflexivity |].
    assert (Hin : In vm (Devices.attached_vms device vms))
      by (rewrite E; left; reflexivity).
    apply attached_vms_In in Hin. destruct Hin as [Hin Ha].
    rewrite (H vm Hin) in Ha. discriminate.
Qed.

(** The widgets of [get_child_widgets] between the two first and the last,
    by the case of the generator. *)
Lemma get_child_widgets_cases (device : Devices.Device)
  (vms disp : list Devices.VM) :
  ((exists vm, In vm vms /\ Devices.attached device vm = true)
   /\ Devices.get_child_widgets device vms disp
      = [Devices.DeviceHeaderWidget; Devices.SeparatorItem]
        ++ (flat_map
              (fun vm =>
                 [Devices.DetachWidget vm]
                 ++ (if Devices.should_be_cleaned_up vm
                     then [Devices.DetachAndShutdownWidget vm] else [])
                 ++ (if Devices.attach_with_me device
                     then [Devices.DetachWithWidget vm] else []))
              (Devices.attached_vms device vms)
            ++ [Devices.SeparatorItem]
            ++ (match Devices.assigned_vms device vms with
                | _ :: _ => [Devices.InfoHeader "Detach and attach to preferred qube:"]
                | [] => []
                end)
            ++ map Devices.DetachAndAttachWidget (Devices.assigned_vms device vms)
            ++ [Devices.InfoHeader "Detach and attach to other qube:"]
            ++ map Devices.DetachAndAttachWidget (Devices.other_vms device vms)
            ++ [Devices.SeparatorItem]
            ++ [Devices.InfoHeader "Detach and attach to new disposable qube:"]
            ++ map Devices.DetachAndAttachDisposableWidget disp)
        ++ [Devices.DeviceSettingsWidget])
  \/ ((forall vm, In vm vms -> Devices.attached device vm = false)
      /\ Devices.get_child_widgets device vms disp
         = [Devices.DeviceHeaderWidget; Devices.SeparatorItem]
           ++ ((match Devices.assigned_vms device vms with
                | _ :: _ => [Devices.InfoHeader "Attach to preferred qube:"]
                | [] => []
                end)
               ++ map (Devices.new_AttachWidget device)
                    (Devices.assigned_vms device vms)
               ++ [Devices.InfoHeader "Attach to qube:"]
               ++ map (Devices.new_AttachWidget device)
                    (Devices.other_vms device vms)
               ++ [Devices.SeparatorItem]
               ++ [Devices.InfoHeader "Attach to new disposable qube:"]
               ++ map Devices.AttachDisposableWidget disp)
           ++ [Devices.DeviceSettingsWidget]).
Proof.
  unfold Devices.get_child_widgets.
  destruct (Devices.attached_vms device vms) as [| a rest] eqn:E.
  - right. split; [apply attached_vms_nil; exact E |].
    destruct (Devices.assigned_vms device vms); reflexivity.
  - left. split.
    + exists a. apply attached_vms_In. rewrite E. left. reflexivity.
    + destruct (Devices.assigned_vms device vms); reflexivity.
Qed.

(** X16: every widget [get_child_widgets] offers is justified by the state
    of the device.  A detach is offered only for a qube of the list the
    device is attached to (with shutdown only when the qube is to be cleaned
    up, with the other device only when there is one to attach along); an
    attachment, plain or after detaching, only to a qube of the list that
    does not have the device and that is assigned or is not the backend
    domain; widgets that detach appear only when some qube of the list has the
    device, plain attachments only when none has it; and an attach widget is
    actionable exactly when the policy allows the qube.  Headers and
    separators are never actionable. *)
Theorem get_child_widgets_sound (device : Devices.Device)
  (vms disp : list Devices.VM) (x : Devices.Widget) :
  In x (Devices.get_child_widgets device vms disp) ->
  match x with
  | Devices.DetachWidget vm =>
      In vm vms /\ Devices.attached device vm = true
  | Devices.DetachAndShutdownWidget vm =>
      In vm vms /\ Devices.attached device vm = true
      /\ Devices.should_be_cleaned_up vm = true
  | Devices.DetachWithWidget vm =>
      In vm vms /\ Devices.attached device vm = true
      /\ Devices.attach_with_me device = true
  | Devices.DetachAndAttachWidget vm =>
      In vm vms /\ Devices.attached device vm = false
      /\ (Devices.assigned device vm = true
          \/ Devices.name vm <> Devices.name (Devices.backend_domain device))
      /\ exists a, In a vms /\ Devices.attached device a = true
  | Devices.DetachAndAttachDisposableWidget vm =>
      In vm disp /\ exists a, In a vms /\ Devices.attached device a = true
  | Devices.AttachWidget vm b =>
      In vm vms /\ Devices.attached device vm = false
      /\ (Devices.assigned device vm = true
          \/ Devices.name vm <> Devices.name (Devices.backend_domain device))
      /\ b = Devices.valid_for device vm
      /\ forall a, In a vms -> Devices.attached device a = false
  | Devices.AttachDisposableWidget vm =>
      In vm disp /\ forall a, In a vms -> Devices.attached device a = false
  | Devices.DeviceHeaderWidget | Devices.SeparatorItem | Devices.InfoHeader _ =>
      Devices.wrapper_sensitive x = false
  | Devices.DeviceSettingsWidget => True
  end.
Proof.
  intros Hin.
  destruct (get_child_widgets_cases device vms disp) as [[Hsome E] | [Hnone E]];
    rewrite E in Hin; clear E.
  - repeat (apply in_app_or in Hin; destruct Hin as [Hin | Hin]).
    + simpl in Hin. destruct Hin as [<- | [<- | []]]; reflexivity.
    + apply in_flat_map in Hin. destruct Hin as [vm [Hvm Hin]].
      apply attached_vms_In in Hvm. destruct Hvm as [Hvm Ha].
      repeat (apply in_app_or in Hin; destruct Hin as [Hin | Hin]).
      * destruct Hin as [<- | []]. split; assumption.
      * destruct (Devices.should_be_cleaned_up vm) eqn:Ec; [| contradiction].
        destruct Hin as [<- | []]. repeat split; assumption.
      * destruct (Devices.attach_with_me device) eqn:Ec; [| contradiction].
        destruct Hin as [<- | []]. repeat split; assumption.
    + destruct Hin as [<- | []]. reflexivity.
    + destruct (Devices.assigned_vms device vms); [contradiction |].
      destruct Hin as [<- | []]. reflexivity.
    + apply in_map_iff in Hin. destruct Hin as [vm [<- Hvm]].
      apply assigned_vms_In in Hvm. destruct Hvm as [Hvm [Has Ha]].
      split; [exact Hvm |]. split; [exact Ha |]. split; [left; exact Has |].
      exact Hsome.
    + destruct Hin as [<- | []]. reflexivity.
    + apply in_map_iff in Hin. destruct Hin as [vm [<- Hvm]].
      apply other_vms_In in Hvm. destruct Hvm as [Hvm [Ha [_ Hn]]].
      split; [exact Hvm |]. split; [exact Ha |]. split; [right; exact Hn |].
      exact Hsome.
    + destruct Hin as [<- | []]. reflexivity.
    + destruct Hin as [<- | []]. reflexivity.
    + apply in_map_iff in Hin. destruct Hin as [vm [<- Hvm]].
      split; [exact Hvm | exact Hsome].
    + destruct Hin as [<- | []]. exact I.
  - repeat (apply in_app_or in Hin; destruct Hin as [Hin | Hin]).
    + simpl in Hin. destruct Hin as [<- | [<- | []]]; reflexivity.
    + destruct (Devices.assigned_vms device vms); [contradiction |].
      destruct Hin as [<- | []]. reflexivity.
    + apply in_map_iff in Hin. destruct Hin as [vm [<- Hvm]].
      apply assigned_vms_In in Hvm. destruct Hvm as [Hvm [Has Ha]].
      simpl. repeat split; try assumption. left. exact Has.
    + destruct Hin as [<- | []]. reflexivity.
    + apply in_map_iff in Hin. destruct Hin as [vm [<- Hvm]].
      apply other_vms_In in Hvm. destruct Hvm as [Hvm [Ha [_ Hn]]].
      simpl. repeat split; try assumption. right. exact Hn.
    + destruct Hin as [<- | []]. reflexivity.
    + destruct Hin as [<- | []]. reflexivity.
    + apply in_map_iff in Hin. destruct Hin as [vm [<- Hvm]].
      split; [exact Hvm | exact Hnone].
    + destruct Hin as [<- | []]. exact I.
Qed.

Lemma get_child_widgets_sound_witness :
  In (Devices.DetachAndShutdownWidget Devices.disp1)
    (Devices.get_child_widgets Devices.camera
       [Devices.sys_usb; Devices.work_vm; Devices.vault_vm; Devices.disp1]
       [Devices.default_dvm])
  /\ Devices.attached Devices.camera Devices.disp1 = true
  /\ Devices.should_be_cleaned_up Devices.disp1 = true.
Proof.
  assert (H : In (Devices.DetachAndShutdownWidget Devices.disp1)
                (Devices.get_child_widgets Devices.camera
                   [Devices.sys_usb; Devices.work_vm; Devices.vault_vm;
                    Devices.disp1]
                   [Devices.default_dvm])).
  { simpl. tauto. }
  split; [exact H |].
  exact (proj2 (get_child_widgets_sound Devices.camera _ _ _ H)).
Defined.

(** X17: [get_child_widgets] leaves no qube out.  The list starts with the
    device header and a separator and ends with the device settings.  Every
    qube of the list that has the device gets its detach widget (and the
    detach-and-shut-down widget when it is to be cleaned up); every other
    qube of the list that is assigned, or is not the backend domain, gets one
    widget to attach the device to it, and every disposable template one for
    a new disposable: detaching first when some qube of the list has the
    device, plainly when none has it. *)
Theorem get_child_widgets_complete (device : Devices.Device)
  (vms disp : list Devices.VM) :
  (exists middle,
      Devices.get_child_widgets device vms disp
      = Devices.DeviceHeaderWidget :: Devices.SeparatorItem :: middle
        ++ [Devices.DeviceSettingsWidget])
  /\ (forall vm,
         In vm vms -> Devices.attached device vm = true ->
         In (Devices.DetachWidget vm) (Devices.get_child_widgets device vms disp)
         /\ (Devices.should_be_cleaned_up vm = true ->
             In (Devices.DetachAndShutdownWidget vm)
               (Devices.get_child_widgets device vms disp))
         /\ (Devices.attach_with_me device = true ->
             In (Devices.DetachWithWidget vm)
               (Devices.get_child_widgets device vms disp)))
  /\ (forall vm,
         In vm vms -> Devices.attached device vm = false ->
         Devices.assigned device vm = true
         \/ Devices.name vm <> Devices.name (Devices.backend_domain device) ->
         In (if existsb (Devices.attached device) vms
             then Devices.DetachAndAttachWidget vm
             else Devices.AttachWidget vm (Devices.valid_for device vm))
           (Devices.get_child_widgets device vms disp))
  /\ (forall vm,
         In vm disp ->
         In (if existsb (Devices.attached device) vms
             then Devices.DetachAndAttachDisposableWidget vm
             else Devices.AttachDisposableWidget vm)
           (Devices.get_child_widgets device vms disp)).
Proof.
  assert (Hmode : existsb (Devices.attached device) vms = true
                  <-> exists vm, In vm vms /\ Devices.attached device vm = true)
    by apply existsb_exists.
  destruct (get_child_widgets_cases device vms disp) as [[Hsome E] | [Hnone E]];
    rewrite E; clear E.
  - rewrite (proj2 Hmode Hsome).
    split; [eexists; reflexivity |]. split; [| split].
    + intros vm Hvm Ha.
      assert (Hin : In vm (Devices.attached_vms device vms))
        by (apply attached_vms_In; split; assumption).
      split; [| split].
      * apply in_or_app. right. apply in_or_app. left. apply in_or_app. left.
        apply in_flat_map. exists vm. split; [exact Hin | left; reflexivity].
      * intros Hc. apply in_or_app. right. apply in_or_app. left.
        apply in_or_app. left.
        apply in_flat_map. exists vm. split; [exact Hin |].
        rewrite Hc. right. left. reflexivity.
      * intros Hc. apply in_or_app. right. apply in_or_app. left.
        apply in_or_app. left.
        apply in_flat_map. exists vm. split; [exact Hin |].
        rewrite Hc. apply in_or_app. right. apply in_or_app. right.
        left. reflexivity.
    + intros vm Hvm Ha Hor.
      apply in_or_app. right. apply in_or_app. left.
      destruct (Devices.assigned device vm) eqn:Eas.
      * do 3 (apply in_or_app; right). apply in_or_app. left.
        apply in_map. apply assigned_vms_In. repeat split; assumption.
      * destruct Hor as [Hor | Hor]; [discriminate |].
        do 5 (apply in_or_app; right). apply in_or_app. left.
        apply in_map. apply other_vms_In. repeat split; assumption.
    + intros vm Hvm. apply in_or_app. right. apply in_or_app. left.
      do 8 (apply in_or_app; right). apply in_map. exact Hvm.
  - assert (Hno : existsb (Devices.attached device) vms = false).
    { apply not_true_iff_false. intros H. apply Hmode in H.
      destruct H as [vm [Hvm Ha]]. rewrite (Hnone vm Hvm) in Ha. discriminate. }
    rewrite Hno.
    split; [eexists; reflexivity |]. split; [| split].
    + intros vm Hvm Ha. rewrite (Hnone vm Hvm) in Ha. discriminate.
    + intros vm Hvm Ha Hor.
      apply in_or_app. right. apply in_or_app. left.
      destruct (Devices.assigned device vm) eqn:Eas.
      * apply in_or_app. right. apply in_or_app. left.
        apply (in_map (Devices.new_AttachWidget device)).
        apply assigned_vms_In. repeat split; assumption.
      * destruct Hor as [Hor | Hor]; [discriminate |].
        do 3 (apply in_or_app; right). apply in_or_app. left.
        apply (in_map (Devices.new_AttachWidget device)).
        apply other_vms_In. repeat split; assumption.
    + intros vm Hvm. apply in_or_app. right. apply in_or_app. left.
      do 6 (apply in_or_app; right). apply in_map. exact Hvm.
Qed.

(** * Properties of the actions *)

(** X18: in every state the tray reaches from its creation, activating an
    item of the submenu of a started domain starts with a request for that
    domain, the domain the entry is tracked under, that follows the shift
    flag of the tray: the terminal item asks for a terminal of root exactly
    when shift is pressed, and the shutdown and restart items ask for a forced
    shutdown exactly when shift is pressed. *)
Theorem activation_follows_shift (expert : bool)
  (signals : list (World * Signal)) (a : Admin) (k : string)
  (i : DomainMenuItem) (sub : Menu) (h : VM) (c : ActionItem) :
  dict_get (menu_items (run_signals signals (new_DomainTray expert))) k = Some i ->
  submenu i = Some sub -> menu_class sub = StartedMenu -> vm i = Some h ->
  In c (children sub) ->
  name h = k
  /\ match c with
     | RunTerminalItem _ _ =>
         exists r rest,
           perform_action a h c
           = Some (r,
                   api_request k
                     (request_run_service "qubes.StartApp+qubes-run-terminal"
                        (if shift_pressed
                              (run_signals signals (new_DomainTray expert))
                         then Some "root" else None))
                   :: rest)
     | ShutdownItem _ _ =>
         exists r rest,
           perform_action a h c
           = Some (r,
                   api_request k
                     (request_shutdown
                        (shift_pressed
                           (run_signals signals (new_DomainTray expert))))
                   :: rest)
     | RestartItem force _ =>
         forall given_up start_error polls,
         exists outcome given_up' rest,
           RestartItem_perform_action a h force given_up start_error polls
           = (outcome, given_up',
              api_request k
                (request_shutdown
                   (shift_pressed (run_signals signals (new_DomainTray expert))))
              :: rest)
     | _ => True
     end.
Proof.
  intros Hget Hsub Hclass Hvm Hc.
  set (s := run_signals signals (new_DomainTray expert)) in *.
  assert (Hname : name h = k).
  { assert (Hcons : consistent s).
    { apply run_signals_preserves.
      - apply preserves_consistent_run_signal.
      - apply consistent_new_DomainTray. }
    destruct Hcons as [_ [Hnames _]]. unfold skeleton in Hnames. simpl in Hnames.
    rewrite Forall_forall in Hnames.
    destruct (Hnames _ (dict_get_keyed _ _ _ Hget)) as [h' [Hh' Hn]].
    simpl in Hh', Hn. rewrite Hvm in Hh'. injection Hh' as <-. exact Hn. }
  split; [exact Hname |].
  destruct (shift_coherent_run_signals expert signals) as [_ Hall].
  fold s in Hall.
  pose proof (dict_get_Forall _ _ _ _ Hall Hget) as Hi. simpl in Hi.
  unfold item_configured in Hi. rewrite Hsub in Hi. destruct Hi as [_ Hi].
  unfold is_StartedMenu in Hi. rewrite Hclass in Hi. simpl in Hi.
  rewrite forallb_forall in Hi. specialize (Hi c Hc).
  destruct c; try exact I; simpl in Hi; apply andb_prop in Hi;
    destruct Hi as [_ Hf]; apply Bool.eqb_prop in Hf; rewrite <- Hname;
    clear Hname Hget; subst.
  - unfold perform_action, try_request.
    destruct (answers a _) as [[] | e]; [eexists; eexists; reflexivity |].
    destruct (issubclass e QubesException); eexists; eexists; reflexivity.
  - unfold perform_action.
    destruct (answers a _) as [[] | e]; [eexists; eexists; reflexivity |].
    destruct (issubclass e QubesException);
      [destruct (shift_pressed s) |]; eexists; eexists; reflexivity.
  - intros given_up start_error polls. unfold RestartItem_perform_action.
    destruct (answers a _) as [[] | e];
      [eexists; eexists; eexists; reflexivity |].
    destruct (issubclass e QubesException);
      [destruct (shift_pressed s) |]; eexists; eexists; eexists; reflexivity.
Qed.

Lemma activation_follows_shift_witness :
  exists r rest,
    perform_action stubborn_admin work (new_ShutdownItem false)
    = Some (r, api_request "work" (request_shutdown false) :: rest).
Proof.
  destruct (dict_get (menu_items (run_signals [(world_running, signal_run)]
                                    (new_DomainTray false))) "work")
    as [i |] eqn:Ei; [| discriminate Ei].
  destruct (submenu i) as [sub |] eqn:Es;
    [| vm_compute in Ei; injection Ei as <-; discriminate Es].
  assert (Hi : i = match dict_get (menu_items tray_running) "work" with
                   | Some x => x
                   | None => i
                   end).
  { change (run_signals [(world_running, signal_run)] (new_DomainTray false))
      with tray_running in Ei. rewrite Ei. reflexivity. }
  assert (Hsub : Some sub = submenu i) by (symmetry; exact Es).
  rewrite Hi in Hsub. vm_compute in Hsub. injection Hsub as Hsub.
  destruct (activation_follows_shift false [(world_running, signal_run)]
              stubborn_admin "work" i sub work (new_ShutdownItem false)
              Ei Es) as [_ H].
  - rewrite Hsub. reflexivity.
  - rewrite Hi. reflexivity.
  - rewrite Hsub. simpl. tauto.
  - exact H.
Defined.

(** ** Errors of the requests *)

(** X19: an item's action makes at most one request to the admin API; when
    the API fails only with [QubesException]s the action raises nothing; it
    shows an error or asks a question only when its request has failed; and
    a forced shutdown is requested only by a shutdown item that holds the
    force flag, or from the question dialog when the response is OK. *)
Theorem perform_action_contains_errors (a : Admin) (v : VM) (item : ActionItem)
  (r : result unit) (effects : list UiEffect) :
  perform_action a v item = Some (r, effects) ->
  List.length (filter is_api_request effects) <= 1
  /\ ((forall c e, answers a c = Raise e -> issubclass e QubesException = true) ->
      r = Ok tt)
  /\ (forall x, In x effects ->
        match x with
        | show_error _ _ | question_dialog _ _ =>
            exists c e, In (api_request (name v) c) effects
                        /\ answers a c = Raise e
        | _ => True
        end)
  /\ (existsb is_forced_shutdown effects = true ->
      exists label, item = ShutdownItem true label)
  /\ (forall response,
        existsb is_forced_shutdown
          (snd (ShutdownItem_react_to_question a v response)) = true
        <-> response = RESPONSE_OK).
Proof.
  intros H.
  assert (Htry : forall c title text,
             (r, effects) = try_request a v c title text ->
             c <> request_shutdown true ->
             List.length (filter is_api_request effects) <= 1
             /\ ((forall c e, answers a c = Raise e ->
                              issubclass e QubesException = true) -> r = Ok tt)
             /\ (forall x, In x effects ->
                   match x with
                   | show_error _ _ | question_dialog _ _ =>
                       exists c e, In (api_request (name v) c) effects
                                   /\ answers a c = Raise e
                   | _ => True
                   end)
             /\ (existsb is_forced_shutdown effects = true ->
                 exists label, item = ShutdownItem true label)).
  { intros c title text E Hc. unfold try_request in E.
    destruct (answers a c) as [[] | e] eqn:Ea.
    - injection E as -> ->. simpl.
      split; [lia |]. split; [reflexivity |]. split.
      + intros x [<- | []]. exact I.
      + destruct c as [| | [|] | |]; try discriminate. contradiction.
    - destruct (issubclass e QubesException) eqn:Ee; injection E as -> ->; simpl.
      + split; [lia |]. split; [reflexivity |]. split.
        * intros x [<- | [<- | []]]; [exact I |].
          exists c, e. split; [left; reflexivity | exact Ea].
        * destruct c as [| | [|] | |]; try discriminate. contradiction.
      + split; [lia |]. split.
        * intros Hall. pose proof (Hall c e Ea) as Hq.
          simpl in Hq, Ee. congruence.
        * split; [intros x [<- | []]; exact I |].
          destruct c as [| | [|] | |]; try discriminate. contradiction. }
  assert (Hreact : forall response,
             existsb is_forced_shutdown
               (snd (ShutdownItem_react_to_question a v response)) = true
             <-> response = RESPONSE_OK).
  { intros [|]; unfold ShutdownItem_react_to_question.
    - destruct (answers a (request_shutdown true)) as [[] | e];
        [split; intros _; reflexivity |].
      destruct (issubclass e QubesException); split; intros _; reflexivity.
    - split; discriminate. }
  assert (Hexec : forall argv,
             (r, effects) = (Ok tt, [create_subprocess_exec argv]) ->
             List.length (filter is_api_request effects) <= 1
             /\ ((forall c e, answers a c = Raise e ->
                              issubclass e QubesException = true) -> r = Ok tt)
             /\ (forall x, In x effects ->
                   match x with
                   | show_error _ _ | question_dialog _ _ =>
                       exists c e, In (api_request (name v) c) effects
                                   /\ answers a c = Raise e
                   | _ => True
                   end)
             /\ (existsb is_forced_shutdown effects = true ->
                 exists label, item = ShutdownItem true label)).
  { intros argv E. injection E as -> ->. simpl.
    split; [lia |]. split; [reflexivity |]. split.
    - intros x [<- | []]. exact I.
    - discriminate. }
  assert (Hgoal : List.length (filter is_api_request effects) <= 1
                  /\ ((forall c e, answers a c = Raise e ->
                                   issubclass e QubesException = true) ->
                      r = Ok tt)
                  /\ (forall x, In x effects ->
                        match x with
                        | show_error _ _ | question_dialog _ _ =>
                            exists c e, In (api_request (name v) c) effects
                                        /\ answers a c = Raise e
                        | _ => True
                        end)
                  /\ (existsb is_forced_shutdown effects = true ->
                      exists label, item = ShutdownItem true label)).
  { assert (Hsome : forall x : result unit * list UiEffect,
               Some x = Some (r, effects) -> (r, effects) = x)
      by (intros x E; congruence).
    destruct item as [| as_root l | vis | | | | force l | force l | | title path |];
      unfold perform_action in H; try discriminate H; apply Hsome in H;
      try (apply (Htry _ _ _ H); discriminate);
      try (apply (Hexec _ H)).
    destruct (answers a (request_shutdown force)) as [[] | e] eqn:Ea.
    - injection H as -> ->. simpl.
      split; [lia |]. split; [reflexivity |]. split.
      + intros x [<- | []]. exact I.
      + destruct force; [intros _; eexists; reflexivity | discriminate].
    - destruct (issubclass e QubesException) eqn:Ee.
      + destruct force; injection H as -> ->; simpl.
        * split; [lia |]. split; [reflexivity |]. split.
          -- intros x [<- | [<- | []]]; [exact I |].
             exists (request_shutdown true), e.
             split; [left; reflexivity | exact Ea].
          -- intros _. eexists. reflexivity.
        * split; [lia |]. split; [reflexivity |]. split.
          -- intros x [<- | [<- | []]]; [exact I |].
             exists (request_shutdown false), e.
             split; [left; reflexivity | exact Ea].
          -- discriminate.
      + injection H as -> ->. simpl. split; [lia |]. split.
        * intros Hall. pose proof (Hall _ e Ea) as Hq.
          simpl in Hq, Ee. congruence.
        * split; [intros x [<- | []]; exact I |].
          destruct force; [intros _; eexists; reflexivity | discriminate]. }
  destruct Hgoal as [G1 [G2 [G3 G4]]].
  repeat split; try assumption; apply Hreact.
Qed.

Lemma perform_action_contains_errors_witness :
  perform_action stubborn_admin work (new_ShutdownItem false)
  = Some (Ok tt,
          [api_request "work" (request_shutdown false);
           shutdown_question stubborn_admin work "Error shutting down qube"
             QubesException])
  /\ existsb is_forced_shutdown
       [api_request "work" (request_shutdown false);
        shutdown_question stubborn_admin work "Error shutting down qube"
          QubesException]
     = false.
Proof.
  split; [reflexivity |].
  destruct (perform_action_contains_errors stubborn_admin work
              (new_ShutdownItem false) (Ok tt)
              [api_request "work" (request_shutdown false);
               shutdown_question stubborn_admin work "Error shutting down qube"
                 QubesException] eq_refl) as [_ [_ [_ [H _]]]].
  apply not_true_iff_false. intros E. destruct (H E) as [label Hl].
  discriminate Hl.
Defined.

(** ** Restart *)

Lemma react_no_start (a : Admin) (v : VM) (r : Response) (g : bool) :
  existsb is_start (snd (RestartItem_react_to_question a v r g)) = false.
Proof.
  destruct r; unfold RestartItem_react_to_question; [| reflexivity].
  destruct (answers a (request_shutdown true)) as [[] | e]; [reflexivity |].
  destruct (issubclass e QubesException); reflexivity.
Qed.

Lemma RestartItem_wait_start (a : Admin) (v : VM) (start_error : option string)
  (polls : list Poll) :
  forall dialog given_up,
    existsb is_start
      (snd (RestartItem_wait a v start_error dialog given_up polls)) = true ->
    exists p, In p polls /\ is_running_answer p = Ok false.
Proof.
  induction polls as [| p rest IH]; intros dialog given_up;
    cbn [RestartItem_wait]; [simpl; discriminate |].
  destruct (is_running_answer p) as [[|] | e] eqn:Er.
  - destruct given_up; [simpl; discriminate |]. cbn [snd existsb is_start].
    rewrite existsb_app, orb_false_l, orb_true_iff. intros [H | H].
    + exfalso. destruct (response p) as [r |]; [destruct dialog |];
        cbn [snd fst] in H; try discriminate H.
      rewrite react_no_start in H. discriminate H.
    + destruct (IH _ _ H) as [q [Hq1 Hq2]]. exists q. split; [right |]; assumption.
  - intros _. exists p. split; [left; reflexivity | exact Er].
  - destruct (issubclass e QubesException); simpl; discriminate.
Qed.

Lemma react_forced (a : Admin) (v : VM) (r : Response) (g : bool) :
  existsb is_forced_shutdown (snd (RestartItem_react_to_question a v r g)) = true ->
  r = RESPONSE_OK.
Proof. destruct r; [intros _; reflexivity | simpl; discriminate]. Qed.

Lemma RestartItem_wait_forced (a : Admin) (v : VM) (start_error : option string)
  (polls : list Poll) :
  forall dialog given_up,
    existsb is_forced_shutdown
      (snd (RestartItem_wait a v start_error dialog given_up polls)) = true ->
    dialog = true /\ exists p, In p polls /\ response p = Some RESPONSE_OK.
Proof.
  induction polls as [| p rest IH]; intros dialog given_up;
    cbn [RestartItem_wait]; [simpl; discriminate |].
  destruct (is_running_answer p) as [[|] | e] eqn:Er.
  - destruct given_up; [simpl; discriminate |].
    cbn [snd existsb is_forced_shutdown].
    rewrite existsb_app, orb_false_l, orb_true_iff. intros [H | H].
    + destruct (response p) as [r |] eqn:Ep; [destruct dialog |];
        cbn [snd fst] in H; try discriminate H.
      apply react_forced in H. subst r.
      split; [reflexivity |]. exists p. split; [left; reflexivity | exact Ep].
    + destruct (IH _ _ H) as [Hd [q [Hq1 Hq2]]].
      split.
      * destruct (response p) as [r |]; [destruct dialog |]; cbn [fst] in Hd;
          [discriminate Hd | discriminate Hd | exact Hd].
      * exists q. split; [right |]; assumption.
  - destruct start_error; simpl; discriminate.
  - destruct (issubclass e QubesException); simpl; discriminate.
Qed.

Lemma RestartItem_wait_running (a : Admin) (v : VM) (n : nat) (p : Poll)
  (rest : list Poll) :
  is_running_answer p = Ok false ->
  RestartItem_wait a v None false false
    (repeat {| is_running_answer := Ok true; response := None |} n ++ p :: rest)
  = (Returned, false,
     repeat asyncio_sleep n ++ [create_subprocess_exec ["qvm-start"; name v]]).
Proof.
  intros Hp. induction n as [| n IH]; simpl.
  - rewrite Hp. reflexivity.
  - rewrite IH. reflexivity.
Qed.

Lemma RestartItem_wait_given_up (a : Admin) (v : VM)
  (start_error : option string) (dialog : bool) (polls : list Poll) :
  snd (fst (RestartItem_wait a v start_error dialog true polls)) = true
  /\ existsb is_sleep (snd (RestartItem_wait a v start_error dialog true polls))
     = false.
Proof.
  destruct polls as [| p rest]; cbn [RestartItem_wait]; [split; reflexivity |].
  destruct (is_running_answer p) as [[|] | e].
  - split; reflexivity.
  - destruct start_error; split; reflexivity.
  - destruct (issubclass e QubesException); split; reflexivity.
Qed.

(** X20: the restart of a qube.  The qube is started only after a poll has
    found it not running.  A forced shutdown that fails ends the action with
    the error shown: no waiting, no start.  When the shutdown is taken and
    the qube is found running for some polls and then stopped, the action
    sleeps once for each of those polls and then starts the qube.  An item
    whose give-up attribute is set keeps it set and never waits: it only
    shuts the qube down, and at the first poll that finds the qube running
    the action ends.  A forced shutdown is requested only with the force flag, or from
    the question dialog of a failed plain shutdown on the response OK. *)
Theorem restart_waits_then_starts (a : Admin) (v : VM) (force given_up : bool)
  (start_error : option string) (polls : list Poll) :
  (existsb is_start
     (snd (RestartItem_perform_action a v force given_up start_error polls))
   = true ->
   exists p, In p polls /\ is_running_answer p = Ok false)
  /\ (forall e,
         force = true -> answers a (request_shutdown true) = Raise e ->
         issubclass e QubesException = true ->
         RestartItem_perform_action a v force given_up start_error polls
         = (Returned, given_up,
            [api_request (name v) (request_shutdown true);
             restart_error
               ("The following error occurred while attempting to restartqube "
                ++ name v ++ ":" ++ newline ++ str a e)%string]))
  /\ (forall n p rest,
         answers a (request_shutdown force) = Ok tt ->
         given_up = false -> start_error = None ->
         polls
         = repeat {| is_running_answer := Ok true; response := None |} n
           ++ p :: rest ->
         is_running_answer p = Ok false ->
         RestartItem_perform_action a v force given_up start_error polls
         = (Returned, false,
            api_request (name v) (request_shutdown force)
            :: repeat asyncio_sleep n
            ++ [create_subprocess_exec ["qvm-start"; name v]]))
  /\ (forall p rest,
         answers a (request_shutdown force) = Ok tt ->
         given_up = true -> polls = p :: rest ->
         is_running_answer p = Ok true ->
         RestartItem_perform_action a v force given_up start_error polls
         = (Returned, true, [api_request (name v) (request_shutdown force)]))
  /\ (given_up = true ->
      snd (fst (RestartItem_perform_action a v force given_up start_error polls))
      = true
      /\ existsb is_sleep
           (snd (RestartItem_perform_action a v force given_up start_error polls))
         = false)
  /\ (existsb is_forced_shutdown
        (snd (RestartItem_perform_action a v force given_up start_error polls))
      = true ->
      force = true
      \/ (exists e, answers a (request_shutdown false) = Raise e)
         /\ exists p, In p polls /\ response p = Some RESPONSE_OK).
Proof.
  split; [| split; [| split; [| split; [| split]]]].
  - unfold RestartItem_perform_action.
    destruct (answers a (request_shutdown force)) as [[] | e].
    + cbn [snd existsb is_start orb]. apply RestartItem_wait_start.
    + destruct (issubclass e QubesException); [| simpl; discriminate].
      destruct force; [simpl; discriminate |].
      cbn [snd existsb is_start shutdown_question orb].
      apply RestartItem_wait_start.
  - intros e -> Ha He. unfold RestartItem_perform_action. rewrite Ha, He.
    reflexivity.
  - intros n p rest Ha -> -> -> Hp. unfold RestartItem_perform_action.
    rewrite Ha, (RestartItem_wait_running a v n p rest Hp). reflexivity.
  - intros p rest Ha -> -> Hp. unfold RestartItem_perform_action.
    rewrite Ha. cbn [RestartItem_wait]. rewrite Hp. reflexivity.
  - intros ->. unfold RestartItem_perform_action.
    pose proof (RestartItem_wait_given_up a v start_error false polls) as [F1 F2].
    pose proof (RestartItem_wait_given_up a v start_error true polls) as [T1 T2].
    destruct (answers a (request_shutdown force)) as [[] | e].
    + split; [exact F1 | exact F2].
    + destruct (issubclass e QubesException); [| split; reflexivity].
      destruct force; [split; reflexivity |].
      split; [exact T1 | exact T2].
  - unfold RestartItem_perform_action.
    destruct force; [intros _; left; reflexivity |].
    destruct (answers a (request_shutdown false)) as [[] | e] eqn:Ea.
    + cbn [snd existsb is_forced_shutdown orb].
      intros H. apply RestartItem_wait_forced in H. destruct H as [H _].
      discriminate H.
    + destruct (issubclass e QubesException); [| simpl; discriminate].
      cbn [snd existsb is_forced_shutdown shutdown_question orb].
      intros H. apply RestartItem_wait_forced in H. destruct H as [_ H].
      right. split; [exists e; reflexivity | exact H].
Qed.
